(** * OSVR-Unity rendering plugin: lifecycle of the render manager and the
      per-eye render buffers (src/OsvrRenderingPlugin.cpp)

    The plugin is a set of entry points called by the host (Unity) that read
    and write a handful of process-wide variables and call three external
    collaborators: the host graphics interface, the OSVR render manager and
    the native graphics API (Direct3D 11 or OpenGL).

    The embedding is shallow:
    - the process-wide variables are the fields of [State];
    - every entry point is a function in a state-and-error monad [M]; the
      error is C++ undefined behaviour (null dereference, use after delete,
      double delete, out-of-range [operator[]]);
    - every call that leaves the plugin is appended to a trace of [Event]s,
      and the answer of the collaborator comes from an oracle ([World],
      [RenderManager]) indexed by the number of calls made so far, so that
      successive calls may be answered differently. *)

From Stdlib Require Import ZArith String List Bool Lia.
From Stdlib Require QArith.
From stdpp Require Import base list.
Import ListNotations.

Local Open Scope string_scope.
Local Open Scope list_scope.
Local Open Scope Z_scope.

(** ** Native values *)

(** Addresses of objects owned by the host or by the graphics API
    ([void *], [ID3D11Texture2D *], [ID3D11RenderTargetView *], ...).
    [0] is the null address. *)
Definition Handle := Z.
Definition NULL : Handle := 0.

Definition GLuint := Z.
Definition GLenum := Z.
Definition HRESULT := Z.

(** [FAILED(hr)] of the Windows headers: the sign bit of the HRESULT. *)
Definition FAILED (hr : HRESULT) : bool := hr <? 0.

Definition GLEW_OK : GLenum := 0.
Definition GL_FRAMEBUFFER_COMPLETE : GLenum := 0x8CD5.

(** A C [double]: every finite double is a rational. *)
Definition double := QArith_base.Q.

(** The range of a 32-bit [int]. *)
Definition INT_MIN : Z := - 2 ^ 31.
Definition INT_MAX : Z := 2 ^ 31 - 1.

(** The integer part of a double: truncation toward zero. *)
Definition truncate (d : double) : Z :=
  Z.quot (QArith_base.Qnum d) (Z.pos (QArith_base.Qden d)).

Definition fits_int (d : double) : Prop :=
  INT_MIN <= truncate d <= INT_MAX.

(** [static_cast<int>(d)], and the implicit conversion of a double passed
    for a [GLsizei]: truncation toward zero when the integer part is in the
    range of [int].  Outside that range C++ leaves the conversion
    undefined; the x86 conversion instruction (cvttsd2si) then yields
    [INT_MIN], and this is the value the model takes.  The theorems that
    state a converted size take the size in the range. *)
Definition static_cast_int (d : double) : Z :=
  let z := truncate d in
  if (INT_MIN <=? z) && (z <=? INT_MAX) then z else INT_MIN.
Arguments truncate : simpl never.
Arguments static_cast_int : simpl never.

(** Conversion of an [int] to [unsigned]: reduction modulo 2^32. *)
Definition to_unsigned (z : Z) : Z := z mod 2 ^ 32.

(** A pointer owned by the plugin: null, pointing to a live object, or
    pointing to an object that was deleted.  [delete p] leaves the value of
    [p] as it is, so the variable then holds a dangling pointer. *)
Inductive Ptr (A : Type) : Type :=
| nullptr
| live (a : A)
| dangling.
Arguments nullptr {A}.
Arguments live {A} a.
Arguments dangling {A}.

(** ** Unity/IUnityGraphics.h *)

(** Modelled from the spec: the header Unity/IUnityGraphics.h, which
    declares [UnityGfxRenderer] and [UnityGfxDeviceEventType], is not among
    the sources.  The spec's BackendKind has None, the modern backend and
    the legacy backend, and it speaks of unrecognized renderer kinds.  The
    enumeration has the three members the source names
    ([kUnityGfxRendererNull], [kUnityGfxRendererD3D11],
    [kUnityGfxRendererOpenGL]) and, as the unrecognized kinds, the other
    members of Unity's native plugin interface. *)
Inductive UnityGfxRenderer : Type :=
| kUnityGfxRendererOpenGL
| kUnityGfxRendererD3D9
| kUnityGfxRendererD3D11
| kUnityGfxRendererGCM
| kUnityGfxRendererNull
| kUnityGfxRendererXenon
| kUnityGfxRendererOpenGLES20
| kUnityGfxRendererOpenGLES30
| kUnityGfxRendererGXM
| kUnityGfxRendererPS4
| kUnityGfxRendererXboxOne
| kUnityGfxRendererMetal
| kUnityGfxRendererOpenGLCore
| kUnityGfxRendererD3D12.

(** The integer value of each enumerator, as the source compares
    [s_DeviceType] with [-1]. *)
Definition renderer_value (r : UnityGfxRenderer) : Z :=
  match r with
  | kUnityGfxRendererOpenGL => 0
  | kUnityGfxRendererD3D9 => 1
  | kUnityGfxRendererD3D11 => 2
  | kUnityGfxRendererGCM => 3
  | kUnityGfxRendererNull => 4
  | kUnityGfxRendererXenon => 6
  | kUnityGfxRendererOpenGLES20 => 8
  | kUnityGfxRendererOpenGLES30 => 11
  | kUnityGfxRendererGXM => 12
  | kUnityGfxRendererPS4 => 13
  | kUnityGfxRendererXboxOne => 14
  | kUnityGfxRendererMetal => 16
  | kUnityGfxRendererOpenGLCore => 17
  | kUnityGfxRendererD3D12 => 18
  end.

#[global] Instance UnityGfxRenderer_eq_dec : EqDecision UnityGfxRenderer.
Proof. solve_decision. Defined.

(** Modelled from the spec: the event kinds {Initialize, Shutdown,
    BeforeReset, AfterReset} of the same header. *)
Inductive UnityGfxDeviceEventType : Type :=
| kUnityGfxDeviceEventInitialize
| kUnityGfxDeviceEventShutdown
| kUnityGfxDeviceEventBeforeReset
| kUnityGfxDeviceEventAfterReset.

#[global] Instance UnityGfxDeviceEventType_eq_dec :
  EqDecision UnityGfxDeviceEventType.
Proof. solve_decision. Defined.

(** ** osvr/Util/ReturnCodesC.h *)

(** Modelled from the spec: the header is not among the sources; the spec
    has ReturnCode{Success, Failure}. *)
Inductive OSVR_ReturnCode : Type :=
| OSVR_RETURN_SUCCESS
| OSVR_RETURN_FAILURE.

Definition OSVR_ClientContext := Handle.

(** ** d3d11.h *)

(** Modelled from the spec: the Direct3D headers are not among the sources.
    The spec has one fixed 8-bit-per-channel 4-component unsigned-normalized
    format, for a target usable both as a render target and as a
    shader-readable resource.  The formats are the two the source names and
    the zero value left by [memset]; the flags have the values of the
    Direct3D 11 headers. *)
Inductive DXGI_FORMAT : Type :=
| DXGI_FORMAT_UNKNOWN
| DXGI_FORMAT_R32G32B32A32_FLOAT
| DXGI_FORMAT_R8G8B8A8_UNORM.

Definition D3D11_USAGE_DEFAULT : Z := 0.
Definition D3D11_BIND_SHADER_RESOURCE : Z := 0x8.
Definition D3D11_BIND_RENDER_TARGET : Z := 0x20.
Definition D3D11_RTV_DIMENSION_TEXTURE2D : Z := 4.

Record D3D11_TEXTURE2D_DESC : Type := {
  Width : Z;
  Height : Z;
  MipLevels : Z;
  ArraySize : Z;
  Format : DXGI_FORMAT;
  SampleDesc_Count : Z;
  SampleDesc_Quality : Z;
  Usage : Z;
  BindFlags : Z;
  CPUAccessFlags : Z;
  MiscFlags : Z
}.

(** [memset(&textureDesc, 0, sizeof(textureDesc))] *)
Definition zero_TEXTURE2D_DESC : D3D11_TEXTURE2D_DESC :=
  {| Width := 0; Height := 0; MipLevels := 0; ArraySize := 0;
     Format := DXGI_FORMAT_UNKNOWN; SampleDesc_Count := 0;
     SampleDesc_Quality := 0; Usage := 0; BindFlags := 0;
     CPUAccessFlags := 0; MiscFlags := 0 |}.

Record D3D11_RENDER_TARGET_VIEW_DESC : Type := {
  rtv_Format : DXGI_FORMAT;
  rtv_ViewDimension : Z;
  rtv_Texture2D_MipSlice : Z
}.

(** ** RenderManager.h *)

(** Modelled from the spec: the render manager's header is not among the
    sources.  The spec has a per-eye RenderInfo {viewport rectangle,
    projection parameters, pose (position and orientation)}, a buffer
    sequence submitted to [present], and a manager that is created, reports
    whether it is okay, opens its display, reports the render info and
    presents.  The records have the members the source reads and writes. *)
Record OSVR_ViewportDescription : Type := {
  vp_left : double;
  vp_lower : double;
  vp_width : double;
  vp_height : double
}.

Record OSVR_ProjectionMatrix : Type := {
  pr_left : double; pr_right : double;
  pr_top : double; pr_bottom : double;
  pr_nearClip : double; pr_farClip : double
}.

Record OSVR_Pose3 : Type := {
  translation : double * double * double;
  rotation : double * double * double * double
}.

Record GraphicsLibraryD3D11 : Type := {
  device : Handle;
  context : Handle
}.

Record GraphicsLibraryOpenGL : Type := { toolkit : Handle }.

Record GraphicsLibrary : Type := {
  lib_D3D11 : Ptr GraphicsLibraryD3D11;
  lib_OpenGL : Ptr GraphicsLibraryOpenGL
}.

Record RenderInfo : Type := {
  ri_library : GraphicsLibrary;
  viewport : OSVR_ViewportDescription;
  pose : OSVR_Pose3;
  projection : OSVR_ProjectionMatrix
}.

Record RenderBufferD3D11 : Type := {
  colorBuffer : Handle;
  colorBufferView : Handle
}.

Record RenderBufferOpenGL : Type := { colorBufferName : GLuint }.

Record RenderBuffer : Type := {
  rb_D3D11 : Ptr RenderBufferD3D11;
  rb_OpenGL : Ptr RenderBufferOpenGL
}.

(** [RenderManager::OpenStatus]; the source names [FAILURE] only. *)
Inductive OpenStatus : Type :=
| OpenStatus_FAILURE
| OpenStatus_PARTIAL
| OpenStatus_COMPLETE.

(** What a render manager answers.  The first argument of each method is the
    number of external calls made before this one. *)
Record RenderManager : Type := {
  doingOkay : nat -> bool;
  OpenDisplay : nat -> OpenStatus;
  GetRenderInfo : nat -> list RenderInfo;
  PresentRenderBuffers : nat -> list RenderBuffer -> option bool -> bool
}.

(** ** The collaborators outside the plugin *)

Record World : Type := {
  (** the two build switches of the file *)
  SUPPORT_D3D11 : bool;
  SUPPORT_OPENGL : bool;
  (** the host: [s_Graphics->GetRenderer()], [IUnityGraphicsD3D11] *)
  GetRenderer : nat -> UnityGfxRenderer;
  GetDevice : nat -> Handle;
  GetImmediateContext : nat -> Handle -> Handle;
  (** [osvr::renderkit::createRenderManager]: null or a new manager *)
  createRenderManager :
    nat -> OSVR_ClientContext -> string -> GraphicsLibrary ->
    option RenderManager;
  (** the Direct3D 11 device *)
  CreateTexture2D : nat -> Handle -> D3D11_TEXTURE2D_DESC -> HRESULT * Handle;
  CreateRenderTargetView :
    nat -> Handle -> Handle -> D3D11_RENDER_TARGET_VIEW_DESC ->
    HRESULT * Handle;
  (** OpenGL and GLEW *)
  glewInit : nat -> GLenum;
  glGenFramebuffers : nat -> GLuint;
  glGenRenderbuffers : nat -> GLuint;
  glCheckFramebufferStatus : nat -> GLenum
}.

(** ** OpenGL constants and the matrices handed to [glMultMatrixd] *)

Definition GL_TEXTURE_MAG_FILTER : GLenum := 0x2800.
Definition GL_TEXTURE_MIN_FILTER : GLenum := 0x2801.
Definition GL_TEXTURE_WRAP_S : GLenum := 0x2802.
Definition GL_TEXTURE_WRAP_T : GLenum := 0x2803.
Definition GL_LINEAR : GLenum := 0x2601.
Definition GL_CLAMP_TO_EDGE : GLenum := 0x812F.
Definition GL_PROJECTION : GLenum := 0x1701.
Definition GL_MODELVIEW : GLenum := 0x1700.
Definition GL_TEXTURE_WIDTH : GLenum := 0x1000.
Definition GL_TEXTURE_HEIGHT : GLenum := 0x1001.

Inductive GLMatrix : Type :=
| OSVR_Projection_to_OpenGL (p : OSVR_ProjectionMatrix)
| OSVR_PoseState_to_OpenGL (p : OSVR_Pose3).

(** The [pixels] argument of [glTexImage2D]: a null pointer, or the address
    of a [GLuint] variable holding [value]. *)
Inductive PixelData : Type :=
| no_pixels
| address_of_GLuint (value : GLuint).

Definition sizeof_GLuint : Z := 4.

(** The bytes of client memory behind a [pixels] argument. *)
Definition pixel_bytes (pixels : PixelData) : Z :=
  match pixels with
  | no_pixels => 0
  | address_of_GLuint _ => sizeof_GLuint
  end.

(** The bytes of a [GL_RGB], [GL_UNSIGNED_BYTE] image of [width] by [height]
    pixels, three per pixel (the padding of rows to the unpack alignment
    left out: it only adds bytes between rows).  A negative size is refused
    by OpenGL with GL_INVALID_VALUE, and then no pixel is read; every
    positive size is taken as one the implementation accepts. *)
Definition image_bytes (width height : Z) : Z :=
  if (0 <? width) && (0 <? height) then 3 * width * height else 0.
Arguments image_bytes : simpl never.

(** ** The trace *)

(** One constructor per call that leaves the plugin, with the arguments the
    source passes.  The two [E_DoEventGraphicsDevice...] events are ghost
    events: they record that the dispatcher entered a backend handler. *)
Inductive Event : Type :=
| E_debugLog (str : string)
| E_DoEventGraphicsDeviceOpenGL (eventType : UnityGfxDeviceEventType)
| E_DoEventGraphicsDeviceD3D11 (eventType : UnityGfxDeviceEventType)
| E_RegisterDeviceEventCallback
| E_UnregisterDeviceEventCallback
| E_GetRenderer
| E_GetDevice
| E_GetImmediateContext (dev : Handle)
| E_createRenderManager (ctx : OSVR_ClientContext) (name : string)
                        (lib : GraphicsLibrary)
| E_doingOkay
| E_OpenDisplay
| E_GetRenderInfo
| E_PresentRenderBuffers (buffers : list RenderBuffer) (flipInY : option bool)
| E_delete_RenderManager
| E_osvrClientUpdate (ctx : OSVR_ClientContext)
| E_CreateTexture2D (dev : Handle) (desc : D3D11_TEXTURE2D_DESC)
| E_CreateRenderTargetView (dev tex : Handle)
                           (desc : D3D11_RENDER_TARGET_VIEW_DESC)
| E_OMSetRenderTargets (ctx view : Handle)
| E_CopyResource (ctx dst src : Handle)
| E_glewInit
| E_glGenFramebuffers
| E_glBindFramebuffer (fb : GLuint)
| E_glDeleteFramebuffers (fb : GLuint)
| E_glGenRenderbuffers
| E_glBindTexture (tex : GLuint)
| E_glTexImage2D (width height : Z) (pixels : PixelData)
| E_glTexParameteri (pname param : GLenum)
| E_glBindRenderbuffer (rb : GLuint)
| E_glRenderbufferStorage (width height : Z)
| E_glDeleteTextures (tex : GLuint)
| E_glFramebufferTexture (tex : GLuint)
| E_glDrawBuffers
| E_glCheckFramebufferStatus
| E_glViewport (width height : Z)
| E_glMatrixMode (mode : GLenum)
| E_glLoadIdentity
| E_glMultMatrixd (m : GLMatrix)
| E_glClearColor
| E_glClear
| E_glGetTexLevelParameteriv (pname : GLenum).

(** ** The process-wide variables *)

Record State : Type := {
  s_DeviceType : UnityGfxRenderer;
  render : Ptr RenderManager;
  clientContext : OSVR_ClientContext;
  renderBuffers : list RenderBuffer;
  renderInfo : list RenderInfo;
  library : GraphicsLibrary;
  leftEyeTexturePtr : Handle;
  rightEyeTexturePtr : Handle;
  textureDesc : D3D11_TEXTURE2D_DESC;
  frameBuffer : GLuint;
  debugLog : Handle;
  trace : list Event
}.

(** The variables as the loader leaves them: static storage is zeroed, and
    [s_DeviceType] is initialised to [kUnityGfxRendererNull]. *)
Definition initial_State : State :=
  {| s_DeviceType := kUnityGfxRendererNull;
     render := nullptr;
     clientContext := NULL;
     renderBuffers := [];
     renderInfo := [];
     library := {| lib_D3D11 := nullptr; lib_OpenGL := nullptr |};
     leftEyeTexturePtr := NULL;
     rightEyeTexturePtr := NULL;
     textureDesc := zero_TEXTURE2D_DESC;
     frameBuffer := 0;
     debugLog := NULL;
     trace := [] |}.

Definition set_s_DeviceType (v : UnityGfxRenderer) (st : State) : State :=
  {| s_DeviceType := v; render := render st;
     clientContext := clientContext st; renderBuffers := renderBuffers st;
     renderInfo := renderInfo st; library := library st;
     leftEyeTexturePtr := leftEyeTexturePtr st;
     rightEyeTexturePtr := rightEyeTexturePtr st;
     textureDesc := textureDesc st; frameBuffer := frameBuffer st;
     debugLog := debugLog st; trace := trace st |}.

Definition set_render (v : Ptr RenderManager) (st : State) : State :=
  {| s_DeviceType := s_DeviceType st; render := v;
     clientContext := clientContext st; renderBuffers := renderBuffers st;
     renderInfo := renderInfo st; library := library st;
     leftEyeTexturePtr := leftEyeTexturePtr st;
     rightEyeTexturePtr := rightEyeTexturePtr st;
     textureDesc := textureDesc st; frameBuffer := frameBuffer st;
     debugLog := debugLog st; trace := trace st |}.

Definition set_clientContext (v : OSVR_ClientContext) (st : State) : State :=
  {| s_DeviceType := s_DeviceType st; render := render st;
     clientContext := v; renderBuffers := renderBuffers st;
     renderInfo := renderInfo st; library := library st;
     leftEyeTexturePtr := leftEyeTexturePtr st;
     rightEyeTexturePtr := rightEyeTexturePtr st;
     textureDesc := textureDesc st; frameBuffer := frameBuffer st;
     debugLog := debugLog st; trace := trace st |}.

Definition set_renderBuffers (v : list RenderBuffer) (st : State) : State :=
  {| s_DeviceType := s_DeviceType st; render := render st;
     clientContext := clientContext st; renderBuffers := v;
     renderInfo := renderInfo st; library := library st;
     leftEyeTexturePtr := leftEyeTexturePtr st;
     rightEyeTexturePtr := rightEyeTexturePtr st;
     textureDesc := textureDesc st; frameBuffer := frameBuffer st;
     debugLog := debugLog st; trace := trace st |}.

Definition set_renderInfo (v : list RenderInfo) (st : State) : State :=
  {| s_DeviceType := s_DeviceType st; render := render st;
     clientContext := clientContext st; renderBuffers := renderBuffers st;
     renderInfo := v; library := library st;
     leftEyeTexturePtr := leftEyeTexturePtr st;
     rightEyeTexturePtr := rightEyeTexturePtr st;
     textureDesc := textureDesc st; frameBuffer := frameBuffer st;
     debugLog := debugLog st; trace := trace st |}.

Definition set_library (v : GraphicsLibrary) (st : State) : State :=
  {| s_DeviceType := s_DeviceType st; render := render st;
     clientContext := clientContext st; renderBuffers := renderBuffers st;
     renderInfo := renderInfo st; library := v;
     leftEyeTexturePtr := leftEyeTexturePtr st;
     rightEyeTexturePtr := rightEyeTexturePtr st;
     textureDesc := textureDesc st; frameBuffer := frameBuffer st;
     debugLog := debugLog st; trace := trace st |}.

Definition set_leftEyeTexturePtr (v : Handle) (st : State) : State :=
  {| s_DeviceType := s_DeviceType st; render := render st;
     clientContext := clientContext st; renderBuffers := renderBuffers st;
     renderInfo := renderInfo st; library := library st;
     leftEyeTexturePtr := v;
     rightEyeTexturePtr := rightEyeTexturePtr st;
     textureDesc := textureDesc st; frameBuffer := frameBuffer st;
     debugLog := debugLog st; trace := trace st |}.

Definition set_rightEyeTexturePtr (v : Handle) (st : State) : State :=
  {| s_DeviceType := s_DeviceType st; render := render st;
     clientContext := clientContext st; renderBuffers := renderBuffers st;
     renderInfo := renderInfo st; library := library st;
     leftEyeTexturePtr := leftEyeTexturePtr st;
     rightEyeTexturePtr := v;
     textureDesc := textureDesc st; frameBuffer := frameBuffer st;
     debugLog := debugLog st; trace := trace st |}.

Definition set_textureDesc (v : D3D11_TEXTURE2D_DESC) (st : State) : State :=
  {| s_DeviceType := s_DeviceType st; render := render st;
     clientContext := clientContext st; renderBuffers := renderBuffers st;
     renderInfo := renderInfo st; library := library st;
     leftEyeTexturePtr := leftEyeTexturePtr st;
     rightEyeTexturePtr := rightEyeTexturePtr st;
     textureDesc := v; frameBuffer := frameBuffer st;
     debugLog := debugLog st; trace := trace st |}.

Definition set_frameBuffer (v : GLuint) (st : State) : State :=
  {| s_DeviceType := s_DeviceType st; render := render st;
     clientContext := clientContext st; renderBuffers := renderBuffers st;
     renderInfo := renderInfo st; library := library st;
     leftEyeTexturePtr := leftEyeTexturePtr st;
     rightEyeTexturePtr := rightEyeTexturePtr st;
     textureDesc := textureDesc st; frameBuffer := v;
     debugLog := debugLog st; trace := trace st |}.

Definition set_debugLog (v : Handle) (st : State) : State :=
  {| s_DeviceType := s_DeviceType st; render := render st;
     clientContext := clientContext st; renderBuffers := renderBuffers st;
     renderInfo := renderInfo st; library := library st;
     leftEyeTexturePtr := leftEyeTexturePtr st;
     rightEyeTexturePtr := rightEyeTexturePtr st;
     textureDesc := textureDesc st; frameBuffer := frameBuffer st;
     debugLog := v; trace := trace st |}.

Definition set_trace (v : list Event) (st : State) : State :=
  {| s_DeviceType := s_DeviceType st; render := render st;
     clientContext := clientContext st; renderBuffers := renderBuffers st;
     renderInfo := renderInfo st; library := library st;
     leftEyeTexturePtr := leftEyeTexturePtr st;
     rightEyeTexturePtr := rightEyeTexturePtr st;
     textureDesc := textureDesc st; frameBuffer := frameBuffer st;
     debugLog := debugLog st; trace := v |}.

(** ** The monad *)

(** The ways an entry point leaves defined behaviour. *)
Inductive UB : Type :=
| NullDereference
| UseAfterFree
| DoubleFree
| OutOfBounds.

Inductive Outcome (A : Type) : Type :=
| Returns (a : A)
| Undefined (u : UB).
Arguments Returns {A} a.
Arguments Undefined {A} u.

Definition M (A : Type) : Type := State -> Outcome (A * State).

Definition ret {A} (a : A) : M A := fun st => Returns (a, st).

Definition bind {A B} (m : M A) (k : A -> M B) : M B :=
  fun st =>
    match m st with
    | Returns (a, st') => k a st'
    | Undefined u => Undefined u
    end.

Notation "x <- m ;; k" := (bind m (fun x => k))
  (at level 20, m at level 99, k at level 200, only parsing).
Notation "m ;; k" := (bind m (fun _ => k))
  (at level 100, k at level 200, right associativity, only parsing).

Definition gets {A} (f : State -> A) : M A := fun st => Returns (f st, st).
Definition modify (f : State -> State) : M unit :=
  fun st => Returns (tt, f st).
Definition undefined {A} (u : UB) : M A := fun _ => Undefined u.

(** A call that leaves the plugin and returns nothing the plugin reads. *)
Definition emit (e : Event) : M unit :=
  modify (fun st => set_trace (trace st ++ [e]) st).

(** A call that leaves the plugin and returns [answer t], where [t] is the
    number of calls made before it. *)
Definition call {A} (e : Event) (answer : nat -> A) : M A :=
  fun st => Returns (answer (length (trace st)),
                     set_trace (trace st ++ [e]) st).

(** [p->...] *)
Definition deref {A} (p : Ptr A) : M A :=
  match p with
  | nullptr => undefined NullDereference
  | live a => ret a
  | dangling => undefined UseAfterFree
  end.

(** [v[i]] on a [std::vector] *)
Definition index {A} (v : list A) (i : Z) : M A :=
  if i <? 0 then undefined OutOfBounds
  else match v !! Z.to_nat i with
       | Some a => ret a
       | None => undefined OutOfBounds
       end.

(** [for (size_t i = 0; i < n; i++) body(i)] unrolled over its indices *)
Fixpoint for_each (l : list nat) (body : nat -> M unit) : M unit :=
  match l with
  | [] => ret tt
  | i :: l' => body i ;; for_each l' body
  end.

(** ** The plugin *)

Definition kOsvrEventID_Render : Z := 0.
Definition kOsvrEventID_Shutdown : Z := 1.

(** [LinkDebug] installs the sink the diagnostics go to. *)
Definition LinkDebug (d : Handle) : M unit := modify (set_debugLog d).

(** [DebugLog]: forwards the line when a sink is installed. *)
Definition DebugLog (str : string) : M unit :=
  d <- gets debugLog ;;
  if d =? NULL then ret tt else emit (E_debugLog str).

(** [delete render]: nothing on a null pointer, the manager's destructor on
    a live one; the variable keeps its value, which now dangles.  Deleting
    an object a second time is undefined. *)
Definition delete_render : M unit :=
  p <- gets render ;;
  match p with
  | nullptr => ret tt
  | live _ => emit E_delete_RenderManager ;; modify (set_render dangling)
  | dangling => undefined DoubleFree
  end.

(** [renderInfo = render->GetRenderInfo()] *)
Definition fetch_renderInfo : M unit :=
  p <- gets render ;;
  m <- deref p ;;
  info <- call E_GetRenderInfo (GetRenderInfo m) ;;
  modify (set_renderInfo info).

(** A message that ends in a newline: the source's ["...\n"]. *)
Definition line (str : string) : string :=
  String.append str (String (Ascii.ascii_of_nat 10) EmptyString).

(** [glTexImage2D(GL_TEXTURE_2D, 0, GL_RGB, width, height, 0, GL_RGB,
    GL_UNSIGNED_BYTE, pixels)].  With a null [pixels] OpenGL allocates the
    image and reads nothing.  With any other [pixels] it reads the whole
    image, [image_bytes width height] bytes at least, from the memory
    [pixels] points to: a read past the end of the object there when the
    image is larger than the object. *)
Definition glTexImage2D (width height : Z) (pixels : PixelData) : M unit :=
  emit (E_glTexImage2D width height pixels) ;;
  match pixels with
  | no_pixels => ret tt
  | address_of_GLuint _ =>
      if image_bytes width height <=? pixel_bytes pixels then ret tt
      else undefined OutOfBounds
  end.

(** [renderBuffers.push_back(rb)] *)
Definition push_back (rb : RenderBuffer) : M unit :=
  modify (fun st => set_renderBuffers (renderBuffers st ++ [rb]) st).

(** The entry points.  The host interfaces [s_UnityInterfaces] and
    [s_Graphics] are set by [UnityPluginLoad] before the host can deliver an
    event, so the model takes them as valid and lets the oracle [w] answer
    for the host. *)
Section Plugin.

Variable w : World.

(** The first event of each backend handler is the ghost record of its
    entry. *)
Definition DoEventGraphicsDeviceD3D11 (eventType : UnityGfxDeviceEventType)
  : M unit :=
  emit (E_DoEventGraphicsDeviceD3D11 eventType) ;;
  match eventType with
  | kUnityGfxDeviceEventInitialize =>
      dev <- call E_GetDevice (GetDevice w) ;;
      ctx <- call (E_GetImmediateContext dev)
                  (fun t => GetImmediateContext w t dev) ;;
      modify (fun st =>
        set_library {| lib_D3D11 := live {| device := dev; context := ctx |};
                       lib_OpenGL := lib_OpenGL (library st) |} st) ;;
      DebugLog "[OSVR Rendering Plugin] Passed Unity device/context to RenderManager library."
  | kUnityGfxDeviceEventShutdown =>
      DebugLog "[OSVR Rendering Plugin] Close the Renderer interface cleanly.." ;;
      delete_render
  | _ => ret tt
  end.

Definition DoEventGraphicsDeviceOpenGL (eventType : UnityGfxDeviceEventType)
  : M unit :=
  emit (E_DoEventGraphicsDeviceOpenGL eventType) ;;
  match eventType with
  | kUnityGfxDeviceEventInitialize =>
      t <- gets s_DeviceType ;;
      if decide (t = kUnityGfxRendererOpenGL)
      then DebugLog "OpenGL Initialize Event" else ret tt
  | kUnityGfxDeviceEventShutdown =>
      t <- gets s_DeviceType ;;
      if decide (t = kUnityGfxRendererOpenGL)
      then DebugLog "OpenGL Shutdown Event" else ret tt
  | _ => ret tt
  end.

(** [entry] is the value [currentDeviceType] is initialised with; only the
    Initialize case assigns it again. *)
Definition OnGraphicsDeviceEvent (eventType : UnityGfxDeviceEventType)
  : M unit :=
  entry <- gets s_DeviceType ;;
  currentDeviceType <-
    match eventType with
    | kUnityGfxDeviceEventInitialize =>
        DebugLog
          (line "[OSVR Rendering Plugin] OnGraphicsDeviceEvent(Initialize).") ;;
        r <- call E_GetRenderer (GetRenderer w) ;;
        modify (set_s_DeviceType r) ;;
        gets s_DeviceType
    | kUnityGfxDeviceEventShutdown =>
        DebugLog
          (line "[OSVR Rendering Plugin] OnGraphicsDeviceEvent(Shutdown).") ;;
        modify (set_s_DeviceType kUnityGfxRendererNull) ;;
        ret entry
    | kUnityGfxDeviceEventBeforeReset =>
        DebugLog
          (line "[OSVR Rendering Plugin] OnGraphicsDeviceEvent(BeforeReset).") ;;
        ret entry
    | kUnityGfxDeviceEventAfterReset =>
        DebugLog
          (line "[OSVR Rendering Plugin] OnGraphicsDeviceEvent(AfterReset).") ;;
        ret entry
    end ;;
  (if SUPPORT_OPENGL w
   then if decide (currentDeviceType = kUnityGfxRendererOpenGL)
        then DoEventGraphicsDeviceOpenGL eventType else ret tt
   else ret tt) ;;
  (if SUPPORT_D3D11 w
   then if decide (currentDeviceType = kUnityGfxRendererD3D11)
        then DoEventGraphicsDeviceD3D11 eventType else ret tt
   else ret tt).

Definition UnityPluginLoad : M unit :=
  emit E_RegisterDeviceEventCallback ;;
  OnGraphicsDeviceEvent kUnityGfxDeviceEventInitialize.

Definition UnityPluginUnload : M unit :=
  emit E_UnregisterDeviceEventCallback ;;
  OnGraphicsDeviceEvent kUnityGfxDeviceEventShutdown.

Definition CreateRenderManagerFromUnity (context : OSVR_ClientContext)
  : M OSVR_ReturnCode :=
  modify (set_clientContext context) ;;
  lib <- gets library ;;
  r <- call (E_createRenderManager context "Direct3D11" lib)
            (fun t => createRenderManager w t context "Direct3D11" lib) ;;
  modify (set_render match r with Some m => live m | None => nullptr end) ;;
  p <- gets render ;;
  failed <- match p with
            | nullptr => ret true
            | _ => m <- deref p ;;
                   ok <- call E_doingOkay (doingOkay m) ;;
                   ret (negb ok)
            end ;;
  if failed : bool then
    DebugLog "[OSVR Rendering Plugin] Could not create RenderManager" ;;
    ret OSVR_RETURN_FAILURE
  else
    m <- deref p ;;
    status <- call E_OpenDisplay (OpenDisplay m) ;;
    match status with
    | OpenStatus_FAILURE =>
        DebugLog "[OSVR Rendering Plugin] Could not open display" ;;
        ret OSVR_RETURN_FAILURE
    | _ =>
        fetch_renderInfo ;;
        DebugLog "[OSVR Rendering Plugin] Success!" ;;
        ret OSVR_RETURN_SUCCESS
    end.

Definition GetViewport (eye : Z) : M OSVR_ViewportDescription :=
  fetch_renderInfo ;;
  info <- gets renderInfo ;;
  ri <- index info eye ;;
  ret (viewport ri).

Definition GetProjectionMatrix (eye : Z) : M OSVR_ProjectionMatrix :=
  fetch_renderInfo ;;
  info <- gets renderInfo ;;
  ri <- index info eye ;;
  ret (projection ri).

Definition GetEyePose (eye : Z) : M OSVR_Pose3 :=
  fetch_renderInfo ;;
  info <- gets renderInfo ;;
  ri <- index info eye ;;
  ret (pose ri).

(** One turn of the loop of [Shutdown] over the OpenGL buffers:
    [glDeleteTextures(1, &renderBuffers[i].OpenGL->colorBufferName);
     delete renderBuffers[i].OpenGL;] *)
Definition Shutdown_OpenGL_buffer (i : nat) : M unit :=
  bufs <- gets renderBuffers ;;
  rb <- index bufs (Z.of_nat i) ;;
  gl <- deref (rb_OpenGL rb) ;;
  emit (E_glDeleteTextures (colorBufferName gl)) ;;
  modify (set_renderBuffers
            (<[i := {| rb_D3D11 := rb_D3D11 rb; rb_OpenGL := dangling |}]>
               bufs)).

Definition Shutdown : M unit :=
  DebugLog "[OSVR Rendering Plugin] Shutdown." ;;
  t <- gets s_DeviceType ;;
  match t with
  | kUnityGfxRendererD3D11 =>
      modify (set_rightEyeTexturePtr NULL) ;;
      modify (set_leftEyeTexturePtr NULL) ;;
      DebugLog "[OSVR Rendering Plugin] Deleting RenderManager." ;;
      delete_render ;;
      DebugLog "[OSVR Rendering Plugin] Shut it down."
  | kUnityGfxRendererOpenGL =>
      fb <- gets frameBuffer ;;
      emit (E_glDeleteFramebuffers fb) ;;
      info <- gets renderInfo ;;
      for_each (seq 0 (length info)) Shutdown_OpenGL_buffer
  | _ => DebugLog "Device type not supported."
  end.

(** The color buffer of one eye.  The source writes this block twice, under
    [if (eye == 0)] and under [else], with the local variable named
    [leftEyeColorBuffer] in one and [rightEyeColorBuffer] in the other.
    The last argument of [glTexImage2D] is the address of that local
    variable, not the null pointer the comment in the source speaks of. *)
Definition ConstructBuffersOpenGL_color (eye : Z) : M unit :=
  colorBuffer <- call E_glGenRenderbuffers (glGenRenderbuffers w) ;;
  push_back {| rb_D3D11 := nullptr;
               rb_OpenGL := live {| colorBufferName := colorBuffer |} |} ;;
  emit (E_glBindTexture colorBuffer) ;;
  info <- gets renderInfo ;;
  ri <- index info eye ;;
  glTexImage2D (static_cast_int (vp_width (viewport ri)))
               (static_cast_int (vp_height (viewport ri)))
               (address_of_GLuint colorBuffer).

(** The depth buffer of one eye, written twice in the source as well. *)
Definition ConstructBuffersOpenGL_depth (eye : Z) : M unit :=
  depthBuffer <- call E_glGenRenderbuffers (glGenRenderbuffers w) ;;
  emit (E_glBindRenderbuffer depthBuffer) ;;
  info <- gets renderInfo ;;
  ri <- index info eye ;;
  emit (E_glRenderbufferStorage (static_cast_int (vp_width (viewport ri)))
                                (static_cast_int (vp_height (viewport ri)))).

Definition ConstructBuffersOpenGL (eye : Z) : M unit :=
  err <- call E_glewInit (glewInit w) ;;
  (if err =? GLEW_OK then ret tt
   else DebugLog "glewInit failed, aborting.") ;;
  ctx <- gets clientContext ;;
  emit (E_osvrClientUpdate ctx) ;;
  fetch_renderInfo ;;
  (if eye =? 0 then
     fb <- call E_glGenFramebuffers (glGenFramebuffers w) ;;
     modify (set_frameBuffer fb) ;;
     emit (E_glBindFramebuffer fb)
   else ret tt) ;;
  (if eye =? 0 then ConstructBuffersOpenGL_color eye
   else ConstructBuffersOpenGL_color eye) ;;
  emit (E_glTexParameteri GL_TEXTURE_MAG_FILTER GL_LINEAR) ;;
  emit (E_glTexParameteri GL_TEXTURE_MIN_FILTER GL_LINEAR) ;;
  emit (E_glTexParameteri GL_TEXTURE_WRAP_S GL_CLAMP_TO_EDGE) ;;
  emit (E_glTexParameteri GL_TEXTURE_WRAP_T GL_CLAMP_TO_EDGE) ;;
  (if eye =? 0 then ConstructBuffersOpenGL_depth eye
   else ConstructBuffersOpenGL_depth eye).

(** The texture description [ConstructBuffersD3D11] fills in. *)
Definition color_TEXTURE2D_DESC (width height : Z) : D3D11_TEXTURE2D_DESC :=
  {| Width := width;
     Height := height;
     MipLevels := 1;
     ArraySize := 1;
     Format := DXGI_FORMAT_R8G8B8A8_UNORM;
     SampleDesc_Count := 1;
     SampleDesc_Quality := 0;
     Usage := D3D11_USAGE_DEFAULT;
     BindFlags := Z.lor D3D11_BIND_RENDER_TARGET D3D11_BIND_SHADER_RESOURCE;
     CPUAccessFlags := 0;
     MiscFlags := 0 |}.

Definition color_RENDER_TARGET_VIEW_DESC : D3D11_RENDER_TARGET_VIEW_DESC :=
  {| rtv_Format := DXGI_FORMAT_R8G8B8A8_UNORM;
     rtv_ViewDimension := D3D11_RTV_DIMENSION_TEXTURE2D;
     rtv_Texture2D_MipSlice := 0 |}.

(** [renderInfo[eye].library.D3D11->device] *)
Definition device_of_eye (eye : Z) : M Handle :=
  info <- gets renderInfo ;;
  ri <- index info eye ;;
  lib <- deref (lib_D3D11 (ri_library ri)) ;;
  ret (device lib).

Definition ConstructBuffersD3D11 (eye : Z) : M OSVR_ReturnCode :=
  DebugLog "[OSVR Rendering Plugin] ConstructBuffersD3D11" ;;
  fetch_renderInfo ;;
  info <- gets renderInfo ;;
  ri <- index info eye ;;
  let width := to_unsigned (static_cast_int (vp_width (viewport ri))) in
  let height := to_unsigned (static_cast_int (vp_height (viewport ri))) in
  modify (set_textureDesc zero_TEXTURE2D_DESC) ;;
  modify (set_textureDesc (color_TEXTURE2D_DESC width height)) ;;
  desc <- gets textureDesc ;;
  dev <- device_of_eye eye ;;
  created <- call (E_CreateTexture2D dev desc)
                  (fun t => CreateTexture2D w t dev desc) ;;
  let '(hr, D3DTexture) := created in
  if FAILED hr then
    DebugLog "[OSVR Rendering Plugin] Can't create texture for eye" ;;
    ret OSVR_RETURN_FAILURE
  else
    dev <- device_of_eye eye ;;
    created <- call (E_CreateRenderTargetView dev D3DTexture
                       color_RENDER_TARGET_VIEW_DESC)
                    (fun t => CreateRenderTargetView w t dev D3DTexture
                                color_RENDER_TARGET_VIEW_DESC) ;;
    let '(hr, renderTargetView) := created in
    if FAILED hr then
      DebugLog "[OSVR Rendering Plugin] Could not create render target for eye" ;;
      ret OSVR_RETURN_FAILURE
    else
      push_back {| rb_D3D11 := live {| colorBuffer := D3DTexture;
                                       colorBufferView := renderTargetView |};
                   rb_OpenGL := nullptr |} ;;
      ret OSVR_RETURN_SUCCESS.

Definition RenderViewD3D11 (renderInfo : RenderInfo)
    (renderTargetView : Handle) (eyeIndex : Z) : M unit :=
  lib <- deref (lib_D3D11 (ri_library renderInfo)) ;;
  let context := context lib in
  emit (E_OMSetRenderTargets context renderTargetView) ;;
  d3dtex <- (if eyeIndex =? 0 then gets leftEyeTexturePtr
             else gets rightEyeTexturePtr) ;;
  bufs <- gets renderBuffers ;;
  rb <- index bufs eyeIndex ;;
  d3d <- deref (rb_D3D11 rb) ;;
  emit (E_CopyResource context (colorBuffer d3d) d3dtex).

(** The source also computes a local [glTex] from the host texture pointer
    of the eye and does not use it. *)
Definition RenderViewOpenGL (renderInfo : RenderInfo)
    (frameBuffer colorBuffer : GLuint) (eyeIndex : Z) : M unit :=
  emit (E_glBindFramebuffer frameBuffer) ;;
  emit (E_glFramebufferTexture colorBuffer) ;;
  emit E_glDrawBuffers ;;
  status <- call E_glCheckFramebufferStatus (glCheckFramebufferStatus w) ;;
  if status =? GL_FRAMEBUFFER_COMPLETE then
    emit (E_glViewport (static_cast_int (vp_width (viewport renderInfo)))
                       (static_cast_int (vp_height (viewport renderInfo)))) ;;
    emit (E_glMatrixMode GL_PROJECTION) ;;
    emit E_glLoadIdentity ;;
    emit (E_glMultMatrixd (OSVR_Projection_to_OpenGL (projection renderInfo))) ;;
    emit (E_glMatrixMode GL_MODELVIEW) ;;
    emit E_glLoadIdentity ;;
    emit (E_glMultMatrixd (OSVR_PoseState_to_OpenGL (pose renderInfo))) ;;
    emit E_glClearColor ;;
    emit E_glClear ;;
    bufs <- gets renderBuffers ;;
    rb <- index bufs eyeIndex ;;
    gl <- deref (rb_OpenGL rb) ;;
    emit (E_glBindTexture (colorBufferName gl)) ;;
    emit (E_glGetTexLevelParameteriv GL_TEXTURE_WIDTH) ;;
    emit (E_glGetTexLevelParameteriv GL_TEXTURE_HEIGHT)
  else
    DebugLog "RenderView: Incomplete Framebuffer".

(** The texture pointer is stored for the left eye when [eye == 0] and for
    the right eye otherwise. *)
Definition store_texturePtr (texturePtr : Handle) (eye : Z) : M unit :=
  if eye =? 0 then modify (set_leftEyeTexturePtr texturePtr)
  else modify (set_rightEyeTexturePtr texturePtr).

Definition SetColorBufferFromUnity (texturePtr : Handle) (eye : Z)
  : M OSVR_ReturnCode :=
  t <- gets s_DeviceType ;;
  if renderer_value t =? -1 then ret OSVR_RETURN_FAILURE
  else
    DebugLog "[OSVR Rendering Plugin] SetColorBufferFromUnity" ;;
    store_texturePtr texturePtr eye ;;
    t <- gets s_DeviceType ;;
    match t with
    | kUnityGfxRendererD3D11 =>
        ConstructBuffersD3D11 eye ;;
        ret OSVR_RETURN_SUCCESS
    | kUnityGfxRendererOpenGL =>
        ConstructBuffersOpenGL eye ;;
        ret OSVR_RETURN_SUCCESS
    | _ =>
        DebugLog "Device type not supported." ;;
        ret OSVR_RETURN_FAILURE
    end.

(** One turn of the Direct3D 11 loop of [OnRenderEvent]:
    [RenderViewD3D11(renderInfo[i], renderBuffers[i].D3D11->colorBufferView, i)] *)
Definition OnRenderEvent_D3D11_eye (i : nat) : M unit :=
  info <- gets renderInfo ;;
  ri <- index info (Z.of_nat i) ;;
  bufs <- gets renderBuffers ;;
  rb <- index bufs (Z.of_nat i) ;;
  d3d <- deref (rb_D3D11 rb) ;;
  RenderViewD3D11 ri (colorBufferView d3d) (Z.of_nat i).

(** One turn of the OpenGL loop of [OnRenderEvent]:
    [RenderViewOpenGL(renderInfo[i], frameBuffer,
                      renderBuffers[i].OpenGL->colorBufferName, i)] *)
Definition OnRenderEvent_OpenGL_eye (i : nat) : M unit :=
  info <- gets renderInfo ;;
  ri <- index info (Z.of_nat i) ;;
  fb <- gets frameBuffer ;;
  bufs <- gets renderBuffers ;;
  rb <- index bufs (Z.of_nat i) ;;
  gl <- deref (rb_OpenGL rb) ;;
  RenderViewOpenGL ri fb (colorBufferName gl) (Z.of_nat i).

(** [render->PresentRenderBuffers(renderBuffers, flipInY)]; [flipInY] is
    [None] where the source leaves the argument out. *)
Definition present (flipInY : option bool) : M bool :=
  p <- gets render ;;
  m <- deref p ;;
  bufs <- gets renderBuffers ;;
  call (E_PresentRenderBuffers bufs flipInY)
       (fun t => PresentRenderBuffers m t bufs flipInY).

Definition OnRenderEvent (eventID : Z) : M unit :=
  t <- gets s_DeviceType ;;
  if renderer_value t =? -1 then ret tt
  else if eventID =? kOsvrEventID_Render then
    fetch_renderInfo ;;
    t <- gets s_DeviceType ;;
    if decide (t = kUnityGfxRendererD3D11) then
      info <- gets renderInfo ;;
      for_each (seq 0 (length info)) OnRenderEvent_D3D11_eye ;;
      ok <- present (Some true) ;;
      if ok then ret tt
      else DebugLog "[OSVR Rendering Plugin] PresentRenderBuffers() returned false, maybe because it was asked to quit"
    else if decide (t = kUnityGfxRendererOpenGL) then
      fetch_renderInfo ;;
      info <- gets renderInfo ;;
      for_each (seq 0 (length info)) OnRenderEvent_OpenGL_eye ;;
      ok <- present None ;;
      if ok then ret tt
      else DebugLog "PresentRenderBuffers() returned false, maybe because it was asked to quit"
    else ret tt
  else if eventID =? kOsvrEventID_Shutdown then Shutdown
  else ret tt.

End Plugin.

(** ** Observations on a run *)

(** The events an entry point appended to the trace. *)
Definition new_events (st st' : State) : list Event :=
  drop (length (trace st)) (trace st').
Arguments new_events : simpl never.

Definition is_handler_entry (e : Event) : bool :=
  match e with
  | E_DoEventGraphicsDeviceOpenGL _ | E_DoEventGraphicsDeviceD3D11 _ => true
  | _ => false
  end.

(** The backend handlers a run entered, in order. *)
Definition handlers_entered (tr : list Event) : list Event :=
  List.filter is_handler_entry tr.

(** The handlers [OnGraphicsDeviceEvent] dispatches to when the kind it
    dispatches on is [k]. *)
Definition handlers_for (w : World) (k : UnityGfxRenderer)
    (eventType : UnityGfxDeviceEventType) : list Event :=
  (if SUPPORT_OPENGL w && bool_decide (k = kUnityGfxRendererOpenGL)
   then [E_DoEventGraphicsDeviceOpenGL eventType] else []) ++
  (if SUPPORT_D3D11 w && bool_decide (k = kUnityGfxRendererD3D11)
   then [E_DoEventGraphicsDeviceD3D11 eventType] else []).

(** [k] is the kind of no backend compiled into the plugin. *)
Definition unrecognized (w : World) (k : UnityGfxRenderer) : Prop :=
  ~ (SUPPORT_OPENGL w = true /\ k = kUnityGfxRendererOpenGL) /\
  ~ (SUPPORT_D3D11 w = true /\ k = kUnityGfxRendererD3D11).

(** ** A concrete host, render manager and graphics device

    Used to run the entry points on explicit inputs. *)

Definition whole (n : Z) : double := QArith_base.Qmake n 1.

Definition demo_library : GraphicsLibrary :=
  {| lib_D3D11 := live {| device := 100; context := 101 |};
     lib_OpenGL := nullptr |}.

(** An eye with a [width] x [height] viewport whose left edge is at
    [left]. *)
Definition sized_eye (width height left : Z) : RenderInfo :=
  {| ri_library := demo_library;
     viewport := {| vp_left := whole left; vp_lower := whole 0;
                    vp_width := whole width; vp_height := whole height |};
     pose := {| translation := (whole 0, whole 0, whole 0);
                rotation := (whole 0, whole 0, whole 0, whole 1) |};
     projection := {| pr_left := whole (-1); pr_right := whole 1;
                      pr_top := whole 1; pr_bottom := whole (-1);
                      pr_nearClip := whole 1; pr_farClip := whole 100 |} |}.

(** An eye with a 960 x 1080 viewport. *)
Definition demo_eye (left : Z) : RenderInfo := sized_eye 960 1080 left.

(** An eye with a viewport of one pixel: the only positive size whose RGB
    image fits the four bytes [ConstructBuffersOpenGL] passes as image
    data. *)
Definition pixel_eye (left : Z) : RenderInfo := sized_eye 1 1 left.

(** A manager that is okay, opens its display, reports the eyes [eyes] and
    accepts every frame. *)
Definition manager_of (eyes : list RenderInfo) : RenderManager :=
  {| doingOkay := fun _ => true;
     OpenDisplay := fun _ => OpenStatus_COMPLETE;
     GetRenderInfo := fun _ => eyes;
     PresentRenderBuffers := fun _ _ _ => true |}.

Definition demo_manager : RenderManager :=
  manager_of [demo_eye 0; demo_eye 960].

Definition pixel_manager : RenderManager :=
  manager_of [pixel_eye 0; pixel_eye 1].

(** [E_FAIL] of the Windows headers, as a signed 32-bit value. *)
Definition E_FAIL : HRESULT := -2147467259.

(** A host whose renderer is [r] and whose render manager is [m], with both
    backends compiled in; texture creation answers [texture_hr], and every
    other native call succeeds. *)
Definition host_of (m : RenderManager) (r : UnityGfxRenderer)
                   (texture_hr : HRESULT) : World :=
  {| SUPPORT_D3D11 := true;
     SUPPORT_OPENGL := true;
     GetRenderer := fun _ => r;
     GetDevice := fun _ => 100;
     GetImmediateContext := fun _ _ => 101;
     createRenderManager := fun _ _ _ _ => Some m;
     CreateTexture2D := fun t _ _ => (texture_hr, 1000 + Z.of_nat t);
     CreateRenderTargetView := fun t _ _ _ => (0, 2000 + Z.of_nat t);
     glewInit := fun _ => GLEW_OK;
     glGenFramebuffers := fun t => 1 + Z.of_nat t;
     glGenRenderbuffers := fun t => 1 + Z.of_nat t;
     glCheckFramebufferStatus := fun _ => GL_FRAMEBUFFER_COMPLETE |}.

Definition demo_world (r : UnityGfxRenderer) (texture_hr : HRESULT) : World :=
  host_of demo_manager r texture_hr.

Definition d3d11_world : World := demo_world kUnityGfxRendererD3D11 0.
Definition d3d9_world : World := demo_world kUnityGfxRendererD3D9 0.

(** An OpenGL host whose display has one-pixel viewports, and one whose
    display has the 960 x 1080 viewports of [demo_manager]. *)
Definition opengl_world : World :=
  host_of pixel_manager kUnityGfxRendererOpenGL 0.
Definition opengl_hd_world : World := demo_world kUnityGfxRendererOpenGL 0.

(** The state a run leaves, when it returns. *)
Definition state_after {A} (m : M A) (st : State) : State :=
  match m st with
  | Returns (_, st') => st'
  | Undefined _ => st
  end.

(** The plugin loaded by a Direct3D 11 host, with a render manager. *)
Definition d3d11_session : State :=
  state_after (UnityPluginLoad d3d11_world ;;
               CreateRenderManagerFromUnity d3d11_world 7) initial_State.

(** The same, after the host registered a texture for each eye. *)
Definition d3d11_two_eyes : State :=
  state_after (SetColorBufferFromUnity d3d11_world 500 0 ;;
               SetColorBufferFromUnity d3d11_world 501 1) d3d11_session.

(** The plugin loaded by an OpenGL host, with a render manager. *)
Definition opengl_session : State :=
  state_after (UnityPluginLoad opengl_world ;;
               CreateRenderManagerFromUnity opengl_world 7) initial_State.

Definition opengl_two_eyes : State :=
  state_after (SetColorBufferFromUnity opengl_world 500 0 ;;
               SetColorBufferFromUnity opengl_world 501 1) opengl_session.

(** The plugin loaded by the OpenGL host with the 960 x 1080 viewports. *)
Definition opengl_hd_session : State :=
  state_after (UnityPluginLoad opengl_hd_world ;;
               CreateRenderManagerFromUnity opengl_hd_world 7) initial_State.

(** ** The outcomes of [CreateRenderManagerFromUnity]

    The call made in state [st] is answered by the oracles at the times
    [length (trace st)] (construction), one later ([doingOkay]), two later
    ([OpenDisplay]) and three later ([GetRenderInfo]). *)

Definition created_manager (w : World) (context : OSVR_ClientContext)
    (st : State) : option RenderManager :=
  createRenderManager w (length (trace st)) context "Direct3D11" (library st).

(** [(render == nullptr) || (!render->doingOkay())] *)
Definition manager_unusable (w : World) (context : OSVR_ClientContext)
    (st : State) : Prop :=
  match created_manager w context st with
  | None => True
  | Some m => doingOkay m (S (length (trace st))) = false
  end.

(** [ret.status == OpenStatus::FAILURE] *)
Definition display_refused (w : World) (context : OSVR_ClientContext)
    (st : State) : Prop :=
  match created_manager w context st with
  | None => False
  | Some m => OpenDisplay m (S (S (length (trace st)))) = OpenStatus_FAILURE
  end.

Definition CreationFailed (w : World) (context : OSVR_ClientContext)
    (st : State) (r : Outcome (OSVR_ReturnCode * State)) : Prop :=
  manager_unusable w context st /\
  exists st',
    r = Returns (OSVR_RETURN_FAILURE, st') /\
    ~ In E_OpenDisplay (new_events st st') /\
    ~ In E_GetRenderInfo (new_events st st') /\
    renderInfo st' = renderInfo st.

Definition DisplayOpenFailed (w : World) (context : OSVR_ClientContext)
    (st : State) (r : Outcome (OSVR_ReturnCode * State)) : Prop :=
  ~ manager_unusable w context st /\
  display_refused w context st /\
  exists st',
    r = Returns (OSVR_RETURN_FAILURE, st') /\
    In E_OpenDisplay (new_events st st') /\
    ~ In E_GetRenderInfo (new_events st st') /\
    renderInfo st' = renderInfo st.

Definition Success (w : World) (context : OSVR_ClientContext)
    (st : State) (r : Outcome (OSVR_ReturnCode * State)) : Prop :=
  ~ manager_unusable w context st /\
  ~ display_refused w context st /\
  exists st' m,
    r = Returns (OSVR_RETURN_SUCCESS, st') /\
    render st' = live m /\
    In E_OpenDisplay (new_events st st') /\
    In E_GetRenderInfo (new_events st st') /\
    renderInfo st' = GetRenderInfo m (S (S (S (length (trace st))))).

(** ** The steps of [ConstructBuffersD3D11] and [SetColorBufferFromUnity] *)

(** The state after [DebugLog str]. *)
Definition logged (str : string) (st : State) : State :=
  if debugLog st =? NULL then st
  else set_trace (trace st ++ [E_debugLog str]) st.

(** The state in which [SetColorBufferFromUnity] starts the construction:
    the line is logged and the pointer is stored. *)
Definition registered (texturePtr : Handle) (eye : Z) (st : State) : State :=
  let st1 := logged "[OSVR Rendering Plugin] SetColorBufferFromUnity" st in
  if eye =? 0 then set_leftEyeTexturePtr texturePtr st1
  else set_rightEyeTexturePtr texturePtr st1.

(** The time at which [ConstructBuffersD3D11], called in [st], fetches the
    render info; the two native creations follow at the next two times. *)
Definition construct_time (st : State) : nat :=
  length (trace (logged "[OSVR Rendering Plugin] ConstructBuffersD3D11" st)).

(** The description of the color texture of an eye: its viewport size,
    converted as the source converts it. *)
Definition texture_desc_of (ri : RenderInfo) : D3D11_TEXTURE2D_DESC :=
  color_TEXTURE2D_DESC
    (to_unsigned (static_cast_int (vp_width (viewport ri))))
    (to_unsigned (static_cast_int (vp_height (viewport ri)))).

(** What the device answers to the two creations. *)
Definition texture_created (w : World) (st : State)
    (lib : GraphicsLibraryD3D11) (ri : RenderInfo) : HRESULT * Handle :=
  CreateTexture2D w (S (construct_time st)) (device lib) (texture_desc_of ri).

Definition view_created (w : World) (st : State)
    (lib : GraphicsLibraryD3D11) (ri : RenderInfo) : HRESULT * Handle :=
  CreateRenderTargetView w (S (S (construct_time st))) (device lib)
    (snd (texture_created w st lib ri)) color_RENDER_TARGET_VIEW_DESC.

(** The buffer made of the created texture and view. *)
Definition complete_buffer (w : World) (st : State)
    (lib : GraphicsLibraryD3D11) (ri : RenderInfo) : RenderBuffer :=
  {| rb_D3D11 := live {| colorBuffer := snd (texture_created w st lib ri);
                         colorBufferView := snd (view_created w st lib ri) |};
     rb_OpenGL := nullptr |}.

Definition is_CreateRenderTargetView (e : Event) : bool :=
  match e with E_CreateRenderTargetView _ _ _ => true | _ => false end.

Definition is_CreateTexture2D (e : Event) : bool :=
  match e with E_CreateTexture2D _ _ => true | _ => false end.

(** The fields no buffer construction writes. *)
Definition same_session (st st' : State) : Prop :=
  s_DeviceType st' = s_DeviceType st /\
  render st' = render st /\
  leftEyeTexturePtr st' = leftEyeTexturePtr st /\
  rightEyeTexturePtr st' = rightEyeTexturePtr st /\
  debugLog st' = debugLog st.


(** One of the two backends is the stored kind. *)
Definition backend_active (st : State) : Prop :=
  s_DeviceType st = kUnityGfxRendererD3D11 \/
  s_DeviceType st = kUnityGfxRendererOpenGL.

(** The session can construct the buffer of [eye]: the manager is live and
    reports that eye whenever it is asked, with a Direct3D 11 library when
    the Direct3D 11 backend is the stored kind. *)
Definition eye_constructible (st : State) (eye : Z) : Prop :=
  exists m,
    render st = live m /\
    0 <= eye /\
    forall t, exists ri,
      GetRenderInfo m t !! Z.to_nat eye = Some ri /\
      (s_DeviceType st = kUnityGfxRendererD3D11 ->
       exists lib, lib_D3D11 (ri_library ri) = live lib).

(** The color image of the eye is no larger than the variable whose
    address [ConstructBuffersOpenGL] passes as image data. *)
Definition color_image_fits (ri : RenderInfo) : Prop :=
  image_bytes (static_cast_int (vp_width (viewport ri)))
              (static_cast_int (vp_height (viewport ri))) <= sizeof_GLuint.

(** The integer parts of the viewport sizes are in the range of [int]. *)
Definition viewport_fits_int (ri : RenderInfo) : Prop :=
  fits_int (vp_width (viewport ri)) /\ fits_int (vp_height (viewport ri)).

(** The buffer [ConstructBuffersOpenGL] registers for the texture name
    [name]. *)
Definition OpenGL_buffer (name : GLuint) : RenderBuffer :=
  {| rb_D3D11 := nullptr;
     rb_OpenGL := live {| colorBufferName := name |} |}.

(** The buffers a Direct3D 11 construction adds: none when a creation
    fails, the complete buffer otherwise. *)
Definition D3D11_buffers_added (w : World) (st : State)
    (lib : GraphicsLibraryD3D11) (ri : RenderInfo) : list RenderBuffer :=
  if FAILED (fst (texture_created w st lib ri))
     || FAILED (fst (view_created w st lib ri))
  then [] else [complete_buffer w st lib ri].

Definition is_glGenFramebuffers (e : Event) : bool :=
  match e with E_glGenFramebuffers => true | _ => false end.

(** The buffer constructions of the OpenGL backend for a sequence of eyes,
    in order. *)
Fixpoint ConstructBuffersOpenGL_each (w : World) (eyes : list Z) : M unit :=
  match eyes with
  | [] => ret tt
  | eye :: rest =>
      ConstructBuffersOpenGL w eye ;; ConstructBuffersOpenGL_each w rest
  end.

(** ** The render tick *)

(** The host texture the presenter reads for eye [i]. *)
Definition host_texture (st : State) (i : nat) : Handle :=
  if (i =? 0)%nat then leftEyeTexturePtr st else rightEyeTexturePtr st.

(** The native calls of the Direct3D 11 presenter for eye [i]: the render
    target is set to the view of the eye's buffer, and the host texture is
    copied into the color texture of the eye's buffer. *)
Definition D3D11_eye_events (st : State) (info : list RenderInfo) (i : nat)
  : list Event :=
  match info !! i, renderBuffers st !! i with
  | Some ri, Some rb =>
      match lib_D3D11 (ri_library ri), rb_D3D11 rb with
      | live lib, live d3d =>
          [E_OMSetRenderTargets (context lib) (colorBufferView d3d);
           E_CopyResource (context lib) (colorBuffer d3d) (host_texture st i)]
      | _, _ => []
      end
  | _, _ => []
  end.

(** Every eye of [info] has a Direct3D 11 library and a registered
    Direct3D 11 buffer at its index. *)
Definition eyes_registered_D3D11 (st : State) (info : list RenderInfo)
  : Prop :=
  forall i ri,
    info !! i = Some ri ->
    (exists lib, lib_D3D11 (ri_library ri) = live lib) /\
    (exists rb d3d, renderBuffers st !! i = Some rb /\
                    rb_D3D11 rb = live d3d).

(** Every eye of [info] has a registered OpenGL buffer at its index. *)
Definition eyes_registered_OpenGL (st : State) (info : list RenderInfo)
  : Prop :=
  forall i ri,
    info !! i = Some ri ->
    exists rb gl, renderBuffers st !! i = Some rb /\ rb_OpenGL rb = live gl.

Definition is_debugLog (e : Event) : bool :=
  match e with E_debugLog _ => true | _ => false end.

Definition is_CopyResource (e : Event) : bool :=
  match e with E_CopyResource _ _ _ => true | _ => false end.

Definition is_PresentRenderBuffers (e : Event) : bool :=
  match e with E_PresentRenderBuffers _ _ => true | _ => false end.

(** ** Observations used by the further properties *)

(** The state after [renderInfo = render->GetRenderInfo()] on the live
    manager [m]. *)
Definition refreshed (m : RenderManager) (st : State) : State :=
  set_renderInfo (GetRenderInfo m (length (trace st)))
    (set_trace (trace st ++ [E_GetRenderInfo]) st).

(** The calls that leave the plugin, the debug lines apart. *)
Definition external_calls (tr : list Event) : list Event :=
  List.filter (fun e => negb (is_debugLog e)) tr.

(** A buffer whose OpenGL part was deleted. *)
Definition released (rb : RenderBuffer) : RenderBuffer :=
  {| rb_D3D11 := rb_D3D11 rb; rb_OpenGL := dangling |}.

(** The texture name [Shutdown] passes to [glDeleteTextures] for the buffer
    at index [i]. *)
Definition texture_name_at (bufs : list RenderBuffer) (i : nat) : GLuint :=
  match bufs !! i with
  | Some rb => match rb_OpenGL rb with
               | live gl => colorBufferName gl
               | _ => 0
               end
  | None => 0
  end.

(** All the variables but [renderBuffers] and [trace] are the same. *)
Definition same_but_buffers_and_trace (st st' : State) : Prop :=
  s_DeviceType st' = s_DeviceType st /\
  render st' = render st /\
  clientContext st' = clientContext st /\
  renderInfo st' = renderInfo st /\
  library st' = library st /\
  leftEyeTexturePtr st' = leftEyeTexturePtr st /\
  rightEyeTexturePtr st' = rightEyeTexturePtr st /\
  textureDesc st' = textureDesc st /\
  frameBuffer st' = frameBuffer st /\
  debugLog st' = debugLog st.

(** A sequence of [SetColorBufferFromUnity] calls, each given as the texture
    pointer and the eye index; the codes returned are dropped. *)
Fixpoint SetColorBufferFromUnity_each (w : World)
    (calls : list (Handle * Z)) : M unit :=
  match calls with
  | [] => ret tt
  | (texturePtr, eye) :: rest =>
      SetColorBufferFromUnity w texturePtr eye ;;
      SetColorBufferFromUnity_each w rest
  end.

(** An OpenGL host on which [glewInit] fails. *)
Definition glew_failing_world : World :=
  {| SUPPORT_D3D11 := true;
     SUPPORT_OPENGL := true;
     GetRenderer := fun _ => kUnityGfxRendererOpenGL;
     GetDevice := fun _ => 100;
     GetImmediateContext := fun _ _ => 101;
     createRenderManager := fun _ _ _ _ => Some pixel_manager;
     CreateTexture2D := fun t _ _ => (0, 1000 + Z.of_nat t);
     CreateRenderTargetView := fun t _ _ _ => (0, 2000 + Z.of_nat t);
     glewInit := fun _ => 1;
     glGenFramebuffers := fun t => 1 + Z.of_nat t;
     glGenRenderbuffers := fun t => 1 + Z.of_nat t;
     glCheckFramebufferStatus := fun _ => GL_FRAMEBUFFER_COMPLETE |}.

(** [n] render ticks in a row. *)
Fixpoint render_ticks (w : World) (n : nat) : M unit :=
  match n with
  | O => ret tt
  | S n' => OnRenderEvent w kOsvrEventID_Render ;; render_ticks w n'
  end.

(** An OpenGL host whose framebuffer is never complete. *)
Definition incomplete_framebuffer_world : World :=
  {| SUPPORT_D3D11 := true;
     SUPPORT_OPENGL := true;
     GetRenderer := fun _ => kUnityGfxRendererOpenGL;
     GetDevice := fun _ => 100;
     GetImmediateContext := fun _ _ => 101;
     createRenderManager := fun _ _ _ _ => Some demo_manager;
     CreateTexture2D := fun t _ _ => (0, 1000 + Z.of_nat t);
     CreateRenderTargetView := fun t _ _ _ => (0, 2000 + Z.of_nat t);
     glewInit := fun _ => GLEW_OK;
     glGenFramebuffers := fun t => 1 + Z.of_nat t;
     glGenRenderbuffers := fun t => 1 + Z.of_nat t;
     glCheckFramebufferStatus := fun _ => 0 |}.

(** ** Proof tools *)

Ltac plugin_unfold :=
  repeat progress
    unfold UnityPluginLoad, UnityPluginUnload, OnGraphicsDeviceEvent,
      DoEventGraphicsDeviceOpenGL, DoEventGraphicsDeviceD3D11,
      CreateRenderManagerFromUnity, OnRenderEvent, Shutdown,
      SetColorBufferFromUnity, store_texturePtr,
      ConstructBuffersD3D11, device_of_eye, fetch_renderInfo, delete_render,
      push_back, present, DebugLog, index,
      bind, ret, gets, modify, emit, call, deref, undefined.

Ltac state_simpl :=
  cbn [s_DeviceType render clientContext renderBuffers renderInfo library
       leftEyeTexturePtr rightEyeTexturePtr textureDesc frameBuffer debugLog
       trace set_s_DeviceType set_render set_clientContext set_renderBuffers
       set_renderInfo set_library set_leftEyeTexturePtr
       set_rightEyeTexturePtr set_textureDesc set_frameBuffer set_debugLog
       set_trace].

(** Brings every updated state to the form of a record. *)
Ltac flat :=
  cbv beta iota delta
    [s_DeviceType render clientContext renderBuffers renderInfo library
     leftEyeTexturePtr rightEyeTexturePtr textureDesc frameBuffer debugLog
     trace set_s_DeviceType set_render set_clientContext set_renderBuffers
     set_renderInfo set_library set_leftEyeTexturePtr
     set_rightEyeTexturePtr set_textureDesc set_frameBuffer set_debugLog
     set_trace].

Lemma new_events_intro (st st' : State) (evs : list Event) :
  trace st' = trace st ++ evs -> new_events st st' = evs.
Proof. unfold new_events. intros ->. apply drop_app_length. Qed.

(** Replaces [new_events st st'] by the events themselves, when the trace
    of [st'] visibly extends the trace of [st]. *)
Ltac trace_simpl :=
  repeat match goal with
  | |- context [new_events ?st ?st'] =>
      let H := fresh "Htrace" in
      eassert (H : trace st' = trace st ++ _)
        by (state_simpl; rewrite <- ?app_assoc;
            first [ reflexivity | symmetry; apply app_nil_r ]);
      rewrite (new_events_intro _ _ _ H); clear H
  end;
  cbn.

(** Finds an event in an explicit list. *)
Ltac find_in := cbn; repeat first [left; reflexivity | right].

Ltac flags w := destruct (SUPPORT_OPENGL w), (SUPPORT_D3D11 w).
Ltac decide_all := cbn; repeat (case_decide; cbn).

(** Runs the unfolded entry point: [Hdl] tells whether a debug sink is
    installed. *)
Ltac crunch Hdl :=
  repeat first
    [ progress flat
    | progress cbn
    | rewrite Hdl
    | rewrite last_length
    | case_decide; try congruence ].

(** Inside the range of [int] the conversion is the integer part. *)
Lemma static_cast_int_exact (d : double) :
  fits_int d -> static_cast_int d = truncate d.
Proof.
  unfold fits_int, static_cast_int. intros [Hlow Hhigh].
  apply Z.leb_le in Hlow, Hhigh. rewrite Hlow, Hhigh. reflexivity.
Qed.

(** ** The device-event dispatcher *)

Lemma OnGraphicsDeviceEvent_reset (w : World)
    (eventType : UnityGfxDeviceEventType) (st : State) :
  eventType = kUnityGfxDeviceEventBeforeReset \/
  eventType = kUnityGfxDeviceEventAfterReset ->
  exists st', OnGraphicsDeviceEvent w eventType st = Returns (tt, st') /\
              s_DeviceType st' = s_DeviceType st.
Proof.
  destruct st as [dt rn cc rbs ris lib lp rp td fb dl tr].
  intros [-> | ->]; plugin_unfold; cbn;
    destruct (dl =? NULL); flags w; decide_all; eauto.
Qed.

(** C7.  A BeforeReset or AfterReset device event returns and leaves
    [s_DeviceType] as it was; a device event that changes [s_DeviceType] is
    an Initialize or a Shutdown event; and when the kind the event is
    dispatched on is the kind of no compiled-in backend (the stored kind for
    Shutdown and the reset events, the renderer the host reports for
    Initialize), the event returns without entering a backend handler. *)
Theorem C7_reset_keeps_kind_unrecognized_enters_no_handler
    (w : World) (eventType : UnityGfxDeviceEventType) (st : State) :
  (eventType = kUnityGfxDeviceEventBeforeReset \/
   eventType = kUnityGfxDeviceEventAfterReset ->
   exists st', OnGraphicsDeviceEvent w eventType st = Returns (tt, st') /\
               s_DeviceType st' = s_DeviceType st) /\
  (forall st', OnGraphicsDeviceEvent w eventType st = Returns (tt, st') ->
               s_DeviceType st' <> s_DeviceType st ->
               eventType = kUnityGfxDeviceEventInitialize \/
               eventType = kUnityGfxDeviceEventShutdown) /\
  (eventType <> kUnityGfxDeviceEventInitialize ->
   unrecognized w (s_DeviceType st) ->
   exists st', OnGraphicsDeviceEvent w eventType st = Returns (tt, st') /\
               handlers_entered (new_events st st') = []) /\
  (eventType = kUnityGfxDeviceEventInitialize ->
   (forall t, unrecognized w (GetRenderer w t)) ->
   exists st', OnGraphicsDeviceEvent w eventType st = Returns (tt, st') /\
               handlers_entered (new_events st st') = []).
Proof.
  split; [apply OnGraphicsDeviceEvent_reset|]. split.
  - intros st' Hrun Hne.
    destruct eventType; auto; exfalso.
    + destruct (OnGraphicsDeviceEvent_reset w _ st (or_introl eq_refl))
        as (st2 & Hrun2 & Hsame).
      congruence.
    + destruct (OnGraphicsDeviceEvent_reset w _ st (or_intror eq_refl))
        as (st2 & Hrun2 & Hsame).
      congruence.
  - destruct st as [dt rn cc rbs ris lib lp rp td fb dl tr]. split.
    + intros Hev [Hgl Hd3d]. cbn in Hgl, Hd3d.
      destruct eventType; [contradiction| | |];
        plugin_unfold; cbn;
        destruct (dl =? NULL); flags w; decide_all; try tauto;
        eexists; (split; [reflexivity|]); trace_simpl; reflexivity.
    + intros -> Hun.
      plugin_unfold; cbn.
      destruct (dl =? NULL); cbn.
      * destruct (Hun (length tr)) as [Hgl Hd3d].
        flags w; decide_all; try tauto;
        eexists; (split; [reflexivity|]); trace_simpl; reflexivity.
      * match goal with
        | |- context [GetRenderer w ?t] => destruct (Hun t) as [Hgl Hd3d]
        end.
        flags w; decide_all; try tauto;
        eexists; (split; [reflexivity|]); trace_simpl; reflexivity.
Qed.

Lemma C7_witness :
  (exists st',
     OnGraphicsDeviceEvent d3d9_world kUnityGfxDeviceEventBeforeReset
       d3d11_session = Returns (tt, st') /\
     s_DeviceType st' = s_DeviceType d3d11_session) /\
  (exists st',
     OnGraphicsDeviceEvent d3d9_world kUnityGfxDeviceEventInitialize
       initial_State = Returns (tt, st') /\
     handlers_entered (new_events initial_State st') = []).
Proof.
  pose proof (C7_reset_keeps_kind_unrecognized_enters_no_handler
                d3d9_world kUnityGfxDeviceEventBeforeReset d3d11_session)
    as (Hreset & _).
  pose proof (C7_reset_keeps_kind_unrecognized_enters_no_handler
                d3d9_world kUnityGfxDeviceEventInitialize initial_State)
    as (_ & _ & _ & Hinit).
  split.
  - apply Hreset. left. reflexivity.
  - apply Hinit; [reflexivity|].
    intros t. split; intros [_ H]; discriminate H.
Defined.

(** C10.  A Shutdown device event resets [s_DeviceType] to
    [kUnityGfxRendererNull] and still enters the handler of the kind that
    was stored when the event arrived, so that the Direct3D 11 teardown
    deletes a live render manager; an Initialize device event stores the
    renderer the host reports and enters the handler of that renderer. *)
Theorem C10_shutdown_dispatches_on_entry_kind_initialize_on_queried_kind
    (w : World) (st : State) :
  (render st <> dangling ->
   exists st',
     OnGraphicsDeviceEvent w kUnityGfxDeviceEventShutdown st
       = Returns (tt, st') /\
     s_DeviceType st' = kUnityGfxRendererNull /\
     handlers_entered (new_events st st')
       = handlers_for w (s_DeviceType st) kUnityGfxDeviceEventShutdown /\
     (SUPPORT_D3D11 w = true ->
      s_DeviceType st = kUnityGfxRendererD3D11 ->
      forall m, render st = live m ->
      render st' = dangling /\ In E_delete_RenderManager (new_events st st')))
  /\
  (exists st' t,
     OnGraphicsDeviceEvent w kUnityGfxDeviceEventInitialize st
       = Returns (tt, st') /\
     In E_GetRenderer (new_events st st') /\
     s_DeviceType st' = GetRenderer w t /\
     handlers_entered (new_events st st')
       = handlers_for w (GetRenderer w t) kUnityGfxDeviceEventInitialize).
Proof.
  destruct st as [dt rn cc rbs ris lib lp rp td fb dl tr].
  unfold handlers_for. split.
  - cbn [render s_DeviceType]. intros Hlive.
    plugin_unfold; cbn.
    destruct (dl =? NULL) eqn:Hdl; flags w; destruct rn as [|m|];
      try contradiction; crunch Hdl;
      (eexists; split; [reflexivity|]);
      (split; [reflexivity|]);
      (split; [trace_simpl; reflexivity|]);
      intros; try congruence; try discriminate;
      (split; [reflexivity|]); trace_simpl; auto 10.
  - plugin_unfold; cbn.
    destruct (dl =? NULL) eqn:Hdl; flags w; crunch Hdl.
    all: eexists; eexists.
    all: (split; [reflexivity|]).
    all: (split; [trace_simpl; auto 10|]).
    all: (split; [reflexivity|]); trace_simpl.
    all: repeat (case_bool_decide; try congruence); cbn; try reflexivity.
Qed.

Lemma C10_witness :
  exists st',
    OnGraphicsDeviceEvent d3d11_world kUnityGfxDeviceEventShutdown
      d3d11_two_eyes = Returns (tt, st') /\
    s_DeviceType d3d11_two_eyes = kUnityGfxRendererD3D11 /\
    s_DeviceType st' = kUnityGfxRendererNull /\
    handlers_entered (new_events d3d11_two_eyes st')
      = [E_DoEventGraphicsDeviceD3D11 kUnityGfxDeviceEventShutdown] /\
    render st' = dangling.
Proof.
  destruct (C10_shutdown_dispatches_on_entry_kind_initialize_on_queried_kind
              d3d11_world d3d11_two_eyes) as [Hshutdown _].
  destruct Hshutdown as (st' & Hrun & Hnull & Hhandlers & Hteardown).
  - vm_compute. discriminate.
  - assert (Hkind : s_DeviceType d3d11_two_eyes = kUnityGfxRendererD3D11)
      by (vm_compute; reflexivity).
    assert (Hlive : render d3d11_two_eyes = live demo_manager)
      by (vm_compute; reflexivity).
    exists st'. split; [exact Hrun|]. split; [exact Hkind|].
    split; [exact Hnull|]. split; [exact Hhandlers|].
    exact (proj1 (Hteardown eq_refl Hkind demo_manager Hlive)).
Defined.

(** ** Creating the session *)

(** C3.  [CreateRenderManagerFromUnity] has exactly one of three outcomes:
    the created manager is null or not okay, and the call returns
    [OSVR_RETURN_FAILURE] without opening the display; the manager is okay
    but opening the display fails, and the call returns
    [OSVR_RETURN_FAILURE] without fetching the render info; or both
    succeed, the render info is fetched from the manager and the call
    returns [OSVR_RETURN_SUCCESS]. *)
Theorem C3_CreateRenderManagerFromUnity_exactly_one_outcome
    (w : World) (context : OSVR_ClientContext) (st : State) :
  let r := CreateRenderManagerFromUnity w context st in
  (CreationFailed w context st r /\
   ~ DisplayOpenFailed w context st r /\ ~ Success w context st r) \/
  (~ CreationFailed w context st r /\
   DisplayOpenFailed w context st r /\ ~ Success w context st r) \/
  (~ CreationFailed w context st r /\
   ~ DisplayOpenFailed w context st r /\ Success w context st r).
Proof.
  destruct st as [dt rn cc rbs ris lib lp rp td fb dl tr].
  unfold CreationFailed, DisplayOpenFailed, Success, manager_unusable,
    display_refused, created_manager.
  plugin_unfold. cbn.
  destruct (createRenderManager w (length tr) context "Direct3D11" lib)
    as [m|] eqn:Hmade; cbn.
  - rewrite !last_length.
    destruct (doingOkay m (S (length tr))) eqn:Hok; cbn.
    + rewrite !last_length.
      destruct (OpenDisplay m (S (S (length tr)))) eqn:Hopen; cbn.
      * right; left.
        destruct (dl =? NULL) eqn:Hdl; crunch Hdl.
        all: split; [intros [? _]; discriminate|].
        all: split; [|intros (? & ? & _); congruence].
        all: split; [discriminate|]; split; [reflexivity|].
        all: eexists; split; [reflexivity|]; trace_simpl.
        all: intuition discriminate.
      * right; right.
        destruct (dl =? NULL) eqn:Hdl; crunch Hdl.
        all: split; [intros [? _]; discriminate|].
        all: split; [intros (? & ? & _); congruence|].
        all: split; [discriminate|]; split; [discriminate|].
        all: eexists; eexists; split; [reflexivity|]; trace_simpl.
        all: rewrite ?last_length; intuition.
      * right; right.
        destruct (dl =? NULL) eqn:Hdl; crunch Hdl.
        all: split; [intros [? _]; discriminate|].
        all: split; [intros (? & ? & _); congruence|].
        all: split; [discriminate|]; split; [discriminate|].
        all: eexists; eexists; split; [reflexivity|]; trace_simpl.
        all: rewrite ?last_length; intuition.
    + left.
      destruct (dl =? NULL) eqn:Hdl; crunch Hdl.
      all: split; [|split; [intros (? & _); congruence
                           |intros (? & _); congruence]].
      all: split; [reflexivity|].
      all: eexists; split; [reflexivity|]; trace_simpl.
      all: intuition discriminate.
  - left.
    destruct (dl =? NULL) eqn:Hdl; crunch Hdl.
    all: split; [|split; [intros (_ & [] & _)|intros (Hno & _); apply Hno; exact I]].
    all: split; [exact I|].
    all: eexists; split; [reflexivity|]; trace_simpl.
    all: intuition discriminate.
Qed.

(** ** Shutdown and what follows it *)

(** With the Direct3D 11 backend and a live render manager, the shutdown
    render event deletes the manager and leaves [render] and [s_DeviceType]
    as they were: [render] now dangles.  The next render tick calls
    [GetRenderInfo] through it, and the next shutdown deletes it again,
    from [Shutdown] as well as from the device-event handler. *)
Lemma Shutdown_leaves_render_dangling (w : World) (st : State)
    (m : RenderManager) :
  s_DeviceType st = kUnityGfxRendererD3D11 ->
  render st = live m ->
  exists st1,
    OnRenderEvent w kOsvrEventID_Shutdown st = Returns (tt, st1) /\
    render st1 = dangling /\
    s_DeviceType st1 = kUnityGfxRendererD3D11 /\
    OnRenderEvent w kOsvrEventID_Render st1 = Undefined UseAfterFree /\
    OnRenderEvent w kOsvrEventID_Shutdown st1 = Undefined DoubleFree /\
    (SUPPORT_D3D11 w = true ->
     OnGraphicsDeviceEvent w kUnityGfxDeviceEventShutdown st1
       = Undefined DoubleFree).
Proof.
  destruct st as [dt rn cc rbs ris lib lp rp td fb dl tr].
  cbn [s_DeviceType render]. intros -> ->.
  plugin_unfold. cbn.
  destruct (dl =? NULL) eqn:Hdl; crunch Hdl.
  all: eexists; split; [reflexivity|].
  all: repeat split; crunch Hdl; try reflexivity.
  all: intros ->; flags w; crunch Hdl; reflexivity.
Qed.

(** A render tick dereferences [render] before it looks at the backend
    kind: with a null [render] it is undefined whatever the kind is, also
    for [kUnityGfxRendererNull], whose value is not the [-1] the guard
    tests. *)
Lemma OnRenderEvent_Render_null_session (w : World) (st : State) :
  render st = nullptr ->
  OnRenderEvent w kOsvrEventID_Render st = Undefined NullDereference.
Proof.
  destruct st as [dt rn cc rbs ris lib lp rp td fb dl tr].
  cbn [render]. intros ->.
  plugin_unfold. cbn. destruct dt; reflexivity.
Qed.

(** C1 (the code departs from it).  After the two eye textures were
    registered with the Direct3D 11 backend, the shutdown render event
    returns with [render] dangling, not null, and with the backend kind
    unchanged; the render tick that follows calls [GetRenderInfo] through
    the deleted manager.  A render tick on the null session of a freshly
    loaded plugin dereferences the null pointer. *)
Theorem C1_render_tick_after_shutdown_is_undefined :
  (exists st1,
     OnRenderEvent d3d11_world kOsvrEventID_Shutdown d3d11_two_eyes
       = Returns (tt, st1) /\
     render st1 = dangling /\
     render st1 <> nullptr /\
     s_DeviceType st1 = kUnityGfxRendererD3D11 /\
     OnRenderEvent d3d11_world kOsvrEventID_Render st1
       = Undefined UseAfterFree) /\
  OnRenderEvent d3d11_world kOsvrEventID_Render initial_State
    = Undefined NullDereference.
Proof.
  split.
  - destruct (Shutdown_leaves_render_dangling d3d11_world d3d11_two_eyes
                demo_manager eq_refl eq_refl)
      as (st1 & Hrun & Hdangling & Hkind & Htick & _).
    exists st1. repeat split; try assumption.
    rewrite Hdangling. discriminate.
  - apply OnRenderEvent_Render_null_session. reflexivity.
Qed.

(** C2 (the code departs from it).  With the Direct3D 11 backend and a live
    render manager, the first [Shutdown] returns with the backend kind still
    [kUnityGfxRendererD3D11] and [render] dangling; a second [Shutdown], or
    the device Shutdown event sent when the plugin is unloaded, deletes the
    manager a second time. *)
Theorem C2_second_shutdown_deletes_twice :
  exists st1,
    Shutdown d3d11_two_eyes = Returns (tt, st1) /\
    s_DeviceType st1 = kUnityGfxRendererD3D11 /\
    render st1 = dangling /\
    Shutdown st1 = Undefined DoubleFree /\
    UnityPluginUnload d3d11_world st1 = Undefined DoubleFree.
Proof.
  eexists. split; [vm_compute; reflexivity|].
  repeat split; vm_compute; reflexivity.
Qed.

(** The device Shutdown event sent twice does return, because the second
    one finds the kind reset and enters no handler; [render] is left
    dangling all the same. *)
Lemma device_Shutdown_twice (w : World) (st : State) :
  render st <> dangling ->
  exists st1 st2,
    OnGraphicsDeviceEvent w kUnityGfxDeviceEventShutdown st
      = Returns (tt, st1) /\
    OnGraphicsDeviceEvent w kUnityGfxDeviceEventShutdown st1
      = Returns (tt, st2) /\
    s_DeviceType st1 = kUnityGfxRendererNull /\
    s_DeviceType st2 = kUnityGfxRendererNull /\
    handlers_entered (new_events st1 st2) = [] /\
    render st2 = render st1.
Proof.
  destruct st as [dt rn cc rbs ris lib lp rp td fb dl tr].
  cbn [render]. intros Hlive.
  plugin_unfold. cbn.
  destruct (dl =? NULL) eqn:Hdl; flags w; destruct rn as [|m|];
    try contradiction; crunch Hdl.
  all: eexists; eexists; split; [reflexivity|].
  all: crunch Hdl.
  all: split; [reflexivity|].
  all: repeat split; trace_simpl; reflexivity.
Qed.

(** ** Constructing the Direct3D 11 buffer of an eye *)

Ltac crunch_with tac :=
  repeat first
    [ progress flat
    | progress cbn
    | tac
    | rewrite last_length
    | case_decide; try congruence ].

(** What [ConstructBuffersD3D11] does, given a live manager that reports
    the eye with a Direct3D 11 library. *)
Lemma ConstructBuffersD3D11_spec (w : World) (st : State) (eye : Z)
    (m : RenderManager) (ri : RenderInfo) (lib : GraphicsLibraryD3D11) :
  render st = live m ->
  0 <= eye ->
  GetRenderInfo m (construct_time st) !! Z.to_nat eye = Some ri ->
  lib_D3D11 (ri_library ri) = live lib ->
  exists st' rc,
    ConstructBuffersD3D11 w eye st = Returns (rc, st') /\
    same_session st st' /\
    renderInfo st' = GetRenderInfo m (construct_time st) /\
    List.filter is_CreateTexture2D (new_events st st')
      = [E_CreateTexture2D (device lib) (texture_desc_of ri)] /\
    if FAILED (fst (texture_created w st lib ri)) then
      rc = OSVR_RETURN_FAILURE /\
      renderBuffers st' = renderBuffers st /\
      List.filter is_CreateRenderTargetView (new_events st st') = []
    else
      List.filter is_CreateRenderTargetView (new_events st st')
        = [E_CreateRenderTargetView (device lib)
             (snd (texture_created w st lib ri))
             color_RENDER_TARGET_VIEW_DESC] /\
      if FAILED (fst (view_created w st lib ri)) then
        rc = OSVR_RETURN_FAILURE /\
        renderBuffers st' = renderBuffers st
      else
        rc = OSVR_RETURN_SUCCESS /\
        renderBuffers st' = renderBuffers st ++ [complete_buffer w st lib ri].
Proof.
  destruct st as [dt rn cc rbs ris libs lp rp td fb dl tr].
  unfold same_session, complete_buffer, view_created, texture_created,
    construct_time, logged.
  cbn [render debugLog trace]. intros -> Heye Hri Hlib.
  apply Z.ltb_ge in Heye.
  plugin_unfold. cbn.
  destruct (dl =? NULL) eqn:Hdl; cbn [trace set_trace] in Hri |- *.
  all: rewrite ?last_length in Hri.
  all: crunch_with
         ltac:(first [rewrite Hdl | rewrite Heye | rewrite Hri | rewrite Hlib]).
  all: destruct (CreateTexture2D w _ _ _) as [hr tex]; cbn.
  all: destruct (FAILED hr) eqn:Hfailed;
       crunch_with
         ltac:(first [rewrite Hdl | rewrite Heye | rewrite Hri | rewrite Hlib]).
  all: try (destruct (CreateRenderTargetView w _ _ _ _) as [hr2 view]; cbn;
            destruct (FAILED hr2) eqn:Hfailed2;
            crunch_with ltac:(rewrite Hdl)).
  all: eexists; eexists; (split; [reflexivity|]).
  all: repeat split; trace_simpl; reflexivity.
Qed.




(** ** Registering the texture of an eye *)

Arguments ConstructBuffersD3D11 : simpl never.
Arguments ConstructBuffersOpenGL : simpl never.

Lemma renderer_value_not_minus_one (r : UnityGfxRenderer) :
  (renderer_value r =? -1) = false.
Proof. destruct r; reflexivity. Qed.

Ltac set_unfold :=
  unfold SetColorBufferFromUnity, store_texturePtr, registered, logged,
    DebugLog, bind, ret, gets, modify, emit.

Lemma SetColorBufferFromUnity_D3D11 (w : World) (st : State)
    (texturePtr : Handle) (eye : Z) :
  s_DeviceType st = kUnityGfxRendererD3D11 ->
  SetColorBufferFromUnity w texturePtr eye st =
  match ConstructBuffersD3D11 w eye (registered texturePtr eye st) with
  | Returns (_, st') => Returns (OSVR_RETURN_SUCCESS, st')
  | Undefined u => Undefined u
  end.
Proof.
  destruct st as [dt rn cc rbs ris lib lp rp td fb dl tr].
  cbn [s_DeviceType]. intros ->. set_unfold. cbn.
  destruct (dl =? NULL) eqn:Hdl, (eye =? 0); cbn;
    destruct (ConstructBuffersD3D11 w eye _) as [[] |]; reflexivity.
Qed.

Lemma SetColorBufferFromUnity_OpenGL (w : World) (st : State)
    (texturePtr : Handle) (eye : Z) :
  s_DeviceType st = kUnityGfxRendererOpenGL ->
  SetColorBufferFromUnity w texturePtr eye st =
  match ConstructBuffersOpenGL w eye (registered texturePtr eye st) with
  | Returns (_, st') => Returns (OSVR_RETURN_SUCCESS, st')
  | Undefined u => Undefined u
  end.
Proof.
  destruct st as [dt rn cc rbs ris lib lp rp td fb dl tr].
  cbn [s_DeviceType]. intros ->. set_unfold. cbn.
  destruct (dl =? NULL) eqn:Hdl, (eye =? 0); cbn;
    destruct (ConstructBuffersOpenGL w eye _) as [[] |]; reflexivity.
Qed.

Lemma SetColorBufferFromUnity_no_backend (w : World) (st : State)
    (texturePtr : Handle) (eye : Z) :
  ~ backend_active st ->
  SetColorBufferFromUnity w texturePtr eye st =
  Returns (OSVR_RETURN_FAILURE,
           logged "Device type not supported."
                  (registered texturePtr eye st)).
Proof.
  destruct st as [dt rn cc rbs ris lib lp rp td fb dl tr].
  unfold backend_active. cbn [s_DeviceType]. intros Hnone. set_unfold.
  destruct dt; try (exfalso; apply Hnone; auto; fail); cbn;
    destruct (dl =? NULL) eqn:Hdl, (eye =? 0); cbn; rewrite ?Hdl;
    reflexivity.
Qed.

Lemma registered_fields (texturePtr : Handle) (eye : Z) (st : State) :
  s_DeviceType (registered texturePtr eye st) = s_DeviceType st /\
  render (registered texturePtr eye st) = render st /\
  renderBuffers (registered texturePtr eye st) = renderBuffers st /\
  debugLog (registered texturePtr eye st) = debugLog st /\
  (exists evs, trace (registered texturePtr eye st) = trace st ++ evs /\
               List.filter is_CreateTexture2D evs = [] /\
               List.filter is_CreateRenderTargetView evs = []) /\
  if eye =? 0
  then leftEyeTexturePtr (registered texturePtr eye st) = texturePtr /\
       rightEyeTexturePtr (registered texturePtr eye st)
         = rightEyeTexturePtr st
  else rightEyeTexturePtr (registered texturePtr eye st) = texturePtr /\
       leftEyeTexturePtr (registered texturePtr eye st)
         = leftEyeTexturePtr st.
Proof.
  destruct st as [dt rn cc rbs ris lib lp rp td fb dl tr].
  unfold registered, logged. cbn.
  destruct (dl =? NULL), (eye =? 0); cbn; repeat split; auto.
  all: try (exists []; rewrite app_nil_r; auto; fail).
  all: eexists; split; [reflexivity|]; auto.
Qed.

(** C9.  With the Direct3D 11 backend stored, whatever code the buffer
    construction returns, failure included, [SetColorBufferFromUnity]
    returns [OSVR_RETURN_SUCCESS]; and when [SetColorBufferFromUnity]
    returns [OSVR_RETURN_FAILURE], the stored kind is neither backend and
    no texture or view creation was attempted. *)
Theorem C9_SetColorBufferFromUnity_discards_construction_failure
    (w : World) (st : State) (texturePtr : Handle) (eye : Z) :
  (s_DeviceType st = kUnityGfxRendererD3D11 ->
   forall rc st',
     ConstructBuffersD3D11 w eye (registered texturePtr eye st)
       = Returns (rc, st') ->
     SetColorBufferFromUnity w texturePtr eye st
       = Returns (OSVR_RETURN_SUCCESS, st')) /\
  (forall st',
     SetColorBufferFromUnity w texturePtr eye st
       = Returns (OSVR_RETURN_FAILURE, st') ->
     ~ backend_active st /\
     List.filter is_CreateTexture2D (new_events st st') = [] /\
     List.filter is_CreateRenderTargetView (new_events st st') = []).
Proof.
  split.
  - intros Hkind rc st' Hconstruct.
    rewrite SetColorBufferFromUnity_D3D11 by exact Hkind.
    rewrite Hconstruct. reflexivity.
  - intros st' Hrun.
    assert (Hnone : ~ backend_active st).
    { intros [Hkind | Hkind].
      - rewrite SetColorBufferFromUnity_D3D11 in Hrun by exact Hkind.
        destruct (ConstructBuffersD3D11 w eye _) as [[] |]; discriminate.
      - rewrite SetColorBufferFromUnity_OpenGL in Hrun by exact Hkind.
        destruct (ConstructBuffersOpenGL w eye _) as [[] |]; discriminate. }
    split; [exact Hnone|].
    rewrite SetColorBufferFromUnity_no_backend in Hrun by exact Hnone.
    injection Hrun as <-.
    destruct (registered_fields texturePtr eye st)
      as (_ & _ & _ & Hdl & (evs & Htrace & Htex & Hview) & _).
    unfold logged. rewrite Hdl.
    destruct (debugLog st =? NULL).
    + rewrite (new_events_intro _ _ _ Htrace). auto.
    + erewrite new_events_intro
        by (cbn [trace set_trace]; rewrite Htrace, <- app_assoc; reflexivity).
      rewrite !List.filter_app, Htex, Hview. auto.
Qed.

Lemma C9_witness :
  exists st',
    ConstructBuffersD3D11 (demo_world kUnityGfxRendererD3D11 E_FAIL) 0
      (registered 500 0 d3d11_session)
      = Returns (OSVR_RETURN_FAILURE, st') /\
    SetColorBufferFromUnity (demo_world kUnityGfxRendererD3D11 E_FAIL) 500 0
      d3d11_session
      = Returns (OSVR_RETURN_SUCCESS, st').
Proof.
  eexists. split.
  - vm_compute. reflexivity.
  - apply (proj1 (C9_SetColorBufferFromUnity_discards_construction_failure
                    (demo_world kUnityGfxRendererD3D11 E_FAIL)
                    d3d11_session 500 0) eq_refl OSVR_RETURN_FAILURE).
    vm_compute. reflexivity.
Defined.

(** ** Constructing the OpenGL buffers *)

Ltac opengl_unfold :=
  unfold ConstructBuffersOpenGL, ConstructBuffersOpenGL_color,
    ConstructBuffersOpenGL_depth, glTexImage2D;
  plugin_unfold.

(** What a returning [ConstructBuffersOpenGL] has done. *)
Lemma ConstructBuffersOpenGL_effect (w : World) (st : State) (eye : Z)
    (st' : State) :
  ConstructBuffersOpenGL w eye st = Returns (tt, st') ->
  same_session st st' /\
  (exists evs,
     trace st' = trace st ++ evs /\
     List.filter is_glGenFramebuffers evs
       = if eye =? 0 then [E_glGenFramebuffers] else []) /\
  (eye <> 0 -> frameBuffer st' = frameBuffer st) /\
  (eye = 0 -> exists t, frameBuffer st' = glGenFramebuffers w t) /\
  length (renderBuffers st') = S (length (renderBuffers st)).
Proof.
  destruct st as [dt rn cc rbs ris lib lp rp td fb dl tr].
  unfold same_session. opengl_unfold. cbn.
  destruct (glewInit w (length tr) =? GLEW_OK);
    destruct (dl =? NULL) eqn:Hdl; crunch Hdl;
    (destruct rn as [|m|]; [discriminate| |discriminate]); crunch Hdl;
    destruct (eye =? 0) eqn:Hzero; crunch Hdl;
    destruct (eye <? 0); crunch Hdl; try discriminate;
    destruct (_ !! Z.to_nat eye) eqn:Hri;
    crunch_with ltac:(first [rewrite Hdl | rewrite Hri]); try discriminate;
    destruct (image_bytes _ _ <=? _) eqn:Hfit;
    crunch_with ltac:(first [rewrite Hdl | rewrite Hri]); try discriminate.
  all: intros Hrun; injection Hrun as <-; cbn.
  all: repeat split; try reflexivity.
  all: try (apply Z.eqb_eq in Hzero; intros; congruence).
  all: try (apply Z.eqb_neq in Hzero; intros; congruence).
  all: try apply last_length.
  all: try (intros _; eexists; reflexivity).
  all: eexists; (split; [rewrite <- ?app_assoc; reflexivity|]); reflexivity.
Qed.

(** [ConstructBuffersOpenGL] returns when the manager is live and reports
    the eye with a color image that fits the variable passed as image
    data. *)
Lemma ConstructBuffersOpenGL_returns (w : World) (st : State) (eye : Z)
    (m : RenderManager) :
  render st = live m ->
  0 <= eye ->
  (forall t, exists ri,
     GetRenderInfo m t !! Z.to_nat eye = Some ri /\ color_image_fits ri) ->
  exists st', ConstructBuffersOpenGL w eye st = Returns (tt, st').
Proof.
  destruct st as [dt rn cc rbs ris lib lp rp td fb dl tr].
  cbn [render]. intros -> Heye Hinfo.
  apply Z.ltb_ge in Heye.
  opengl_unfold. cbn.
  destruct (glewInit w (length tr) =? GLEW_OK);
    destruct (dl =? NULL) eqn:Hdl; crunch Hdl;
    destruct (eye =? 0) eqn:Hzero;
    crunch_with ltac:(first [rewrite Hdl | rewrite Heye]);
    match goal with
    | |- context [GetRenderInfo m ?t !! _] =>
        destruct (Hinfo t) as (ri & Hri & Hfit)
    end;
    apply Z.leb_le in Hfit;
    crunch_with ltac:(first [rewrite Hdl | rewrite Heye | rewrite Hri
                            | rewrite Hfit]);
    eexists; reflexivity.
Qed.

(** When the color image does not fit, the construction reads past the
    variable. *)
Lemma ConstructBuffersOpenGL_overreads (w : World) (st : State) (eye : Z)
    (m : RenderManager) :
  render st = live m ->
  0 <= eye ->
  (forall t, exists ri,
     GetRenderInfo m t !! Z.to_nat eye = Some ri /\ ~ color_image_fits ri) ->
  ConstructBuffersOpenGL w eye st = Undefined OutOfBounds.
Proof.
  destruct st as [dt rn cc rbs ris lib lp rp td fb dl tr].
  cbn [render]. intros -> Heye Hinfo.
  apply Z.ltb_ge in Heye.
  opengl_unfold. cbn.
  destruct (glewInit w (length tr) =? GLEW_OK);
    destruct (dl =? NULL) eqn:Hdl; crunch Hdl;
    destruct (eye =? 0) eqn:Hzero;
    crunch_with ltac:(first [rewrite Hdl | rewrite Heye]);
    match goal with
    | |- context [GetRenderInfo m ?t !! _] =>
        destruct (Hinfo t) as (ri & Hri & Hfit)
    end;
    apply Z.nle_gt, Z.leb_gt in Hfit;
    crunch_with ltac:(first [rewrite Hdl | rewrite Heye | rewrite Hri
                            | rewrite Hfit]);
    reflexivity.
Qed.

(** The calls of a returning [ConstructBuffersOpenGL] that carry the size
    of the eye's viewport, and the buffer it registers. *)
Lemma ConstructBuffersOpenGL_calls (w : World) (st : State) (eye : Z)
    (st' : State) :
  ConstructBuffersOpenGL w eye st = Returns (tt, st') ->
  exists ri name evs,
    renderInfo st' !! Z.to_nat eye = Some ri /\
    color_image_fits ri /\
    renderBuffers st' = renderBuffers st ++ [OpenGL_buffer name] /\
    trace st' = trace st ++ evs /\
    In (E_glTexImage2D (static_cast_int (vp_width (viewport ri)))
                       (static_cast_int (vp_height (viewport ri)))
                       (address_of_GLuint name)) evs /\
    In (E_glRenderbufferStorage
          (static_cast_int (vp_width (viewport ri)))
          (static_cast_int (vp_height (viewport ri)))) evs /\
    In (E_glBindTexture name) evs.
Proof.
  destruct st as [dt rn cc rbs ris lib lp rp td fb dl tr].
  unfold color_image_fits, OpenGL_buffer. opengl_unfold. cbn.
  destruct (glewInit w (length tr) =? GLEW_OK);
    destruct (dl =? NULL) eqn:Hdl; crunch Hdl;
    (destruct rn as [|m|]; [discriminate| |discriminate]); crunch Hdl;
    destruct (eye =? 0) eqn:Hzero; crunch Hdl;
    destruct (eye <? 0); crunch Hdl; try discriminate;
    destruct (_ !! Z.to_nat eye) as [ri|] eqn:Hri;
    crunch_with ltac:(first [rewrite Hdl | rewrite Hri]); try discriminate;
    destruct (image_bytes _ _ <=? _) eqn:Hfit;
    crunch_with ltac:(first [rewrite Hdl | rewrite Hri]); try discriminate.
  all: intros Hrun; injection Hrun as <-; cbn.
  all: apply Z.leb_le in Hfit.
  all: exists ri; eexists; eexists.
  all: (split; [exact Hri|]); (split; [exact Hfit|]).
  all: (split; [reflexivity|]).
  all: (split; [rewrite <- ?app_assoc; reflexivity|]).
  all: (split; [find_in|]).
  all: split; find_in.
Qed.

Lemma ConstructBuffersOpenGL_each_effect (w : World) (eyes : list Z) :
  forall st st',
    ConstructBuffersOpenGL_each w eyes st = Returns (tt, st') ->
    exists evs,
      trace st' = trace st ++ evs /\
      length (List.filter is_glGenFramebuffers evs)
        = count_occ Z.eq_dec eyes 0 /\
      (~ In 0 eyes -> frameBuffer st' = frameBuffer st).
Proof.
  induction eyes as [|eye rest IH]; intros st st' Hrun.
  - injection Hrun as <-. exists []. rewrite app_nil_r. auto.
  - cbn [ConstructBuffersOpenGL_each] in Hrun. unfold bind in Hrun.
    destruct (ConstructBuffersOpenGL w eye st) as [[[] st1]|] eqn:Hfirst;
      [|discriminate].
    destruct (ConstructBuffersOpenGL_effect w st eye st1 Hfirst)
      as (_ & (evs1 & Htrace1 & Hcount1) & Hkeep1 & _).
    destruct (IH st1 st' Hrun) as (evs & Htrace & Hcount & Hkeep).
    exists (evs1 ++ evs). split; [|split].
    + rewrite Htrace, Htrace1, app_assoc. reflexivity.
    + rewrite List.filter_app, length_app, Hcount1, Hcount.
      cbn [count_occ].
      destruct (Z.eqb_spec eye 0) as [->|Hne];
        destruct (Z.eq_dec _ 0); try congruence; reflexivity.
    + intros Hnot. rewrite Hkeep, Hkeep1; [reflexivity| |];
        intro; apply Hnot; cbn; auto.
Qed.

(** A returning construction has called [glGenFramebuffers] once when it
    was for eye 0 and not at all otherwise; over a sequence of
    constructions the framebuffers created are as many as the eye-0
    calls. *)
Lemma glGenFramebuffers_once_per_eye_0_construction (w : World) :
  (forall st eye st',
     ConstructBuffersOpenGL w eye st = Returns (tt, st') ->
     List.filter is_glGenFramebuffers (new_events st st')
       = (if eye =? 0 then [E_glGenFramebuffers] else []) /\
     (eye = 0 -> exists t, frameBuffer st' = glGenFramebuffers w t) /\
     (eye <> 0 -> frameBuffer st' = frameBuffer st)) /\
  (forall eyes st st',
     ConstructBuffersOpenGL_each w eyes st = Returns (tt, st') ->
     length (List.filter is_glGenFramebuffers (new_events st st'))
       = count_occ Z.eq_dec eyes 0 /\
     (~ In 0 eyes -> frameBuffer st' = frameBuffer st)).
Proof.
  split.
  - intros st eye st' Hrun.
    destruct (ConstructBuffersOpenGL_effect w st eye st' Hrun)
      as (_ & (evs & Htrace & Hcount) & Hkeep & Hnew & _).
    rewrite (new_events_intro _ _ _ Htrace). auto.
  - intros eyes st st' Hrun.
    destruct (ConstructBuffersOpenGL_each_effect w eyes st st' Hrun)
      as (evs & Htrace & Hcount & Hkeep).
    rewrite (new_events_intro _ _ _ Htrace). auto.
Qed.

(** C8.  The framebuffer is not created exactly once: on the OpenGL host
    with one-pixel viewports, where every construction is defined, the
    host registers a texture for eye 0, for eye 1 and for eye 0 again.  The
    three registrations return, and [glGenFramebuffers] has been called
    twice, once by each eye-0 registration and not by the eye-1
    registration; [frameBuffer] holds the second name, and the first
    framebuffer was never deleted. *)
Theorem C8_second_eye_0_registration_creates_a_second_framebuffer :
  exists st1 st2 st3,
    SetColorBufferFromUnity opengl_world 500 0 opengl_session
      = Returns (OSVR_RETURN_SUCCESS, st1) /\
    SetColorBufferFromUnity opengl_world 501 1 st1
      = Returns (OSVR_RETURN_SUCCESS, st2) /\
    SetColorBufferFromUnity opengl_world 502 0 st2
      = Returns (OSVR_RETURN_SUCCESS, st3) /\
    List.filter is_glGenFramebuffers (new_events opengl_session st1)
      = [E_glGenFramebuffers] /\
    List.filter is_glGenFramebuffers (new_events st1 st2) = [] /\
    List.filter is_glGenFramebuffers (new_events st2 st3)
      = [E_glGenFramebuffers] /\
    List.filter is_glGenFramebuffers (new_events opengl_session st3)
      = [E_glGenFramebuffers; E_glGenFramebuffers] /\
    frameBuffer st2 = frameBuffer st1 /\
    frameBuffer st3 <> frameBuffer st1 /\
    ~ In (E_glDeleteFramebuffers (frameBuffer st1)) (trace st3).
Proof.
  do 3 eexists.
  do 8 (split; [vm_compute; reflexivity|]).
  split.
  - vm_compute. discriminate.
  - vm_compute. intuition discriminate.
Qed.

(** ** Registering the texture of an eye, continued *)

(** [ConstructBuffersD3D11] returns only with a live manager that reports
    the eye with a Direct3D 11 library. *)
Lemma ConstructBuffersD3D11_returns_only (w : World) (st : State) (eye : Z)
    (rc : OSVR_ReturnCode) (st' : State) :
  ConstructBuffersD3D11 w eye st = Returns (rc, st') ->
  exists m ri lib,
    render st = live m /\
    0 <= eye /\
    GetRenderInfo m (construct_time st) !! Z.to_nat eye = Some ri /\
    lib_D3D11 (ri_library ri) = live lib.
Proof.
  destruct st as [dt rn cc rbs ris libs lp rp td fb dl tr].
  unfold construct_time, logged. plugin_unfold. cbn.
  destruct (dl =? NULL) eqn:Hdl; crunch Hdl;
    (destruct rn as [|m|]; [discriminate| |discriminate]); crunch Hdl;
    destruct (eye <? 0) eqn:Heye; crunch Hdl; try discriminate;
    destruct (_ !! Z.to_nat eye) as [ri|] eqn:Hri;
    crunch_with ltac:(first [rewrite Hdl | rewrite Hri]); try discriminate;
    destruct (lib_D3D11 (ri_library ri)) as [|lib|] eqn:Hlib;
    crunch_with ltac:(first [rewrite Hdl | rewrite Hri | rewrite Hlib]);
    try discriminate.
  all: intros _; exists m, ri, lib.
  all: apply Z.ltb_ge in Heye; auto.
Qed.

(** A returning [ConstructBuffersD3D11] has only extended the trace. *)
Lemma ConstructBuffersD3D11_trace (w : World) (st : State) (eye : Z)
    (rc : OSVR_ReturnCode) (st' : State) :
  ConstructBuffersD3D11 w eye st = Returns (rc, st') ->
  exists evs, trace st' = trace st ++ evs.
Proof.
  destruct st as [dt rn cc rbs ris libs lp rp td fb dl tr].
  plugin_unfold. cbn.
  destruct (dl =? NULL) eqn:Hdl; crunch Hdl;
    (destruct rn as [|m|]; [discriminate| |discriminate]); crunch Hdl;
    destruct (eye <? 0); crunch Hdl; try discriminate;
    destruct (_ !! Z.to_nat eye) as [ri|] eqn:Hri;
    crunch_with ltac:(first [rewrite Hdl | rewrite Hri]); try discriminate;
    destruct (lib_D3D11 (ri_library ri)) as [|lib|] eqn:Hlib;
    crunch_with ltac:(first [rewrite Hdl | rewrite Hri | rewrite Hlib]);
    try discriminate;
    destruct (CreateTexture2D w _ _ _) as [hr tex]; cbn;
    destruct (FAILED hr);
    crunch_with ltac:(first [rewrite Hdl | rewrite Hri | rewrite Hlib]);
    try (destruct (CreateRenderTargetView w _ _ _ _) as [hr2 view]; cbn;
         destruct (FAILED hr2); crunch_with ltac:(rewrite Hdl)).
  all: intros Hrun; injection Hrun as <- <-; cbn.
  all: eexists; rewrite <- ?app_assoc; reflexivity.
Qed.

(** Without a backend, a registration leaves the plugin only through
    debug lines. *)
Lemma registration_without_backend_calls (texturePtr : Handle) (eye : Z)
    (st : State) :
  external_calls
    (new_events st (logged "Device type not supported."
                           (registered texturePtr eye st))) = [] /\
  renderBuffers (logged "Device type not supported."
                        (registered texturePtr eye st)) = renderBuffers st.
Proof.
  destruct st as [dt rn cc rbs ris lib lp rp td fb dl tr].
  unfold registered, logged, external_calls. cbn.
  destruct (dl =? NULL) eqn:Hdl, (eye =? 0); cbn; rewrite ?Hdl; cbn.
  all: split; [|reflexivity].
  all: trace_simpl; reflexivity.
Qed.

(** C5 as stated fails: with the Direct3D 11 backend stored and a session
    that reports two eyes, the call for eye index 2 does not return (the
    construction indexes the render info out of bounds), so that it returns
    neither [OSVR_RETURN_FAILURE] nor [OSVR_RETURN_SUCCESS]. *)
Lemma C5_counterexample :
  SetColorBufferFromUnity d3d11_world 500 2 d3d11_session
    = Undefined OutOfBounds /\
  ~ exists rc st',
      SetColorBufferFromUnity d3d11_world 500 2 d3d11_session
        = Returns (rc, st').
Proof.
  assert (Hrun : SetColorBufferFromUnity d3d11_world 500 2 d3d11_session
                 = Undefined OutOfBounds) by (vm_compute; reflexivity).
  split; [exact Hrun|].
  intros (rc & st' & Hreturns). rewrite Hrun in Hreturns.
  discriminate Hreturns.
Qed.

(** C5, as amended.  Whenever [SetColorBufferFromUnity] returns, for any
    texture pointer and eye index: the pointer is stored for the left eye
    when the index is 0 and for the right eye otherwise, the other eye's
    pointer being kept; the code returned is [OSVR_RETURN_FAILURE] exactly
    when neither backend is the stored kind; with the Direct3D 11 backend
    stored, the session is live and reports that eye with a Direct3D 11
    library, the device was asked for exactly one 2-D texture, of that
    eye's description, and [renderBuffers] has grown by the complete buffer
    when both creations succeeded and not at all otherwise; with the OpenGL
    backend stored, [glTexImage2D] was called with the size of that eye's
    viewport and [renderBuffers] has grown by one OpenGL buffer; with
    neither backend stored, no call left the plugin but debug lines, and
    [renderBuffers] is unchanged.  The call returns, with
    [OSVR_RETURN_FAILURE], whenever neither backend is the stored kind, and
    it returns, with [OSVR_RETURN_SUCCESS], whenever the Direct3D 11 backend
    is stored and the session can construct the buffer of the eye. *)
Theorem C5_SetColorBufferFromUnity_stores_constructs_and_reports
    (w : World) (st : State) (texturePtr : Handle) (eye : Z) :
  (forall rc st',
     SetColorBufferFromUnity w texturePtr eye st = Returns (rc, st') ->
     (if eye =? 0
      then leftEyeTexturePtr st' = texturePtr /\
           rightEyeTexturePtr st' = rightEyeTexturePtr st
      else rightEyeTexturePtr st' = texturePtr /\
           leftEyeTexturePtr st' = leftEyeTexturePtr st) /\
     (rc = OSVR_RETURN_FAILURE <-> ~ backend_active st) /\
     (s_DeviceType st = kUnityGfxRendererD3D11 ->
      exists m ri lib,
        render st = live m /\
        0 <= eye /\
        GetRenderInfo m (construct_time (registered texturePtr eye st))
          !! Z.to_nat eye = Some ri /\
        lib_D3D11 (ri_library ri) = live lib /\
        (exists l, renderBuffers st' = renderBuffers st ++ l /\
                   (length l <= 1)%nat) /\
        (viewport_fits_int ri ->
         List.filter is_CreateTexture2D (new_events st st')
           = [E_CreateTexture2D (device lib) (texture_desc_of ri)] /\
         Width (texture_desc_of ri)
           = to_unsigned (truncate (vp_width (viewport ri))) /\
         Height (texture_desc_of ri)
           = to_unsigned (truncate (vp_height (viewport ri))) /\
         renderBuffers st'
           = renderBuffers st ++
             D3D11_buffers_added w (registered texturePtr eye st) lib ri)) /\
     (s_DeviceType st = kUnityGfxRendererOpenGL ->
      exists ri name,
        renderInfo st' !! Z.to_nat eye = Some ri /\
        renderBuffers st' = renderBuffers st ++ [OpenGL_buffer name] /\
        In (E_glBindTexture name) (new_events st st') /\
        (viewport_fits_int ri ->
         In (E_glTexImage2D (truncate (vp_width (viewport ri)))
                            (truncate (vp_height (viewport ri)))
                            (address_of_GLuint name))
            (new_events st st'))) /\
     (~ backend_active st ->
      external_calls (new_events st st') = [] /\
      renderBuffers st' = renderBuffers st)) /\
  (~ backend_active st ->
   exists st',
     SetColorBufferFromUnity w texturePtr eye st
       = Returns (OSVR_RETURN_FAILURE, st')) /\
  (s_DeviceType st = kUnityGfxRendererD3D11 ->
   eye_constructible st eye ->
   exists st',
     SetColorBufferFromUnity w texturePtr eye st
       = Returns (OSVR_RETURN_SUCCESS, st')).
Proof.
  destruct (registered_fields texturePtr eye st)
    as (Hkind & Hrender & Hbufs & Hdl & (evs0 & Htrace0 & Htex0 & _)
        & Hstored).
  split; [|split].
  - intros rc st' Hrun.
    destruct (decide (s_DeviceType st = kUnityGfxRendererD3D11))
      as [Hd3d|Hnd3d];
      [|destruct (decide (s_DeviceType st = kUnityGfxRendererOpenGL))
          as [Hgl|Hngl]].
    + rewrite SetColorBufferFromUnity_D3D11 in Hrun by exact Hd3d.
      destruct (ConstructBuffersD3D11 w eye _) as [[rc' st1]|] eqn:Hconstruct;
        [|discriminate].
      injection Hrun as <- <-.
      destruct (ConstructBuffersD3D11_returns_only _ _ _ _ _ Hconstruct)
        as (m & ri & lib & Hlive & Heye & Hri & Hlib).
      destruct (ConstructBuffersD3D11_spec w _ eye m ri lib
                  Hlive Heye Hri Hlib)
        as (st2 & rc2 & Hrun2 & Hsame & _ & Htexture & Hcases).
      rewrite Hconstruct in Hrun2. injection Hrun2 as <- <-.
      destruct Hsame as (_ & _ & Hleft & Hright & _).
      split; [rewrite Hleft, Hright; exact Hstored|].
      split; [split; [discriminate|]; intros Hnone; exfalso; apply Hnone;
              left; exact Hd3d|].
      split; [|split; [congruence|]; intros Hnone; exfalso; apply Hnone;
               left; exact Hd3d].
      intros _. exists m, ri, lib.
      split; [congruence|]. split; [exact Heye|]. split; [exact Hri|].
      split; [exact Hlib|].
      assert (Hadded : renderBuffers st1
                = renderBuffers st ++
                  D3D11_buffers_added w (registered texturePtr eye st)
                    lib ri).
      { unfold D3D11_buffers_added. rewrite <- Hbufs.
        destruct (FAILED (fst (texture_created w _ lib ri))); cbn [orb].
        - destruct Hcases as (_ & Hsame & _). rewrite Hsame.
          symmetry. apply app_nil_r.
        - destruct Hcases as (_ & Hcases).
          destruct (FAILED (fst (view_created w _ lib ri))).
          + destruct Hcases as (_ & Hsame). rewrite Hsame.
            symmetry. apply app_nil_r.
          + destruct Hcases as (_ & Hgrown). exact Hgrown. }
      split.
      { eexists. split; [exact Hadded|].
        unfold D3D11_buffers_added. destruct (_ || _); cbn; lia. }
      intros [Hwidth Hheight]. split.
      { destruct (ConstructBuffersD3D11_trace _ _ _ _ _ Hconstruct)
          as (evs1 & Htrace1).
        rewrite (new_events_intro _ _ _ Htrace1) in Htexture.
        erewrite new_events_intro
          by (rewrite Htrace1, Htrace0, <- app_assoc; reflexivity).
        rewrite List.filter_app, Htex0. exact Htexture. }
      rewrite <- (static_cast_int_exact _ Hwidth),
              <- (static_cast_int_exact _ Hheight).
      split; [reflexivity|]. split; [reflexivity|]. exact Hadded.
    + rewrite SetColorBufferFromUnity_OpenGL in Hrun by exact Hgl.
      destruct (ConstructBuffersOpenGL w eye _) as [[[] st1]|] eqn:Hconstruct;
        [|discriminate].
      injection Hrun as <- <-.
      destruct (ConstructBuffersOpenGL_effect _ _ _ _ Hconstruct)
        as ((_ & _ & Hleft & Hright & _) & _).
      destruct (ConstructBuffersOpenGL_calls _ _ _ _ Hconstruct)
        as (ri & name & evs1 & Hri & _ & Hgrown & Htrace1 & Himage & _
            & Hbind).
      split; [rewrite Hleft, Hright; exact Hstored|].
      split; [split; [discriminate|]; intros Hnone; exfalso; apply Hnone;
              right; exact Hgl|].
      split; [congruence|].
      split; [|intros Hnone; exfalso; apply Hnone; right; exact Hgl].
      intros _. exists ri, name.
      split; [exact Hri|]. split; [congruence|].
      erewrite new_events_intro
        by (rewrite Htrace1, Htrace0, <- app_assoc; reflexivity).
      split; [apply in_or_app; right; exact Hbind|].
      intros [Hwidth Hheight].
      rewrite <- (static_cast_int_exact _ Hwidth),
              <- (static_cast_int_exact _ Hheight).
      apply in_or_app. right. exact Himage.
    + assert (Hnone : ~ backend_active st) by (intros [?|?]; contradiction).
      rewrite SetColorBufferFromUnity_no_backend in Hrun by exact Hnone.
      injection Hrun as <- <-.
      split.
      { unfold logged.
        destruct (debugLog (registered texturePtr eye st) =? NULL);
          exact Hstored. }
      split; [tauto|]. split; [contradiction|]. split; [contradiction|].
      intros _. apply registration_without_backend_calls.
  - intros Hnone. eexists.
    apply SetColorBufferFromUnity_no_backend. exact Hnone.
  - intros Hd3d (m & Hlive & Heye & Hinfo).
    destruct (Hinfo (construct_time (registered texturePtr eye st)))
      as (ri & Hri & Hlib).
    destruct (Hlib Hd3d) as [lib Hlive_lib].
    destruct (ConstructBuffersD3D11_spec w (registered texturePtr eye st)
                eye m ri lib) as (st' & rc' & Hrun & _);
      [congruence|exact Heye|exact Hri|exact Hlive_lib|].
    exists st'.
    rewrite SetColorBufferFromUnity_D3D11, Hrun by exact Hd3d.
    reflexivity.
Qed.

Lemma C5_witness :
  (exists st',
     SetColorBufferFromUnity d3d11_world 501 1 d3d11_session
       = Returns (OSVR_RETURN_SUCCESS, st') /\
     rightEyeTexturePtr st' = 501 /\
     leftEyeTexturePtr st' = leftEyeTexturePtr d3d11_session /\
     List.filter is_CreateTexture2D (new_events d3d11_session st')
       = [E_CreateTexture2D 100 (texture_desc_of (demo_eye 960))]) /\
  (exists st',
     SetColorBufferFromUnity d3d9_world 500 0 initial_State
       = Returns (OSVR_RETURN_FAILURE, st') /\
     leftEyeTexturePtr st' = 500 /\
     renderBuffers st' = renderBuffers initial_State) /\
  (exists st' name,
     SetColorBufferFromUnity opengl_world 500 0 opengl_session
       = Returns (OSVR_RETURN_SUCCESS, st') /\
     renderBuffers st' = [OpenGL_buffer name]).
Proof.
  split; [|split].
  - destruct (C5_SetColorBufferFromUnity_stores_constructs_and_reports
                d3d11_world d3d11_session 501 1)
      as (Heffect & _ & Hreturns).
    assert (Hkind : s_DeviceType d3d11_session = kUnityGfxRendererD3D11)
      by (vm_compute; reflexivity).
    destruct (Hreturns Hkind) as [st' Hrun].
    + exists demo_manager.
      split; [vm_compute; reflexivity|]. split; [lia|].
      intros t. exists (demo_eye 960). split; [reflexivity|].
      intros _. eexists. reflexivity.
    + destruct (Heffect _ _ Hrun) as (Hstored & _ & Hd3d & _).
      destruct (Hd3d Hkind)
        as (m & ri & lib & Hlive & _ & Hri & Hlib & _ & Hsized).
      vm_compute in Hlive. injection Hlive as <-.
      vm_compute in Hri. injection Hri as <-.
      vm_compute in Hlib. injection Hlib as <-.
      destruct Hsized as (Htexture & _).
      { split; split; vm_compute; discriminate. }
      exists st'. split; [exact Hrun|].
      split; [apply Hstored|]. split; [apply Hstored|]. exact Htexture.
  - destruct (C5_SetColorBufferFromUnity_stores_constructs_and_reports
                d3d9_world initial_State 500 0)
      as (Heffect & Hfailure & _).
    assert (Hnone : ~ backend_active initial_State)
      by (intros [Hkind | Hkind]; discriminate Hkind).
    destruct (Hfailure Hnone) as [st' Hrun].
    destruct (Heffect _ _ Hrun) as (Hstored & _ & _ & _ & Hquiet).
    exists st'. split; [exact Hrun|]. split; [apply Hstored|].
    apply (Hquiet Hnone).
  - destruct (C5_SetColorBufferFromUnity_stores_constructs_and_reports
                opengl_world opengl_session 500 0)
      as (Heffect & _ & _).
    assert (Hrun : exists st',
              SetColorBufferFromUnity opengl_world 500 0 opengl_session
                = Returns (OSVR_RETURN_SUCCESS, st'))
      by (eexists; vm_compute; reflexivity).
    destruct Hrun as [st' Hrun].
    assert (Hkind : s_DeviceType opengl_session = kUnityGfxRendererOpenGL)
      by (vm_compute; reflexivity).
    assert (Hempty : renderBuffers opengl_session = [])
      by (vm_compute; reflexivity).
    destruct (Heffect _ _ Hrun) as (_ & _ & _ & Hgl & _).
    destruct (Hgl Hkind) as (ri & name & _ & Hbufs & _).
    exists st', name. split; [exact Hrun|].
    rewrite Hbufs, Hempty. reflexivity.
Defined.

(** ** The render tick *)

Lemma index_of_nat {A} (l : list A) (i : nat) (a : A) (st : State) :
  l !! i = Some a -> index l (Z.of_nat i) st = Returns (a, st).
Proof.
  intros Hl. unfold index.
  replace (Z.of_nat i <? 0) with false by (symmetry; apply Z.ltb_ge; lia).
  rewrite Nat2Z.id, Hl. reflexivity.
Qed.

Lemma of_nat_eqb_0 (i : nat) : (Z.of_nat i =? 0) = (i =? 0)%nat.
Proof. destruct i; reflexivity. Qed.

(** One turn of the Direct3D 11 loop appends the events of its eye and
    changes nothing else. *)
Lemma OnRenderEvent_D3D11_eye_spec (st : State) (i : nat) :
  eyes_registered_D3D11 st (renderInfo st) ->
  (i < length (renderInfo st))%nat ->
  OnRenderEvent_D3D11_eye i st =
  Returns (tt, set_trace
                 (trace st ++ D3D11_eye_events st (renderInfo st) i) st).
Proof.
  intros Hreg Hi.
  destruct (lookup_lt_is_Some_2 _ _ Hi) as [ri Hri].
  destruct (Hreg i ri Hri) as ((lib & Hlib) & (rb & d3d & Hrb & Hd3d)).
  unfold OnRenderEvent_D3D11_eye, RenderViewD3D11, D3D11_eye_events,
    host_texture, bind, gets.
  rewrite (index_of_nat _ _ _ _ Hri), (index_of_nat _ _ _ _ Hrb).
  rewrite Hri, Hrb, Hlib, Hd3d, of_nat_eqb_0.
  destruct st as [dt rn cc rbs ris libs lp rp td fb dl tr].
  cbn in Hrb |- *.
  destruct (i =? 0)%nat; cbn;
    rewrite (index_of_nat _ _ _ _ Hrb); cbn; rewrite Hd3d; cbn;
    unfold emit, modify; cbn; rewrite <- app_assoc; reflexivity.
Qed.

Lemma D3D11_loop_spec (l : list nat) :
  forall st,
    eyes_registered_D3D11 st (renderInfo st) ->
    Forall (fun i => (i < length (renderInfo st))%nat) l ->
    for_each l OnRenderEvent_D3D11_eye st =
    Returns (tt, set_trace
                   (trace st ++
                    concat (map (D3D11_eye_events st (renderInfo st)) l))
                   st).
Proof.
  induction l as [|i l IH]; intros st Hreg Hall.
  - destruct st. cbn. rewrite app_nil_r. reflexivity.
  - inversion Hall as [|? ? Hi Hrest]; subst.
    cbn [for_each]. unfold bind.
    rewrite (OnRenderEvent_D3D11_eye_spec st i Hreg Hi).
    rewrite IH; [| exact Hreg | exact Hrest].
    destruct st. cbn. rewrite <- app_assoc. reflexivity.
Qed.

(** Under registration, the events of an eye are one change of render
    target and one copy, from the host texture of the eye into the color
    texture of the buffer at the eye's index. *)
Lemma D3D11_eye_events_form (st : State) (info : list RenderInfo) (i : nat) :
  eyes_registered_D3D11 st info ->
  (i < length info)%nat ->
  exists ctx rb d3d,
    renderBuffers st !! i = Some rb /\
    rb_D3D11 rb = live d3d /\
    D3D11_eye_events st info i =
      [E_OMSetRenderTargets ctx (colorBufferView d3d);
       E_CopyResource ctx (colorBuffer d3d) (host_texture st i)].
Proof.
  intros Hreg Hi.
  destruct (lookup_lt_is_Some_2 _ _ Hi) as [ri Hri].
  destruct (Hreg i ri Hri) as ((lib & Hlib) & (rb & d3d & Hrb & Hd3d)).
  exists (context lib), rb, d3d.
  unfold D3D11_eye_events. rewrite Hri, Hrb, Hlib, Hd3d. auto.
Qed.

Lemma D3D11_events_counts (st : State) (info : list RenderInfo)
    (l : list nat) :
  eyes_registered_D3D11 st info ->
  Forall (fun i => (i < length info)%nat) l ->
  length (List.filter is_CopyResource
            (concat (map (D3D11_eye_events st info) l))) = length l /\
  List.filter is_PresentRenderBuffers
    (concat (map (D3D11_eye_events st info) l)) = [].
Proof.
  intros Hreg Hall.
  induction Hall as [|i l Hi Hrest [IHcopy IHpresent]]; [auto|].
  destruct (D3D11_eye_events_form st info i Hreg Hi)
    as (ctx & rb & d3d & _ & _ & Hform).
  cbn [map concat]. rewrite Hform, !List.filter_app, length_app.
  rewrite IHcopy, IHpresent. auto.
Qed.

Lemma seq_below (n : nat) : Forall (fun i => (i < n)%nat) (seq 0 n).
Proof. apply List.Forall_forall. intros i Hin. apply in_seq in Hin. lia. Qed.

(** One turn of the OpenGL loop appends events, none of them a present
    call, and changes nothing else. *)
Lemma OnRenderEvent_OpenGL_eye_spec (w : World) (st : State) (i : nat) :
  eyes_registered_OpenGL st (renderInfo st) ->
  (i < length (renderInfo st))%nat ->
  exists evs,
    OnRenderEvent_OpenGL_eye w i st
      = Returns (tt, set_trace (trace st ++ evs) st) /\
    List.filter is_PresentRenderBuffers evs = [].
Proof.
  intros Hreg Hi.
  destruct (lookup_lt_is_Some_2 _ _ Hi) as [ri Hri].
  destruct (Hreg i ri Hri) as (rb & gl & Hrb & Hgl).
  unfold OnRenderEvent_OpenGL_eye, RenderViewOpenGL, bind, gets.
  rewrite (index_of_nat _ _ _ _ Hri), (index_of_nat _ _ _ _ Hrb).
  rewrite Hgl.
  destruct st as [dt rn cc rbs ris libs lp rp td fb dl tr].
  cbn in Hrb |- *. plugin_unfold. cbn.
  destruct (glCheckFramebufferStatus w _ =? GL_FRAMEBUFFER_COMPLETE); cbn.
  - replace (Z.of_nat i <? 0) with false by (symmetry; apply Z.ltb_ge; lia).
    rewrite Nat2Z.id, Hrb. cbn. rewrite Hgl.
    repeat first [progress flat | progress cbn].
    eexists. split; [rewrite <- !app_assoc; reflexivity|]. reflexivity.
  - destruct (dl =? NULL) eqn:Hdl; crunch Hdl;
      (eexists; split; [rewrite <- ?app_assoc; reflexivity|]); reflexivity.
Qed.

Lemma OpenGL_loop_spec (w : World) (l : list nat) :
  forall st,
    eyes_registered_OpenGL st (renderInfo st) ->
    Forall (fun i => (i < length (renderInfo st))%nat) l ->
    exists evs,
      for_each l (OnRenderEvent_OpenGL_eye w) st
        = Returns (tt, set_trace (trace st ++ evs) st) /\
      List.filter is_PresentRenderBuffers evs = [].
Proof.
  induction l as [|i l IH]; intros st Hreg Hall.
  - exists []. destruct st. cbn. rewrite app_nil_r. auto.
  - inversion Hall as [|? ? Hi Hrest]; subst.
    destruct (OnRenderEvent_OpenGL_eye_spec w st i Hreg Hi)
      as (evs1 & Hrun1 & Hnone1).
    destruct (IH (set_trace (trace st ++ evs1) st)) as (evs & Hrun & Hnone);
      [destruct st; exact Hreg | destruct st; exact Hrest |].
    exists (evs1 ++ evs).
    cbn [for_each]. unfold bind. rewrite Hrun1, Hrun.
    rewrite List.filter_app, Hnone1, Hnone.
    destruct st. cbn. rewrite <- app_assoc. auto.
Qed.

Arguments for_each : simpl never.

Ltac tick_unfold :=
  repeat progress
    unfold OnRenderEvent, fetch_renderInfo, present, DebugLog,
      bind, ret, gets, modify, emit, call, deref, undefined.

(** Debug lines are neither copies nor present calls. *)
Lemma debug_lines_filtered (logs : list Event) :
  Forall (fun e => is_debugLog e = true) logs ->
  List.filter is_CopyResource logs = [] /\
  List.filter is_PresentRenderBuffers logs = [].
Proof.
  induction 1 as [|e logs He _ [IHcopy IHpresent]]; [auto|].
  destruct e; try discriminate He. cbn. auto.
Qed.

(** The render tick of the Direct3D 11 backend. *)
Lemma OnRenderEvent_Render_D3D11
    (w : World) (st : State) (m : RenderManager) :
  render st = live m ->
  s_DeviceType st = kUnityGfxRendererD3D11 ->
  eyes_registered_D3D11 st (GetRenderInfo m (length (trace st))) ->
  exists st' logs,
    OnRenderEvent w kOsvrEventID_Render st = Returns (tt, st') /\
    new_events st st'
      = E_GetRenderInfo ::
        concat (map (D3D11_eye_events st
                       (GetRenderInfo m (length (trace st))))
                    (seq 0 (length (GetRenderInfo m (length (trace st)))))) ++
        E_PresentRenderBuffers (renderBuffers st) (Some true) :: logs /\
    Forall (fun e => is_debugLog e = true) logs.
Proof.
  intros Hlive Hkind Hreg.
  destruct st as [dt rn cc rbs ris libs lp rp td fb dl tr].
  cbn [render s_DeviceType trace] in *. subst dt rn.
  pose (info := GetRenderInfo m (length tr)).
  pose (st1 := Build_State kUnityGfxRendererD3D11 (live m) cc rbs info libs
                 lp rp td fb dl (tr ++ [E_GetRenderInfo])).
  assert (Hloop := D3D11_loop_spec (seq 0 (length info)) st1 Hreg
                     (seq_below _)).
  subst st1 info. cbn [trace renderInfo set_trace] in Hloop.
  tick_unfold. cbn. case_decide; [|congruence].
  flat. rewrite Hloop. flat. cbn.
  destruct (PresentRenderBuffers m _ rbs (Some true));
    [|destruct (dl =? NULL) eqn:Hdl]; crunch Hdl.
  - eexists; exists []. split; [reflexivity|].
    split; [|constructor]. apply new_events_intro. cbn.
    rewrite <- !app_assoc. reflexivity.
  - eexists; exists []. split; [reflexivity|].
    split; [|constructor]. apply new_events_intro. cbn.
    rewrite <- !app_assoc. reflexivity.
  - eexists; eexists [_]. split; [reflexivity|].
    split; [apply new_events_intro; cbn; rewrite <- !app_assoc; reflexivity|].
    repeat constructor.
Qed.

(** The render tick of the OpenGL backend. *)
Lemma OnRenderEvent_Render_OpenGL
    (w : World) (st : State) (m : RenderManager) :
  render st = live m ->
  s_DeviceType st = kUnityGfxRendererOpenGL ->
  eyes_registered_OpenGL st (GetRenderInfo m (S (length (trace st)))) ->
  exists st',
    OnRenderEvent w kOsvrEventID_Render st = Returns (tt, st') /\
    List.filter is_PresentRenderBuffers (new_events st st')
      = [E_PresentRenderBuffers (renderBuffers st) None].
Proof.
  intros Hlive Hkind Hreg.
  destruct st as [dt rn cc rbs ris libs lp rp td fb dl tr].
  cbn [render s_DeviceType trace] in *. subst dt rn.
  pose (info := GetRenderInfo m (S (length tr))).
  pose (st1 := Build_State kUnityGfxRendererOpenGL (live m) cc rbs info libs
                 lp rp td fb dl ((tr ++ [E_GetRenderInfo]) ++ [E_GetRenderInfo])).
  destruct (OpenGL_loop_spec w (seq 0 (length info)) st1 Hreg (seq_below _))
    as (evs & Hloop & Hnone).
  subst st1 info. cbn [trace renderInfo set_trace] in Hloop.
  tick_unfold. cbn. case_decide; [congruence|]. case_decide; [|congruence].
  flat. rewrite !last_length. rewrite Hloop. flat. cbn.
  destruct (PresentRenderBuffers m _ rbs None);
    [|destruct (dl =? NULL) eqn:Hdl]; crunch Hdl.
  all: eexists; (split; [reflexivity|]).
  all: erewrite new_events_intro
         by (cbn; rewrite <- !app_assoc; reflexivity).
  all: cbn; rewrite !List.filter_app, Hnone; reflexivity.
Qed.


Lemma d3d11_two_eyes_registered (t : nat) :
  eyes_registered_D3D11 d3d11_two_eyes (GetRenderInfo demo_manager t).
Proof.
  intros i ri Hri.
  destruct i as [|[|i]]; [| |discriminate Hri];
    injection Hri as <-;
    (split; [eexists; reflexivity|]);
    eexists; eexists; (split; [vm_compute; reflexivity|reflexivity]).
Qed.

Lemma opengl_two_eyes_registered (t : nat) :
  eyes_registered_OpenGL opengl_two_eyes (GetRenderInfo pixel_manager t).
Proof.
  intros i ri Hri.
  destruct i as [|[|i]]; [| |discriminate Hri];
    eexists; eexists; (split; [vm_compute; reflexivity|reflexivity]).
Qed.


(** * Further properties of the plugin *)

(** ** The accessors *)

Ltac accessor_unfold :=
  unfold GetViewport, GetProjectionMatrix, GetEyePose, refreshed;
  plugin_unfold.

(** X1.  With a live manager that reports the eye, [GetViewport],
    [GetProjectionMatrix] and [GetEyePose] each fetch the render info once,
    store it in [renderInfo], and return the viewport, the projection and
    the pose of the entry of that eye in the fetched list. *)
Theorem accessors_return_the_fetched_entry
    (st : State) (m : RenderManager) (eye : Z) (ri : RenderInfo) :
  render st = live m ->
  0 <= eye ->
  GetRenderInfo m (length (trace st)) !! Z.to_nat eye = Some ri ->
  GetViewport eye st = Returns (viewport ri, refreshed m st) /\
  GetProjectionMatrix eye st = Returns (projection ri, refreshed m st) /\
  GetEyePose eye st = Returns (pose ri, refreshed m st).
Proof.
  destruct st as [dt rn cc rbs ris lib lp rp td fb dl tr].
  cbn [render trace]. intros -> Heye Hri.
  apply Z.ltb_ge in Heye.
  accessor_unfold. cbn. rewrite Heye, Hri. auto.
Qed.

Lemma accessors_witness :
  exists st',
    GetViewport 1 d3d11_session = Returns (viewport (demo_eye 960), st') /\
    renderInfo st' = [demo_eye 0; demo_eye 960].
Proof.
  destruct (accessors_return_the_fetched_entry d3d11_session demo_manager 1
              (demo_eye 960) eq_refl ltac:(lia) eq_refl) as (Hview & _ & _).
  eexists. split; [exact Hview|]. reflexivity.
Defined.

(** X2.  The accessors have no guard: without a session they dereference
    the null pointer, after a shutdown they use the deleted manager, and
    with an eye index the manager does not report they index [renderInfo]
    out of range. *)
Theorem accessors_undefined_without_session_or_eye
    (st : State) (eye : Z) :
  (render st = nullptr ->
   GetViewport eye st = Undefined NullDereference /\
   GetProjectionMatrix eye st = Undefined NullDereference /\
   GetEyePose eye st = Undefined NullDereference) /\
  (render st = dangling ->
   GetViewport eye st = Undefined UseAfterFree /\
   GetProjectionMatrix eye st = Undefined UseAfterFree /\
   GetEyePose eye st = Undefined UseAfterFree) /\
  (forall m,
     render st = live m ->
     eye < 0 \/
     Z.of_nat (length (GetRenderInfo m (length (trace st)))) <= eye ->
     GetViewport eye st = Undefined OutOfBounds /\
     GetProjectionMatrix eye st = Undefined OutOfBounds /\
     GetEyePose eye st = Undefined OutOfBounds).
Proof.
  destruct st as [dt rn cc rbs ris lib lp rp td fb dl tr].
  cbn [render trace]. split; [|split].
  - intros ->. accessor_unfold. cbn. auto.
  - intros ->. accessor_unfold. cbn. auto.
  - intros m -> Hout. accessor_unfold. cbn.
    destruct (eye <? 0) eqn:Hneg; [auto|].
    apply Z.ltb_ge in Hneg.
    destruct Hout as [Hout | Hout]; [lia|].
    rewrite (proj2 (lookup_ge_None _ _)) by lia. auto.
Qed.

Lemma accessors_undefined_witness :
  GetViewport 0 initial_State = Undefined NullDereference /\
  GetViewport 2 d3d11_session = Undefined OutOfBounds.
Proof.
  split.
  - apply (proj1 (accessors_undefined_without_session_or_eye
                    initial_State 0)). reflexivity.
  - apply (proj2 (proj2 (accessors_undefined_without_session_or_eye
                           d3d11_session 2)) demo_manager).
    + vm_compute. reflexivity.
    + right. vm_compute. discriminate.
Defined.

(** ** Creating the session, continued *)

(** What every call of [CreateRenderManagerFromUnity] does, whatever it
    returns. *)
Lemma CreateRenderManagerFromUnity_effect
    (w : World) (context : OSVR_ClientContext) (st : State) :
  exists rc st',
    CreateRenderManagerFromUnity w context st = Returns (rc, st') /\
    (exists evs,
       new_events st st'
         = E_createRenderManager context "Direct3D11" (library st) :: evs) /\
    clientContext st' = context /\
    s_DeviceType st' = s_DeviceType st /\
    renderBuffers st' = renderBuffers st /\
    library st' = library st /\
    render st' = match created_manager w context st with
                 | Some m => live m
                 | None => nullptr
                 end /\
    (rc = OSVR_RETURN_SUCCESS ->
     exists m,
       created_manager w context st = Some m /\
       renderInfo st' = GetRenderInfo m (S (S (S (length (trace st)))))).
Proof.
  destruct st as [dt rn cc rbs ris lib lp rp td fb dl tr].
  unfold created_manager. plugin_unfold. cbn.
  destruct (createRenderManager w (length tr) context "Direct3D11" lib)
    as [m|] eqn:Hmade; cbn; rewrite ?last_length.
  - destruct (doingOkay m (S (length tr))); cbn; rewrite ?last_length;
      [destruct (OpenDisplay m (S (S (length tr))))|];
      destruct (dl =? NULL) eqn:Hdl; crunch Hdl.
    all: eexists; eexists; (split; [reflexivity|]).
    all: (split; [eexists; trace_simpl; reflexivity|]).
    all: repeat split; try reflexivity; try discriminate.
    all: intros _; eexists; split; reflexivity.
  - destruct (dl =? NULL) eqn:Hdl; crunch Hdl.
    all: eexists; eexists; (split; [reflexivity|]).
    all: (split; [eexists; trace_simpl; reflexivity|]).
    all: repeat split; try reflexivity; discriminate.
Qed.

(** X3.  [CreateRenderManagerFromUnity] returns in every state.  Its first
    external call asks for a manager named "Direct3D11" bound to the stored
    [library], whatever the stored backend kind is; it stores the client
    context; it leaves the backend kind, the buffer sequence and the library
    as they were; and [render] holds the pointer the construction returned,
    also when the call returns a failure (the manager that is not okay, or
    whose display did not open, is kept, not deleted). *)
Theorem CreateRenderManagerFromUnity_returns_and_keeps_the_manager
    (w : World) (context : OSVR_ClientContext) (st : State) :
  exists rc st',
    CreateRenderManagerFromUnity w context st = Returns (rc, st') /\
    (exists evs,
       new_events st st'
         = E_createRenderManager context "Direct3D11" (library st) :: evs) /\
    clientContext st' = context /\
    s_DeviceType st' = s_DeviceType st /\
    renderBuffers st' = renderBuffers st /\
    library st' = library st /\
    render st' = match created_manager w context st with
                 | Some m => live m
                 | None => nullptr
                 end.
Proof.
  destruct (CreateRenderManagerFromUnity_effect w context st)
    as (rc & st' & Hrun & Hfirst & Hctx & Hkind & Hbufs & Hlib & Hrender & _).
  exists rc, st'. auto 10.
Qed.

(** X4.  After a [CreateRenderManagerFromUnity] that returned
    [OSVR_RETURN_SUCCESS], [render] points to the created manager, and
    [GetViewport] for an eye that manager reports returns the viewport the
    manager reports for that eye, unchanged. *)
Theorem GetViewport_after_successful_creation
    (w : World) (context : OSVR_ClientContext) (st st1 : State) :
  CreateRenderManagerFromUnity w context st
    = Returns (OSVR_RETURN_SUCCESS, st1) ->
  exists m,
    created_manager w context st = Some m /\
    render st1 = live m /\
    forall eye ri,
      0 <= eye ->
      GetRenderInfo m (length (trace st1)) !! Z.to_nat eye = Some ri ->
      GetViewport eye st1 = Returns (viewport ri, refreshed m st1).
Proof.
  intros Hrun.
  destruct (CreateRenderManagerFromUnity_effect w context st)
    as (rc & st' & Hrun' & _ & _ & _ & _ & _ & Hrender & Hsuccess).
  rewrite Hrun in Hrun'. injection Hrun' as <- <-.
  destruct (Hsuccess eq_refl) as (m & Hmade & _).
  rewrite Hmade in Hrender.
  exists m. split; [exact Hmade|]. split; [exact Hrender|].
  intros eye ri Heye Hri.
  destruct st1 as [dt rn cc rbs ris lib lp rp td fb dl tr].
  cbn [render trace] in *. subst rn.
  apply Z.ltb_ge in Heye.
  accessor_unfold. cbn. rewrite Heye, Hri. reflexivity.
Qed.

Lemma GetViewport_after_successful_creation_witness :
  exists st1 st2,
    CreateRenderManagerFromUnity d3d11_world 7
      (state_after (UnityPluginLoad d3d11_world) initial_State)
      = Returns (OSVR_RETURN_SUCCESS, st1) /\
    GetViewport 0 st1 = Returns (viewport (demo_eye 0), st2).
Proof.
  assert (Hrun : CreateRenderManagerFromUnity d3d11_world 7
                   (state_after (UnityPluginLoad d3d11_world) initial_State)
                 = Returns (OSVR_RETURN_SUCCESS, d3d11_session))
    by (vm_compute; reflexivity).
  destruct (GetViewport_after_successful_creation _ _ _ _ Hrun)
    as (m & Hmade & _ & Hview).
  assert (Hm : Some demo_manager = Some m)
    by (rewrite <- Hmade; reflexivity).
  injection Hm as <-.
  exists d3d11_session. eexists. split; [exact Hrun|].
  apply (Hview 0 (demo_eye 0)); [lia|reflexivity].
Defined.

(** ** Loading and unloading the plugin *)

(** X5.  [UnityPluginLoad] returns in every state: it registers the
    device-event callback, stores the renderer the host reports as the
    backend kind and, when that renderer is Direct3D 11 (and the backend is
    compiled in), stores in [library] a new Direct3D 11 binding made of the
    host's device and of the immediate context of that same device; for any
    other renderer [library] is left as it was.  The session pointer and the
    buffer sequence are not touched. *)
Theorem UnityPluginLoad_binds_the_host_device (w : World) (st : State) :
  exists st' t,
    UnityPluginLoad w st = Returns (tt, st') /\
    (exists evs,
       new_events st st' = E_RegisterDeviceEventCallback :: evs) /\
    s_DeviceType st' = GetRenderer w t /\
    render st' = render st /\
    renderBuffers st' = renderBuffers st /\
    if SUPPORT_D3D11 w && bool_decide (GetRenderer w t = kUnityGfxRendererD3D11)
    then exists t1 t2,
        library st'
          = {| lib_D3D11 :=
                 live {| device := GetDevice w t1;
                         context := GetImmediateContext w t2
                                      (GetDevice w t1) |};
               lib_OpenGL := lib_OpenGL (library st) |}
    else library st' = library st.
Proof.
  destruct st as [dt rn cc rbs ris lib lp rp td fb dl tr].
  plugin_unfold. cbn.
  destruct (dl =? NULL) eqn:Hdl; flags w; crunch Hdl.
  all: eexists; eexists; (split; [reflexivity|]).
  all: (split; [eexists; trace_simpl; reflexivity|]).
  all: repeat (split; [reflexivity|]).
  all: cbn; repeat (case_bool_decide; try congruence); cbn;
       try reflexivity.
  all: eexists; eexists; reflexivity.
Qed.

(** X6.  [UnityPluginLoad] followed by [UnityPluginUnload], on a state whose
    session pointer does not dangle, returns with the backend kind back at
    [kUnityGfxRendererNull].  The unload keeps the library binding made by
    the load and the buffer sequence; it leaves a null session null, and it
    deletes a live manager exactly when the loaded renderer is Direct3D 11
    (compiled in), leaving the pointer dangling. *)
Theorem UnityPluginLoad_then_Unload (w : World) (st : State) :
  render st <> dangling ->
  exists st1 st2,
    UnityPluginLoad w st = Returns (tt, st1) /\
    UnityPluginUnload w st1 = Returns (tt, st2) /\
    s_DeviceType st2 = kUnityGfxRendererNull /\
    library st2 = library st1 /\
    renderBuffers st2 = renderBuffers st /\
    (render st = nullptr -> render st2 = nullptr) /\
    (forall m, render st = live m ->
       render st2 =
         if SUPPORT_D3D11 w
            && bool_decide (s_DeviceType st1 = kUnityGfxRendererD3D11)
         then dangling else live m).
Proof.
  destruct st as [dt rn cc rbs ris lib lp rp td fb dl tr].
  cbn [render]. intros Hlive.
  plugin_unfold. cbn.
  destruct (dl =? NULL) eqn:Hdl; flags w; destruct rn as [|m|];
    try contradiction; crunch Hdl.
  all: eexists; eexists; (split; [reflexivity|]).
  all: crunch Hdl.
  all: repeat match goal with |- _ /\ _ => split end.
  all: try reflexivity.
  all: intros; try discriminate.
  all: try match goal with H : live _ = live _ |- _ => injection H as <- end.
  all: cbn; repeat (case_bool_decide; try congruence); cbn; reflexivity.
Qed.

Lemma UnityPluginLoad_then_Unload_witness :
  exists st1 st2,
    UnityPluginLoad d3d11_world initial_State = Returns (tt, st1) /\
    UnityPluginUnload d3d11_world st1 = Returns (tt, st2) /\
    s_DeviceType st1 = kUnityGfxRendererD3D11 /\
    s_DeviceType st2 = kUnityGfxRendererNull /\
    render st2 = nullptr.
Proof.
  destruct (UnityPluginLoad_then_Unload d3d11_world initial_State)
    as (st1 & st2 & Hload & Hunload & Hnull & _ & _ & Hrender & _).
  - discriminate.
  - exists st1, st2. split; [exact Hload|]. split; [exact Hunload|].
    split; [|split; [exact Hnull|apply Hrender; reflexivity]].
    vm_compute in Hload. injection Hload as <-. reflexivity.
Defined.

(** ** Shutdown, continued *)

Lemma for_each_cons (i : nat) (l : list nat) (body : nat -> M unit)
    (st : State) :
  for_each (i :: l) body st =
  match body i st with
  | Returns (_, st') => for_each l body st'
  | Undefined u => Undefined u
  end.
Proof. reflexivity. Qed.

(** One turn of the loop of [Shutdown] over a live OpenGL buffer. *)
Lemma Shutdown_OpenGL_buffer_spec (st : State) (i : nat)
    (rb : RenderBuffer) (gl : RenderBufferOpenGL) :
  renderBuffers st !! i = Some rb ->
  rb_OpenGL rb = live gl ->
  Shutdown_OpenGL_buffer i st =
  Returns (tt, set_renderBuffers (<[i := released rb]> (renderBuffers st))
                 (set_trace
                    (trace st ++
                     [E_glDeleteTextures
                        (texture_name_at (renderBuffers st) i)])
                    st)).
Proof.
  intros Hrb Hgl.
  unfold Shutdown_OpenGL_buffer, texture_name_at, released, bind, gets.
  rewrite (index_of_nat _ _ _ _ Hrb), Hrb, Hgl.
  destruct st. reflexivity.
Qed.

Lemma Shutdown_OpenGL_loop (n : nat) :
  forall k st,
    (forall i, (k <= i < k + n)%nat ->
       exists rb gl, renderBuffers st !! i = Some rb /\
                     rb_OpenGL rb = live gl) ->
    exists st',
      for_each (seq k n) Shutdown_OpenGL_buffer st = Returns (tt, st') /\
      same_but_buffers_and_trace st st' /\
      length (renderBuffers st') = length (renderBuffers st) /\
      (forall i, (k <= i < k + n)%nat ->
         exists rb, renderBuffers st !! i = Some rb /\
                    renderBuffers st' !! i = Some (released rb)) /\
      (forall i, ~ (k <= i < k + n)%nat ->
         renderBuffers st' !! i = renderBuffers st !! i) /\
      trace st' =
        trace st ++
        map (fun i => E_glDeleteTextures
                        (texture_name_at (renderBuffers st) i)) (seq k n).
Proof.
  induction n as [|n IH]; intros k st Hlive.
  - exists st. cbn. rewrite app_nil_r.
    unfold same_but_buffers_and_trace.
    repeat split; auto. intros i Hi. lia.
  - destruct (Hlive k ltac:(lia)) as (rb & gl & Hrb & Hgl).
    pose (st1 := set_renderBuffers (<[k := released rb]> (renderBuffers st))
                   (set_trace
                      (trace st ++
                       [E_glDeleteTextures
                          (texture_name_at (renderBuffers st) k)])
                      st)).
    assert (Hother : forall i, i <> k ->
              renderBuffers st1 !! i = renderBuffers st !! i).
    { intros i Hi. subst st1. destruct st as [dt rn cc rbs ris lib lp rp td fb dl tr]. cbn.
      apply list_lookup_insert_ne. lia. }
    destruct (IH (S k) st1) as (st' & Hrun & Hsame & Hlen & Hin & Hout & Htrace).
    { intros i Hi. rewrite Hother by lia. apply Hlive. lia. }
    exists st'. split; [|split; [|split; [|split; [|split]]]].
    + cbn [seq]. rewrite for_each_cons.
      rewrite (Shutdown_OpenGL_buffer_spec st k rb gl Hrb Hgl).
      exact Hrun.
    + unfold same_but_buffers_and_trace in *. subst st1.
      destruct st as [dt rn cc rbs ris lib lp rp td fb dl tr]. cbn in *. exact Hsame.
    + rewrite Hlen. subst st1. destruct st as [dt rn cc rbs ris lib lp rp td fb dl tr]. cbn. apply length_insert.
    + intros i Hi. destruct (decide (i = k)) as [->|Hne].
      * exists rb. split; [exact Hrb|].
        rewrite Hout by lia. subst st1. destruct st as [dt rn cc rbs ris lib lp rp td fb dl tr]. cbn in *.
        apply list_lookup_insert_eq. eapply lookup_lt_Some. exact Hrb.
      * destruct (Hin i ltac:(lia)) as (rb' & Hrb' & Hreleased).
        exists rb'. rewrite <- Hother by exact Hne. auto.
    + intros i Hi. rewrite Hout by lia. apply Hother. lia.
    + rewrite Htrace. subst st1. destruct st as [dt rn cc rbs ris lib lp rp td fb dl tr]. cbn [trace set_trace set_renderBuffers renderBuffers seq map].
      rewrite <- app_assoc. f_equal. cbn [app]. f_equal.
      apply map_ext_in. intros i Hi. apply in_seq in Hi.
      unfold texture_name_at.
      rewrite list_lookup_insert_ne by lia. reflexivity.
Qed.

Lemma external_calls_glDeleteTextures (f : nat -> GLuint) (l : list nat) :
  external_calls (map (fun i => E_glDeleteTextures (f i)) l)
  = map (fun i => E_glDeleteTextures (f i)) l.
Proof.
  induction l as [|i l IH]; [reflexivity|].
  cbn. unfold external_calls in IH. rewrite IH. reflexivity.
Qed.

(** What [Shutdown] does in the OpenGL backend when every eye of the stored
    render info has a live OpenGL buffer at its index. *)
Lemma Shutdown_OpenGL_effect (st : State) :
  s_DeviceType st = kUnityGfxRendererOpenGL ->
  eyes_registered_OpenGL st (renderInfo st) ->
  exists st',
    Shutdown st = Returns (tt, st') /\
    same_but_buffers_and_trace st st' /\
    external_calls (new_events st st')
      = E_glDeleteFramebuffers (frameBuffer st) ::
        map (fun i => E_glDeleteTextures
                        (texture_name_at (renderBuffers st) i))
            (seq 0 (length (renderInfo st))) /\
    length (renderBuffers st') = length (renderBuffers st) /\
    (forall i, (i < length (renderInfo st))%nat ->
       exists rb, renderBuffers st !! i = Some rb /\
                  renderBuffers st' !! i = Some (released rb)) /\
    (forall i, (length (renderInfo st) <= i)%nat ->
       renderBuffers st' !! i = renderBuffers st !! i).
Proof.
  intros Hkind Hreg.
  assert (Hlive : forall i, (0 <= i < 0 + length (renderInfo st))%nat ->
            exists rb gl, renderBuffers st !! i = Some rb /\
                          rb_OpenGL rb = live gl).
  { intros i Hi.
    destruct (lookup_lt_is_Some_2 (renderInfo st) i ltac:(lia)) as [ri Hri].
    exact (Hreg i ri Hri). }
  destruct st as [dt rn cc rbs ris lib lp rp td fb dl tr].
  cbn [s_DeviceType renderInfo renderBuffers frameBuffer] in *. subst dt.
  unfold Shutdown. plugin_unfold. cbn.
  destruct (dl =? NULL) eqn:Hdl; flat; cbn.
  all: match goal with
       | |- context [for_each _ _ ?s] =>
           destruct (Shutdown_OpenGL_loop (length ris) 0 s Hlive)
             as (st' & Hrun & Hsame & Hlen & Hin & Hout & Htrace)
       end.
  all: exists st'; split; [exact Hrun|].
  all: cbn [renderBuffers trace] in *.
  all: split; [exact Hsame|].
  all: split;
    [erewrite new_events_intro
       by (cbn [trace]; rewrite Htrace, <- ?app_assoc; reflexivity);
     cbn; unfold external_calls;
     rewrite ?List.filter_app; cbn;
     apply f_equal; apply external_calls_glDeleteTextures|].
  all: split; [exact Hlen|].
  all: split; [intros i Hi; apply Hin; lia|intros i Hi; apply Hout; lia].
Qed.

(** X7.  In the OpenGL backend, when every eye of the stored render info has
    a live OpenGL buffer at its index, [Shutdown] returns after deleting the
    framebuffer and then, in index order, the color texture of each of
    those buffers; it leaves the OpenGL part of each of them dangling in
    [renderBuffers], whose length and further entries are unchanged.  It
    does not delete the render manager: [render], the backend kind and
    [frameBuffer] are as before. *)
Theorem Shutdown_OpenGL_deletes_textures_and_keeps_the_manager (st : State) :
  s_DeviceType st = kUnityGfxRendererOpenGL ->
  eyes_registered_OpenGL st (renderInfo st) ->
  exists st',
    Shutdown st = Returns (tt, st') /\
    render st' = render st /\
    s_DeviceType st' = kUnityGfxRendererOpenGL /\
    frameBuffer st' = frameBuffer st /\
    external_calls (new_events st st')
      = E_glDeleteFramebuffers (frameBuffer st) ::
        map (fun i => E_glDeleteTextures
                        (texture_name_at (renderBuffers st) i))
            (seq 0 (length (renderInfo st))) /\
    length (renderBuffers st') = length (renderBuffers st) /\
    (forall i, (i < length (renderInfo st))%nat ->
       exists rb, renderBuffers st !! i = Some rb /\
                  renderBuffers st' !! i = Some (released rb)) /\
    (forall i, (length (renderInfo st) <= i)%nat ->
       renderBuffers st' !! i = renderBuffers st !! i).
Proof.
  intros Hkind Hreg.
  destruct (Shutdown_OpenGL_effect st Hkind Hreg)
    as (st' & Hrun & Hsame & Hcalls & Hlen & Hin & Hout).
  destruct Hsame as (Hk & Hrender & _ & _ & _ & _ & _ & _ & Hfb & _).
  exists st'. rewrite Hk, Hkind. auto 10.
Qed.

Lemma opengl_two_eyes_stored_registered :
  eyes_registered_OpenGL opengl_two_eyes (renderInfo opengl_two_eyes).
Proof.
  assert (Hinfo : renderInfo opengl_two_eyes = GetRenderInfo pixel_manager 0)
    by (vm_compute; reflexivity).
  rewrite Hinfo. apply opengl_two_eyes_registered.
Qed.

Lemma Shutdown_OpenGL_witness :
  exists st',
    Shutdown opengl_two_eyes = Returns (tt, st') /\
    render st' = live pixel_manager /\
    length (external_calls (new_events opengl_two_eyes st')) = 3%nat.
Proof.
  destruct (Shutdown_OpenGL_deletes_textures_and_keeps_the_manager
              opengl_two_eyes) as (st' & Hrun & Hrender & _ & _ & Hcalls & _).
  - vm_compute. reflexivity.
  - exact opengl_two_eyes_stored_registered.
  - exists st'. split; [exact Hrun|]. split.
    + rewrite Hrender. vm_compute. reflexivity.
    + rewrite Hcalls. vm_compute. reflexivity.
Defined.

(** X8.  After such a [Shutdown] in the OpenGL backend, with at least one
    eye in the stored render info, the buffers are still in [renderBuffers]
    with their OpenGL part deleted: a second [Shutdown] reads the texture
    name through the deleted object, and so does the next render tick when
    the manager (which is still live) reports at least one eye. *)
Theorem after_OpenGL_Shutdown_the_buffers_dangle
    (w : World) (st st' : State) :
  s_DeviceType st = kUnityGfxRendererOpenGL ->
  eyes_registered_OpenGL st (renderInfo st) ->
  renderInfo st <> [] ->
  Shutdown st = Returns (tt, st') ->
  Shutdown st' = Undefined UseAfterFree /\
  (forall m,
     render st = live m ->
     GetRenderInfo m (S (length (trace st'))) <> [] ->
     OnRenderEvent w kOsvrEventID_Render st' = Undefined UseAfterFree).
Proof.
  intros Hkind Hreg Hsome Hrun.
  destruct (Shutdown_OpenGL_effect st Hkind Hreg)
    as (st2 & Hrun2 & Hsame & _ & _ & Hin & _).
  rewrite Hrun in Hrun2. injection Hrun2 as <-.
  destruct Hsame as (Hk & Hrender & _ & Hinfo & _).
  destruct (Hin 0%nat) as (rb & _ & Hfirst).
  { destruct (renderInfo st); [contradiction|cbn; lia]. }
  destruct st' as [dt rn cc rbs ris lib lp rp td fb dl tr].
  cbn [s_DeviceType render renderInfo renderBuffers trace] in *.
  rewrite Hkind in Hk. subst dt.
  assert (Hris : ris <> []) by congruence.
  destruct rbs as [|rb0 rbs]; [discriminate Hfirst|].
  injection Hfirst as ->.
  split.
  - unfold Shutdown. plugin_unfold. cbn.
    destruct ris as [|ri ris]; [contradiction|].
    cbn [length seq].
    destruct (dl =? NULL) eqn:Hdl; flat; cbn; rewrite for_each_cons;
      reflexivity.
  - intros m Hm Heyes. rewrite Hm in Hrender. subst rn.
    tick_unfold. cbn.
    repeat (case_decide; try congruence).
    flat. rewrite !last_length.
    destruct (GetRenderInfo m (S (length tr))) as [|ri info] eqn:Hfetched;
      [contradiction|].
    cbn [length seq]. rewrite for_each_cons. reflexivity.
Qed.

Lemma after_OpenGL_Shutdown_witness :
  exists st',
    Shutdown opengl_two_eyes = Returns (tt, st') /\
    Shutdown st' = Undefined UseAfterFree /\
    OnRenderEvent opengl_world kOsvrEventID_Render st'
      = Undefined UseAfterFree.
Proof.
  assert (Hrun : exists st', Shutdown opengl_two_eyes = Returns (tt, st')).
  { destruct (Shutdown_OpenGL_effect opengl_two_eyes) as (st' & Hrun & _);
      [vm_compute; reflexivity|exact opengl_two_eyes_stored_registered|].
    eauto. }
  destruct Hrun as [st' Hrun].
  destruct (after_OpenGL_Shutdown_the_buffers_dangle opengl_world
              opengl_two_eyes st') as [Hagain Htick].
  - vm_compute. reflexivity.
  - exact opengl_two_eyes_stored_registered.
  - vm_compute. discriminate.
  - exact Hrun.
  - exists st'. split; [exact Hrun|]. split; [exact Hagain|].
    apply (Htick pixel_manager); [vm_compute; reflexivity|].
    cbn. discriminate.
Defined.

(** X9.  In the Direct3D 11 backend, on a session pointer that does not
    dangle, [Shutdown] returns with both host texture pointers null; its
    only external call is the destructor of a live manager (none for a null
    session), after which [render] dangles.  The buffers are not released:
    [renderBuffers] is unchanged, and so are the backend kind and the
    library binding. *)
Theorem Shutdown_D3D11_clears_the_host_pointers_and_keeps_the_buffers
    (st : State) :
  s_DeviceType st = kUnityGfxRendererD3D11 ->
  render st <> dangling ->
  exists st',
    Shutdown st = Returns (tt, st') /\
    leftEyeTexturePtr st' = NULL /\
    rightEyeTexturePtr st' = NULL /\
    renderBuffers st' = renderBuffers st /\
    s_DeviceType st' = kUnityGfxRendererD3D11 /\
    library st' = library st /\
    match render st with
    | live _ =>
        render st' = dangling /\
        external_calls (new_events st st') = [E_delete_RenderManager]
    | _ =>
        render st' = nullptr /\
        external_calls (new_events st st') = []
    end.
Proof.
  destruct st as [dt rn cc rbs ris lib lp rp td fb dl tr].
  cbn [s_DeviceType render]. intros -> Hlive.
  unfold Shutdown. plugin_unfold. cbn.
  destruct (dl =? NULL) eqn:Hdl; destruct rn as [|m|];
    try contradiction; crunch Hdl.
  all: eexists; (split; [reflexivity|]).
  all: repeat match goal with |- _ /\ _ => split end; try reflexivity.
  all: trace_simpl; reflexivity.
Qed.

Lemma Shutdown_D3D11_witness :
  exists st',
    Shutdown d3d11_two_eyes = Returns (tt, st') /\
    leftEyeTexturePtr d3d11_two_eyes = 500 /\
    leftEyeTexturePtr st' = NULL /\
    length (renderBuffers st') = 2%nat.
Proof.
  destruct (Shutdown_D3D11_clears_the_host_pointers_and_keeps_the_buffers
              d3d11_two_eyes)
    as (st' & Hrun & Hleft & _ & Hbufs & _).
  - vm_compute. reflexivity.
  - vm_compute. discriminate.
  - exists st'. split; [exact Hrun|]. split; [vm_compute; reflexivity|].
    split; [exact Hleft|]. rewrite Hbufs. vm_compute. reflexivity.
Defined.

(** X10.  With neither backend as the stored kind, [Shutdown] and
    [SetColorBufferFromUnity] return without any external call and without
    touching the session or the buffers ([SetColorBufferFromUnity] with
    [OSVR_RETURN_FAILURE]); the render tick is not inert: it still fetches
    the render info through [render], which is its only call with a live
    manager and a null dereference without a session. *)
Theorem without_backend_only_the_render_tick_reaches_the_manager
    (w : World) (st : State) (texturePtr : Handle) (eye : Z) :
  ~ backend_active st ->
  (exists st',
     Shutdown st = Returns (tt, st') /\
     external_calls (new_events st st') = [] /\
     render st' = render st /\
     renderBuffers st' = renderBuffers st) /\
  (exists st',
     SetColorBufferFromUnity w texturePtr eye st
       = Returns (OSVR_RETURN_FAILURE, st') /\
     external_calls (new_events st st') = [] /\
     render st' = render st /\
     renderBuffers st' = renderBuffers st) /\
  (forall m,
     render st = live m ->
     exists st',
       OnRenderEvent w kOsvrEventID_Render st = Returns (tt, st') /\
       new_events st st' = [E_GetRenderInfo] /\
       renderInfo st' = GetRenderInfo m (length (trace st)) /\
       renderBuffers st' = renderBuffers st) /\
  (render st = nullptr ->
   OnRenderEvent w kOsvrEventID_Render st = Undefined NullDereference).
Proof.
  intros Hnone. split; [|split; [|split]].
  - destruct st as [dt rn cc rbs ris lib lp rp td fb dl tr].
    unfold backend_active in Hnone. cbn [s_DeviceType] in Hnone.
    unfold Shutdown. plugin_unfold. cbn.
    destruct dt; try (exfalso; apply Hnone; auto; fail);
      destruct (dl =? NULL) eqn:Hdl; crunch Hdl;
      (eexists; split; [reflexivity|]);
      (split; [trace_simpl; reflexivity|]); auto.
  - rewrite SetColorBufferFromUnity_no_backend by exact Hnone.
    eexists. split; [reflexivity|].
    destruct st as [dt rn cc rbs ris lib lp rp td fb dl tr].
    unfold logged, registered, logged. cbn.
    destruct (dl =? NULL) eqn:Hdl, (eye =? 0); cbn; rewrite ?Hdl; cbn;
      (split; [trace_simpl; reflexivity|]); auto.
  - intros m Hm.
    destruct st as [dt rn cc rbs ris lib lp rp td fb dl tr].
    unfold backend_active in Hnone. cbn [s_DeviceType render] in *.
    subst rn. tick_unfold. cbn.
    destruct dt; try (exfalso; apply Hnone; auto; fail); cbn;
      (eexists; split; [reflexivity|]);
      (split; [trace_simpl; reflexivity|]); auto.
  - apply OnRenderEvent_Render_null_session.
Qed.

Lemma without_backend_witness :
  (exists st',
     Shutdown initial_State = Returns (tt, st') /\
     external_calls (new_events initial_State st') = []) /\
  OnRenderEvent d3d9_world kOsvrEventID_Render initial_State
    = Undefined NullDereference.
Proof.
  assert (Hnone : ~ backend_active initial_State)
    by (intros [Hkind | Hkind]; discriminate Hkind).
  destruct (without_backend_only_the_render_tick_reaches_the_manager
              d3d9_world initial_State 500 0 Hnone)
    as ((st' & Hrun & Hcalls & _) & _ & _ & Hnull).
  split; [exists st'; auto|]. apply Hnull. reflexivity.
Defined.

(** X11.  In the OpenGL backend, [Shutdown] runs its loop over the stored
    render info, not over the buffers: with a render info that has an eye
    and no buffer registered (the state a successful session creation
    leaves), it indexes the empty [renderBuffers]. *)
Theorem Shutdown_OpenGL_before_any_buffer_is_out_of_bounds (st : State) :
  s_DeviceType st = kUnityGfxRendererOpenGL ->
  renderInfo st <> [] ->
  renderBuffers st = [] ->
  Shutdown st = Undefined OutOfBounds.
Proof.
  destruct st as [dt rn cc rbs ris lib lp rp td fb dl tr].
  cbn [s_DeviceType renderInfo renderBuffers]. intros -> Hsome ->.
  destruct ris as [|ri ris]; [contradiction|].
  unfold Shutdown. plugin_unfold. cbn.
  destruct (dl =? NULL) eqn:Hdl; flat; cbn; rewrite for_each_cons;
    reflexivity.
Qed.

Lemma Shutdown_OpenGL_before_any_buffer_witness :
  Shutdown opengl_session = Undefined OutOfBounds.
Proof.
  apply Shutdown_OpenGL_before_any_buffer_is_out_of_bounds.
  - vm_compute. reflexivity.
  - vm_compute. discriminate.
  - vm_compute. reflexivity.
Defined.

(** X12.  A render tick does not check that buffers were registered: with a
    live manager that reports an eye and an empty [renderBuffers], it
    indexes the empty sequence, in either backend. *)
Theorem render_tick_before_any_buffer_is_out_of_bounds
    (w : World) (st : State) (m : RenderManager) :
  render st = live m ->
  renderBuffers st = [] ->
  (s_DeviceType st = kUnityGfxRendererD3D11 ->
   GetRenderInfo m (length (trace st)) <> [] ->
   OnRenderEvent w kOsvrEventID_Render st = Undefined OutOfBounds) /\
  (s_DeviceType st = kUnityGfxRendererOpenGL ->
   GetRenderInfo m (S (length (trace st))) <> [] ->
   OnRenderEvent w kOsvrEventID_Render st = Undefined OutOfBounds).
Proof.
  destruct st as [dt rn cc rbs ris lib lp rp td fb dl tr].
  cbn [s_DeviceType render renderBuffers trace]. intros -> ->.
  split; intros -> Heyes; tick_unfold; cbn;
    repeat (case_decide; try congruence); flat; rewrite ?last_length.
  - destruct (GetRenderInfo m (length tr)) as [|ri info];
      [contradiction|].
    cbn [length seq]. rewrite for_each_cons. reflexivity.
  - destruct (GetRenderInfo m (S (length tr))) as [|ri info];
      [contradiction|].
    cbn [length seq]. rewrite for_each_cons. reflexivity.
Qed.

Lemma render_tick_before_any_buffer_witness :
  OnRenderEvent d3d11_world kOsvrEventID_Render d3d11_session
    = Undefined OutOfBounds /\
  OnRenderEvent opengl_world kOsvrEventID_Render opengl_session
    = Undefined OutOfBounds.
Proof.
  split.
  - apply (proj1 (render_tick_before_any_buffer_is_out_of_bounds
                    d3d11_world d3d11_session demo_manager
                    ltac:(vm_compute; reflexivity)
                    ltac:(vm_compute; reflexivity)));
      [vm_compute; reflexivity|cbn; discriminate].
  - apply (proj2 (render_tick_before_any_buffer_is_out_of_bounds
                    opengl_world opengl_session pixel_manager
                    ltac:(vm_compute; reflexivity)
                    ltac:(vm_compute; reflexivity)));
      [vm_compute; reflexivity|cbn; discriminate].
Defined.

(** ** Registering textures, continued *)

(** A returning [ConstructBuffersD3D11] has appended one buffer when it
    returned success and none when it returned failure. *)
Lemma ConstructBuffersD3D11_appends (w : World) (st : State) (eye : Z)
    (rc : OSVR_ReturnCode) (st' : State) :
  ConstructBuffersD3D11 w eye st = Returns (rc, st') ->
  same_session st st' /\
  exists l,
    renderBuffers st' = renderBuffers st ++ l /\
    length l = match rc with
               | OSVR_RETURN_SUCCESS => 1%nat
               | OSVR_RETURN_FAILURE => 0%nat
               end.
Proof.
  destruct st as [dt rn cc rbs ris libs lp rp td fb dl tr].
  unfold same_session. plugin_unfold. cbn.
  destruct (dl =? NULL) eqn:Hdl; crunch Hdl;
    (destruct rn as [|m|]; [discriminate| |discriminate]); crunch Hdl;
    destruct (eye <? 0); crunch Hdl; try discriminate;
    destruct (_ !! Z.to_nat eye) as [ri|] eqn:Hri;
    crunch_with ltac:(first [rewrite Hdl | rewrite Hri]); try discriminate;
    destruct (lib_D3D11 (ri_library ri)) as [|lib|] eqn:Hlib;
    crunch_with ltac:(first [rewrite Hdl | rewrite Hri | rewrite Hlib]);
    try discriminate;
    destruct (CreateTexture2D w _ _ _) as [hr tex]; cbn;
    destruct (FAILED hr);
    crunch_with ltac:(first [rewrite Hdl | rewrite Hri | rewrite Hlib]);
    try (destruct (CreateRenderTargetView w _ _ _ _) as [hr2 view]; cbn;
         destruct (FAILED hr2); crunch_with ltac:(rewrite Hdl)).
  all: intros Hrun; injection Hrun as <- <-; cbn.
  all: (split; [repeat split|]).
  all: first [ exists []; rewrite app_nil_r; split; reflexivity
             | eexists [_]; split; reflexivity ].
Qed.

(** A returning [ConstructBuffersOpenGL] has appended one buffer, whose
    OpenGL part holds a name generated by [glGenRenderbuffers]. *)
Lemma ConstructBuffersOpenGL_appends (w : World) (st : State) (eye : Z)
    (st' : State) :
  ConstructBuffersOpenGL w eye st = Returns (tt, st') ->
  exists t,
    renderBuffers st' =
    renderBuffers st ++
    [{| rb_D3D11 := nullptr;
        rb_OpenGL := live {| colorBufferName := glGenRenderbuffers w t |} |}].
Proof.
  destruct st as [dt rn cc rbs ris lib lp rp td fb dl tr].
  opengl_unfold. cbn.
  destruct (glewInit w (length tr) =? GLEW_OK);
    destruct (dl =? NULL) eqn:Hdl; crunch Hdl;
    (destruct rn as [|m|]; [discriminate| |discriminate]); crunch Hdl;
    destruct (eye =? 0) eqn:Hzero; crunch Hdl;
    destruct (eye <? 0); crunch Hdl; try discriminate;
    destruct (_ !! Z.to_nat eye) eqn:Hri;
    crunch_with ltac:(first [rewrite Hdl | rewrite Hri]); try discriminate;
    destruct (image_bytes _ _ <=? _) eqn:Hfit;
    crunch_with ltac:(first [rewrite Hdl | rewrite Hri]); try discriminate.
  all: intros Hrun; injection Hrun as <-; cbn.
  all: eexists; reflexivity.
Qed.

Lemma SetColorBufferFromUnity_appends (w : World) (st : State)
    (texturePtr : Handle) (eye : Z) (rc : OSVR_ReturnCode) (st' : State) :
  SetColorBufferFromUnity w texturePtr eye st = Returns (rc, st') ->
  s_DeviceType st' = s_DeviceType st /\
  render st' = render st /\
  exists l,
    renderBuffers st' = renderBuffers st ++ l /\
    (length l <= 1)%nat /\
    (s_DeviceType st = kUnityGfxRendererOpenGL -> length l = 1%nat) /\
    (~ backend_active st -> l = []).
Proof.
  intros Hrun.
  destruct (registered_fields texturePtr eye st)
    as (Hkind & Hrender & Hbufs & _).
  destruct (decide (s_DeviceType st = kUnityGfxRendererD3D11)) as [Hd3d|Hnd3d];
    [|destruct (decide (s_DeviceType st = kUnityGfxRendererOpenGL))
        as [Hgl|Hngl]].
  - rewrite SetColorBufferFromUnity_D3D11 in Hrun by exact Hd3d.
    destruct (ConstructBuffersD3D11 w eye _) as [[rc' st1]|] eqn:Hconstruct;
      [|discriminate].
    injection Hrun as <- <-.
    destruct (ConstructBuffersD3D11_appends _ _ _ _ _ Hconstruct)
      as ((Hk & Hr & _) & l & Hl & Hlen).
    split; [congruence|]. split; [congruence|].
    exists l. rewrite Hl, Hbufs. split; [reflexivity|].
    split; [destruct rc'; lia|]. split; [congruence|].
    intros Hnone. exfalso. apply Hnone. left. exact Hd3d.
  - rewrite SetColorBufferFromUnity_OpenGL in Hrun by exact Hgl.
    destruct (ConstructBuffersOpenGL w eye _) as [[[] st1]|] eqn:Hconstruct;
      [|discriminate].
    injection Hrun as <- <-.
    destruct (ConstructBuffersOpenGL_effect _ _ _ _ Hconstruct)
      as ((Hk & Hr & _) & _).
    destruct (ConstructBuffersOpenGL_appends _ _ _ _ Hconstruct) as [t Hl].
    split; [congruence|]. split; [congruence|].
    eexists. rewrite Hl, Hbufs. split; [reflexivity|].
    split; [cbn; lia|]. split; [reflexivity|].
    intros Hnone. exfalso. apply Hnone. right. exact Hgl.
  - assert (Hnone : ~ backend_active st) by (intros [?|?]; contradiction).
    rewrite SetColorBufferFromUnity_no_backend in Hrun by exact Hnone.
    injection Hrun as <- <-.
    unfold logged.
    destruct (debugLog (registered texturePtr eye st) =? NULL); cbn;
      (split; [exact Hkind|]); (split; [exact Hrender|]);
      exists []; rewrite app_nil_r; (split; [exact Hbufs|]);
      (split; [cbn; lia|]); (split; [contradiction|]); reflexivity.
Qed.

(** X13.  [SetColorBufferFromUnity] only ever appends to [renderBuffers]:
    over any sequence of calls that returns, for any pointers and eye
    indices, the buffers registered before are still there, unchanged, at
    the front of the sequence; at most one is added per call, and in the
    OpenGL backend exactly one per call, also when an eye is registered
    again (the earlier buffer of that eye is neither released nor replaced).
    The backend kind and the session pointer are kept. *)
Theorem SetColorBufferFromUnity_only_appends
    (w : World) (calls : list (Handle * Z)) :
  forall st st',
    SetColorBufferFromUnity_each w calls st = Returns (tt, st') ->
    s_DeviceType st' = s_DeviceType st /\
    render st' = render st /\
    exists l,
      renderBuffers st' = renderBuffers st ++ l /\
      (length l <= length calls)%nat /\
      (s_DeviceType st = kUnityGfxRendererOpenGL ->
       length l = length calls) /\
      (~ backend_active st -> l = []).
Proof.
  induction calls as [|[texturePtr eye] rest IH]; intros st st' Hrun.
  - injection Hrun as <-. split; [reflexivity|]. split; [reflexivity|].
    exists []. rewrite app_nil_r. auto.
  - cbn [SetColorBufferFromUnity_each] in Hrun. unfold bind in Hrun.
    destruct (SetColorBufferFromUnity w texturePtr eye st)
      as [[rc st1]|] eqn:Hfirst; [|discriminate].
    destruct (SetColorBufferFromUnity_appends _ _ _ _ _ _ Hfirst)
      as (Hk1 & Hr1 & l1 & Hl1 & Hlen1 & Hgl1 & Hnone1).
    destruct (IH st1 st' Hrun) as (Hk & Hr & l & Hl & Hlen & Hgl & Hnone).
    split; [congruence|]. split; [congruence|].
    exists (l1 ++ l). rewrite Hl, Hl1, <- app_assoc.
    split; [reflexivity|]. rewrite length_app. cbn [length].
    split; [lia|]. split.
    + intros Hopengl. rewrite Hgl1, Hgl by congruence. reflexivity.
    + intros Hno. rewrite Hnone1 by exact Hno. apply Hnone.
      unfold backend_active in *. rewrite Hk1. exact Hno.
Qed.

Lemma SetColorBufferFromUnity_only_appends_witness :
  exists st',
    SetColorBufferFromUnity_each opengl_world [(500, 0); (501, 1); (502, 0)]
      opengl_session = Returns (tt, st') /\
    length (renderBuffers st') = 3%nat.
Proof.
  assert (Hrun : exists st',
            SetColorBufferFromUnity_each opengl_world
              [(500, 0); (501, 1); (502, 0)] opengl_session
            = Returns (tt, st'))
    by (eexists; vm_compute; reflexivity).
  destruct Hrun as [st' Hrun].
  destruct (SetColorBufferFromUnity_only_appends _ _ _ _ Hrun)
    as (_ & _ & l & Hl & _ & Hlen & _).
  exists st'. split; [exact Hrun|].
  rewrite Hl, length_app, Hlen by (vm_compute; reflexivity).
  vm_compute. reflexivity.
Defined.


(** X14.  A failed [glewInit] does not stop [ConstructBuffersOpenGL],
    although the line it logs says "aborting".  With a live manager that
    reports the eye, a viewport whose sizes are in the range of [int] and
    a color image that fits the variable passed as image data, the
    construction returns and has registered the buffer of the eye, also
    when [glewInit] failed: the line is logged when a sink is installed,
    and the construction goes on.  [glTexImage2D] is called with the
    integer parts of the width and height of that eye's viewport, in the
    render info the construction fetched, and with the address of the
    variable that holds the texture name as image data;
    [glRenderbufferStorage] is called with the same sizes. *)
Theorem ConstructBuffersOpenGL_goes_on_after_glewInit_failure
    (w : World) (st : State) (eye : Z) (m : RenderManager) :
  render st = live m ->
  0 <= eye ->
  (forall t, exists ri,
     GetRenderInfo m t !! Z.to_nat eye = Some ri /\
     viewport_fits_int ri /\ color_image_fits ri) ->
  exists st' ri name,
    ConstructBuffersOpenGL w eye st = Returns (tt, st') /\
    renderBuffers st' = renderBuffers st ++ [OpenGL_buffer name] /\
    (glewInit w (length (trace st)) <> GLEW_OK ->
     debugLog st <> NULL ->
     In (E_debugLog "glewInit failed, aborting.") (new_events st st')) /\
    renderInfo st' !! Z.to_nat eye = Some ri /\
    In (E_glTexImage2D (truncate (vp_width (viewport ri)))
                       (truncate (vp_height (viewport ri)))
                       (address_of_GLuint name))
       (new_events st st') /\
    In (E_glRenderbufferStorage
          (truncate (vp_width (viewport ri)))
          (truncate (vp_height (viewport ri))))
       (new_events st st').
Proof.
  destruct st as [dt rn cc rbs ris lib lp rp td fb dl tr].
  cbn [render trace debugLog renderBuffers]. intros -> Heye Hinfo.
  apply Z.ltb_ge in Heye.
  unfold OpenGL_buffer. opengl_unfold. cbn.
  destruct (glewInit w (length tr) =? GLEW_OK) eqn:Hglew;
    destruct (dl =? NULL) eqn:Hdl; crunch Hdl;
    destruct (eye =? 0) eqn:Hzero;
    crunch_with ltac:(first [rewrite Hdl | rewrite Heye]);
    match goal with
    | |- context [GetRenderInfo m ?t !! _] =>
        destruct (Hinfo t) as (ri & Hri & [Hwidth Hheight] & Hfit)
    end;
    apply Z.leb_le in Hfit;
    crunch_with ltac:(first [rewrite Hdl | rewrite Heye | rewrite Hri
                            | rewrite Hfit]).
  all: eexists; exists ri; eexists.
  all: rewrite <- (static_cast_int_exact _ Hwidth),
               <- (static_cast_int_exact _ Hheight).
  all: (split; [reflexivity|]).
  all: cbn; (split; [reflexivity|]).
  all: split;
    [intros Hfailed Hsink;
     try (apply Z.eqb_eq in Hglew; contradiction);
     try (apply Z.eqb_eq in Hdl; contradiction);
     trace_simpl; find_in|].
  all: (split; [exact Hri|]).
  all: split; trace_simpl; find_in.
Qed.

Lemma ConstructBuffersOpenGL_goes_on_witness :
  exists st',
    ConstructBuffersOpenGL glew_failing_world 0
      (state_after (LinkDebug 77) opengl_session) = Returns (tt, st') /\
    length (renderBuffers st') = 1%nat /\
    In (E_debugLog "glewInit failed, aborting.")
       (new_events (state_after (LinkDebug 77) opengl_session) st').
Proof.
  destruct (ConstructBuffersOpenGL_goes_on_after_glewInit_failure
              glew_failing_world (state_after (LinkDebug 77) opengl_session)
              0 pixel_manager)
    as (st' & ri & name & Hrun & Hbufs & Hlog & _).
  - vm_compute. reflexivity.
  - lia.
  - intros t. exists (pixel_eye 0). split; [reflexivity|].
    split; [split; vm_compute; intuition discriminate|].
    vm_compute. discriminate.
  - exists st'. split; [exact Hrun|]. split.
    + rewrite Hbufs. vm_compute. reflexivity.
    + apply Hlog; vm_compute; discriminate.
Defined.

(** X21.  On an OpenGL host whose display has 960 x 1080 viewports, the
    registration of the texture of an eye is undefined, for eye 0 as for
    eye 1: [ConstructBuffersOpenGL] passes the address of the four-byte
    variable that holds the texture name as the image data of a
    960 x 1080 RGB image of 3110400 bytes, which [glTexImage2D] reads past
    the end of the variable. *)
Theorem registration_on_a_960_by_1080_OpenGL_display_reads_out_of_bounds :
  image_bytes 960 1080 = 3110400 /\
  sizeof_GLuint = 4 /\
  SetColorBufferFromUnity opengl_hd_world 500 0 opengl_hd_session
    = Undefined OutOfBounds /\
  SetColorBufferFromUnity opengl_hd_world 501 1 opengl_hd_session
    = Undefined OutOfBounds /\
  ConstructBuffersOpenGL opengl_hd_world 0 opengl_hd_session
    = Undefined OutOfBounds.
Proof. repeat split; vm_compute; reflexivity. Qed.

(** ** The render tick, continued *)

Lemma OnRenderEvent_D3D11_eye_frame (i : nat) (st st' : State) :
  OnRenderEvent_D3D11_eye i st = Returns (tt, st') ->
  exists evs, st' = set_trace (trace st ++ evs) st.
Proof.
  destruct st as [dt rn cc rbs ris libs lp rp td fb dl tr].
  unfold OnRenderEvent_D3D11_eye, RenderViewD3D11. plugin_unfold. cbn.
  destruct (Z.of_nat i <? 0) eqn:Hneg; [discriminate|].
  destruct (ris !! _) as [ri|]; [|discriminate]. cbn. rewrite ?Hneg.
  destruct (rbs !! _) as [rb|] eqn:Hrb; [|discriminate]. cbn.
  destruct (rb_D3D11 rb) as [|d3d|] eqn:Hd3d; try discriminate. cbn.
  destruct (lib_D3D11 (ri_library ri)) as [|lib|]; try discriminate. cbn.
  destruct (Z.of_nat i =? 0); cbn; rewrite ?Hneg, ?Hrb; cbn; rewrite ?Hd3d; cbn;
    intros Hrun; injection Hrun as <-; eexists; flat;
    rewrite <- app_assoc; reflexivity.
Qed.

Lemma OnRenderEvent_OpenGL_eye_frame (w : World) (i : nat) (st st' : State) :
  OnRenderEvent_OpenGL_eye w i st = Returns (tt, st') ->
  exists evs, st' = set_trace (trace st ++ evs) st.
Proof.
  destruct st as [dt rn cc rbs ris libs lp rp td fb dl tr].
  unfold OnRenderEvent_OpenGL_eye, RenderViewOpenGL. plugin_unfold. cbn.
  destruct (Z.of_nat i <? 0) eqn:Hneg; [discriminate|].
  destruct (ris !! _) as [ri|]; [|discriminate]. cbn. rewrite ?Hneg.
  destruct (rbs !! _) as [rb|] eqn:Hrb; [|discriminate]. cbn.
  destruct (rb_OpenGL rb) as [|gl|] eqn:Hgl; try discriminate. cbn.
  destruct (glCheckFramebufferStatus w _ =? GL_FRAMEBUFFER_COMPLETE); cbn.
  - rewrite ?Hneg, ?Hrb. cbn. rewrite ?Hgl. cbn.
    intros Hrun; injection Hrun as <-. eexists. flat.
    rewrite <- !app_assoc. reflexivity.
  - destruct (dl =? NULL) eqn:Hdl; crunch Hdl;
      intros Hrun; injection Hrun as <-; eexists; flat;
      rewrite <- ?app_assoc; reflexivity.
Qed.

Lemma for_each_frame (body : nat -> M unit) (l : list nat) :
  (forall i st st', body i st = Returns (tt, st') ->
     exists evs, st' = set_trace (trace st ++ evs) st) ->
  forall st st',
    for_each l body st = Returns (tt, st') ->
    exists evs, st' = set_trace (trace st ++ evs) st.
Proof.
  intros Hbody. induction l as [|i l IH]; intros st st' Hrun.
  - injection Hrun as <-. exists [].
    destruct st as [dt rn cc rbs ris libs lp rp td fb dl tr].
    cbn. rewrite app_nil_r. reflexivity.
  - rewrite for_each_cons in Hrun.
    destruct (body i st) as [[[] st1]|] eqn:Hfirst; [|discriminate].
    destruct (Hbody _ _ _ Hfirst) as [evs1 ->].
    destruct (IH _ _ Hrun) as [evs ->].
    exists (evs1 ++ evs).
    destruct st as [dt rn cc rbs ris libs lp rp td fb dl tr].
    cbn. rewrite app_assoc. reflexivity.
Qed.

(** A render tick that returns has changed [renderInfo] and the trace and
    nothing else. *)
Lemma OnRenderEvent_Render_frame (w : World) (st st' : State) :
  OnRenderEvent w kOsvrEventID_Render st = Returns (tt, st') ->
  exists info evs,
    st' = set_renderInfo info (set_trace (trace st ++ evs) st).
Proof.
  destruct st as [dt rn cc rbs ris libs lp rp td fb dl tr].
  tick_unfold. cbn. rewrite renderer_value_not_minus_one.
  destruct rn as [|m|]; try discriminate. cbn.
  case_decide; [|case_decide].
  - flat.
    match goal with
    | |- context [for_each ?l ?b ?s] =>
        destruct (for_each l b s) as [[[] st1]|] eqn:Hloop; [|discriminate];
        destruct (for_each_frame b l OnRenderEvent_D3D11_eye_frame _ _ Hloop)
          as [evs ->]
    end.
    cbn. destruct (PresentRenderBuffers m _ _ _);
      [|destruct (dl =? NULL) eqn:Hdl]; crunch Hdl;
      intros Hrun; injection Hrun as <-; eexists; eexists; flat;
      rewrite <- ?app_assoc; reflexivity.
  - flat.
    match goal with
    | |- context [for_each ?l ?b ?s] =>
        destruct (for_each l b s) as [[[] st1]|] eqn:Hloop; [|discriminate];
        destruct (for_each_frame b l (OnRenderEvent_OpenGL_eye_frame w)
                    _ _ Hloop) as [evs ->]
    end.
    cbn. destruct (PresentRenderBuffers m _ _ _);
      [|destruct (dl =? NULL) eqn:Hdl]; crunch Hdl;
      intros Hrun; injection Hrun as <-; eexists; eexists; flat;
      rewrite <- ?app_assoc; reflexivity.
  - cbn. intros Hrun; injection Hrun as <-. eexists; eexists. reflexivity.
Qed.

(** X15.  A render tick that returns has changed [renderInfo] and the trace
    and nothing else: the backend kind, the session pointer, the buffer
    sequence, the host texture pointers, the library binding and the
    framebuffer name are those it found, in either backend and without
    one. *)
Theorem render_tick_changes_only_the_render_info
    (w : World) (st st' : State) :
  OnRenderEvent w kOsvrEventID_Render st = Returns (tt, st') ->
  s_DeviceType st' = s_DeviceType st /\
  render st' = render st /\
  renderBuffers st' = renderBuffers st /\
  leftEyeTexturePtr st' = leftEyeTexturePtr st /\
  rightEyeTexturePtr st' = rightEyeTexturePtr st /\
  library st' = library st /\
  frameBuffer st' = frameBuffer st /\
  clientContext st' = clientContext st /\
  textureDesc st' = textureDesc st /\
  debugLog st' = debugLog st /\
  exists evs, trace st' = trace st ++ evs.
Proof.
  intros Hrun.
  destruct (OnRenderEvent_Render_frame w st st' Hrun) as (info & evs & ->).
  destruct st as [dt rn cc rbs ris libs lp rp td fb dl tr].
  cbn. repeat (split; [reflexivity|]).
  exists evs. reflexivity.
Qed.

Lemma render_tick_changes_only_the_render_info_witness :
  exists st',
    OnRenderEvent d3d11_world kOsvrEventID_Render d3d11_two_eyes
      = Returns (tt, st') /\
    renderBuffers st' = renderBuffers d3d11_two_eyes /\
    leftEyeTexturePtr st' = 500.
Proof.
  assert (Hrun : exists st',
            OnRenderEvent d3d11_world kOsvrEventID_Render d3d11_two_eyes
            = Returns (tt, st'))
    by (eexists; vm_compute; reflexivity).
  destruct Hrun as [st' Hrun].
  destruct (render_tick_changes_only_the_render_info _ _ _ Hrun)
    as (_ & _ & Hbufs & Hleft & _).
  exists st'. split; [exact Hrun|]. split; [exact Hbufs|].
  rewrite Hleft. vm_compute. reflexivity.
Defined.

(** A run of ticks, when the stored kind is a backend and the manager [m],
    whenever asked, reports only eyes that have a buffer of that backend
    registered at their index. *)
Lemma render_ticks_spec (w : World) (m : RenderManager) (n : nat) :
  forall st,
    render st = live m ->
    (s_DeviceType st = kUnityGfxRendererD3D11 /\
     (forall t, eyes_registered_D3D11 st (GetRenderInfo m t))) \/
    (s_DeviceType st = kUnityGfxRendererOpenGL /\
     (forall t, eyes_registered_OpenGL st (GetRenderInfo m t))) ->
    exists st' evs,
      render_ticks w n st = Returns (tt, st') /\
      trace st' = trace st ++ evs /\
      length (List.filter is_PresentRenderBuffers evs) = n /\
      renderBuffers st' = renderBuffers st.
Proof.
  induction n as [|n IH]; intros st Hlive Hready.
  - exists st, []. rewrite app_nil_r. auto.
  - assert (Htick : exists st1,
              OnRenderEvent w kOsvrEventID_Render st = Returns (tt, st1) /\
              length (List.filter is_PresentRenderBuffers
                        (new_events st st1)) = 1%nat).
    { destruct Hready as [[Hkind Hreg] | [Hkind Hreg]].
      - destruct (OnRenderEvent_Render_D3D11 w st m Hlive Hkind (Hreg _))
          as (st1 & logs & Hrun & Hevents & Hlogs).
        exists st1. split; [exact Hrun|]. rewrite Hevents.
        destruct (D3D11_events_counts st _ _ (Hreg (length (trace st)))
                    (seq_below _)) as [_ Hnone].
        destruct (debug_lines_filtered logs Hlogs) as [_ Hlognone].
        cbn [List.filter is_PresentRenderBuffers].
        rewrite List.filter_app, Hnone.
        cbn [List.filter is_PresentRenderBuffers app]. rewrite Hlognone.
        reflexivity.
      - destruct (OnRenderEvent_Render_OpenGL w st m Hlive Hkind (Hreg _))
          as (st1 & Hrun & Hpresent).
        exists st1. split; [exact Hrun|]. rewrite Hpresent. reflexivity. }
    destruct Htick as (st1 & Hrun & Hone).
    destruct (OnRenderEvent_Render_frame w st st1 Hrun) as (info & evs1 & ->).
    assert (Hevs1 : new_events st
                      (set_renderInfo info (set_trace (trace st ++ evs1) st))
                    = evs1).
    { apply new_events_intro. destruct st; reflexivity. }
    rewrite Hevs1 in Hone.
    destruct (IH (set_renderInfo info (set_trace (trace st ++ evs1) st)))
      as (st' & evs & Hrest & Htrace & Hcount & Hbufs).
    { destruct st; exact Hlive. }
    { destruct st; exact Hready. }
    exists st', (evs1 ++ evs).
    cbn [render_ticks]. unfold bind. rewrite Hrun, Hrest.
    split; [reflexivity|]. split; [|split].
    + rewrite Htrace. destruct st; cbn. rewrite app_assoc. reflexivity.
    + rewrite List.filter_app, length_app, Hone, Hcount. reflexivity.
    + rewrite Hbufs. destruct st; reflexivity.
Qed.

(** X16.  With a live manager that, whenever asked, reports only eyes that
    have a buffer of the stored backend registered at their index, any
    number of render ticks in a row returns and makes exactly that number of
    present calls, whatever [PresentRenderBuffers] answers: a refused frame
    is logged, and the next tick fetches, copies and presents again.  The
    buffer sequence is the same after the ticks. *)
Theorem render_ticks_present_once_each
    (w : World) (m : RenderManager) (n : nat) (st : State) :
  render st = live m ->
  (s_DeviceType st = kUnityGfxRendererD3D11 /\
   (forall t, eyes_registered_D3D11 st (GetRenderInfo m t))) \/
  (s_DeviceType st = kUnityGfxRendererOpenGL /\
   (forall t, eyes_registered_OpenGL st (GetRenderInfo m t))) ->
  exists st',
    render_ticks w n st = Returns (tt, st') /\
    length (List.filter is_PresentRenderBuffers (new_events st st')) = n /\
    renderBuffers st' = renderBuffers st.
Proof.
  intros Hlive Hready.
  destruct (render_ticks_spec w m n st Hlive Hready)
    as (st' & evs & Hrun & Htrace & Hcount & Hbufs).
  exists st'. rewrite (new_events_intro _ _ _ Htrace). auto.
Qed.

Lemma render_ticks_witness :
  exists st',
    render_ticks d3d11_world 3 d3d11_two_eyes = Returns (tt, st') /\
    length (List.filter is_PresentRenderBuffers
              (new_events d3d11_two_eyes st')) = 3%nat.
Proof.
  destruct (render_ticks_present_once_each d3d11_world demo_manager 3
              d3d11_two_eyes) as (st' & Hrun & Hcount & _).
  - vm_compute. reflexivity.
  - left. split; [vm_compute; reflexivity|].
    exact d3d11_two_eyes_registered.
  - exists st'. auto.
Defined.

(** X17.  [RenderViewOpenGL] binds the framebuffer, attaches the color
    buffer, sets the draw buffer and asks for the framebuffer status.  When
    the status is not complete it returns at once, in any state: it makes
    no further OpenGL call (no viewport, no matrix, no clear) and does not
    read [renderBuffers].  When the status is complete it goes on to read
    the buffer of the eye, so that without a buffer at that index the call
    is an out-of-range access. *)
Theorem RenderViewOpenGL_returns_early_on_an_incomplete_framebuffer
    (w : World) (ri : RenderInfo) (framebuffer colorbuffer : GLuint)
    (i : nat) (st : State) :
  (glCheckFramebufferStatus w (S (S (S (length (trace st)))))
     <> GL_FRAMEBUFFER_COMPLETE ->
   exists st',
     RenderViewOpenGL w ri framebuffer colorbuffer (Z.of_nat i) st
       = Returns (tt, st') /\
     external_calls (new_events st st')
       = [E_glBindFramebuffer framebuffer;
          E_glFramebufferTexture colorbuffer;
          E_glDrawBuffers;
          E_glCheckFramebufferStatus] /\
     renderBuffers st' = renderBuffers st) /\
  (glCheckFramebufferStatus w (S (S (S (length (trace st)))))
     = GL_FRAMEBUFFER_COMPLETE ->
   renderBuffers st !! i = None ->
   RenderViewOpenGL w ri framebuffer colorbuffer (Z.of_nat i) st
     = Undefined OutOfBounds).
Proof.
  destruct st as [dt rn cc rbs ris libs lp rp td fb dl tr].
  cbn [trace renderBuffers]. unfold RenderViewOpenGL. plugin_unfold. cbn.
  rewrite !last_length. split.
  - intros Hstatus. apply Z.eqb_neq in Hstatus. rewrite Hstatus.
    destruct (dl =? NULL) eqn:Hdl; crunch Hdl;
      (eexists; split; [reflexivity|]);
      (split; [trace_simpl; reflexivity|reflexivity]).
  - intros Hstatus Hnone. apply Z.eqb_eq in Hstatus. rewrite Hstatus. cbn.
    replace (Z.of_nat i <? 0) with false by (symmetry; apply Z.ltb_ge; lia).
    rewrite Nat2Z.id, Hnone. reflexivity.
Qed.

Lemma RenderViewOpenGL_incomplete_witness :
  exists st',
    RenderViewOpenGL incomplete_framebuffer_world (demo_eye 0) 4 7
      (Z.of_nat 0) initial_State = Returns (tt, st') /\
    length (external_calls (new_events initial_State st')) = 4%nat.
Proof.
  destruct (proj1 (RenderViewOpenGL_returns_early_on_an_incomplete_framebuffer
                     incomplete_framebuffer_world (demo_eye 0) 4 7 0
                     initial_State))
    as (st' & Hrun & Hcalls & _).
  - cbn. discriminate.
  - exists st'. split; [exact Hrun|]. rewrite Hcalls. reflexivity.
Defined.

(** ** The device events, continued *)

(** X18.  A device Shutdown event followed by a device Initialize event on a
    Direct3D 11 host (the backend compiled in) brings the backend kind back
    to Direct3D 11 but not the session: the manager that was live is
    deleted and [render] dangles, so that the next render tick uses the
    deleted manager.  [CreateRenderManagerFromUnity] makes [render] point to
    the manager it creates again. *)
Theorem device_Shutdown_then_Initialize_needs_a_new_session
    (w : World) (st : State) (m : RenderManager) :
  SUPPORT_D3D11 w = true ->
  (forall t, GetRenderer w t = kUnityGfxRendererD3D11) ->
  s_DeviceType st = kUnityGfxRendererD3D11 ->
  render st = live m ->
  exists st1 st2,
    OnGraphicsDeviceEvent w kUnityGfxDeviceEventShutdown st
      = Returns (tt, st1) /\
    OnGraphicsDeviceEvent w kUnityGfxDeviceEventInitialize st1
      = Returns (tt, st2) /\
    s_DeviceType st2 = kUnityGfxRendererD3D11 /\
    render st2 = dangling /\
    renderBuffers st2 = renderBuffers st /\
    OnRenderEvent w kOsvrEventID_Render st2 = Undefined UseAfterFree /\
    forall context,
      exists rc st3,
        CreateRenderManagerFromUnity w context st2 = Returns (rc, st3) /\
        render st3 <> dangling.
Proof.
  intros Hsupport Hhost Hkind Hlive.
  destruct st as [dt rn cc rbs ris lib lp rp td fb dl tr].
  cbn [s_DeviceType render] in *. subst dt rn.
  plugin_unfold. cbn. rewrite Hsupport.
  destruct (dl =? NULL) eqn:Hdl; destruct (SUPPORT_OPENGL w);
    crunch_with ltac:(first [rewrite Hdl | rewrite Hhost]).
  all: eexists; eexists; (split; [reflexivity|]).
  all: crunch_with ltac:(first [rewrite Hdl | rewrite Hhost]).
  all: (split; [reflexivity|]).
  all: repeat (split; [reflexivity|]).
  all: intros context.
  all: match goal with
       | |- context [createRenderManager ?a ?t ?c ?n ?l] =>
           destruct (createRenderManager a t c n l) as [m'|]
       end; cbn; rewrite ?last_length.
  all: try match goal with
       | |- context [doingOkay ?a ?t] => destruct (doingOkay a t); cbn;
                                         rewrite ?last_length
       end.
  all: try match goal with
       | |- context [OpenDisplay ?a ?t] => destruct (OpenDisplay a t)
       end.
  all: crunch Hdl.
  all: eexists; eexists; (split; [reflexivity|]); discriminate.
Qed.

Lemma device_Shutdown_then_Initialize_witness :
  exists st1 st2,
    OnGraphicsDeviceEvent d3d11_world kUnityGfxDeviceEventShutdown
      d3d11_two_eyes = Returns (tt, st1) /\
    OnGraphicsDeviceEvent d3d11_world kUnityGfxDeviceEventInitialize st1
      = Returns (tt, st2) /\
    OnRenderEvent d3d11_world kOsvrEventID_Render st2
      = Undefined UseAfterFree.
Proof.
  destruct (device_Shutdown_then_Initialize_needs_a_new_session
              d3d11_world d3d11_two_eyes demo_manager)
    as (st1 & st2 & Hdown & Hup & _ & _ & _ & Htick & _).
  - reflexivity.
  - intros t. reflexivity.
  - vm_compute. reflexivity.
  - vm_compute. reflexivity.
  - exists st1, st2. auto.
Defined.

(** X20.  The device Shutdown event is safe to repeat: on a session pointer
    that does not dangle, two device Shutdown events in a row both return;
    the second finds the backend kind reset, enters no backend handler,
    makes no external call and leaves the session pointer and the buffers
    as the first left them. *)
Theorem device_Shutdown_event_can_be_repeated (w : World) (st : State) :
  render st <> dangling ->
  exists st1 st2,
    OnGraphicsDeviceEvent w kUnityGfxDeviceEventShutdown st
      = Returns (tt, st1) /\
    OnGraphicsDeviceEvent w kUnityGfxDeviceEventShutdown st1
      = Returns (tt, st2) /\
    s_DeviceType st1 = kUnityGfxRendererNull /\
    s_DeviceType st2 = kUnityGfxRendererNull /\
    handlers_entered (new_events st1 st2) = [] /\
    external_calls (new_events st1 st2) = [] /\
    render st2 = render st1 /\
    renderBuffers st2 = renderBuffers st1.
Proof.
  destruct st as [dt rn cc rbs ris lib lp rp td fb dl tr].
  cbn [render]. intros Hlive.
  plugin_unfold. cbn.
  destruct (dl =? NULL) eqn:Hdl; flags w; destruct rn as [|m|];
    try contradiction; crunch Hdl.
  all: eexists; eexists; split; [reflexivity|].
  all: crunch Hdl.
  all: split; [reflexivity|].
  all: repeat split; trace_simpl; reflexivity.
Qed.

Lemma device_Shutdown_event_can_be_repeated_witness :
  exists st1 st2,
    OnGraphicsDeviceEvent d3d11_world kUnityGfxDeviceEventShutdown
      d3d11_two_eyes = Returns (tt, st1) /\
    OnGraphicsDeviceEvent d3d11_world kUnityGfxDeviceEventShutdown st1
      = Returns (tt, st2) /\
    external_calls (new_events st1 st2) = [].
Proof.
  destruct (device_Shutdown_event_can_be_repeated d3d11_world d3d11_two_eyes)
    as (st1 & st2 & Hfirst & Hsecond & _ & _ & _ & Hnone & _).
  - vm_compute. discriminate.
  - exists st1, st2. auto.
Defined.

(** ** The debug sink *)

Ltac split_last :=
  first [ eexists []; eexists; split; [reflexivity|]
        | eexists [_]; eexists; split; [reflexivity|]
        | eexists [_; _]; eexists; split; [reflexivity|]
        | eexists [_; _; _]; eexists; split; [reflexivity|]
        | eexists [_; _; _; _]; eexists; split; [reflexivity|] ].

(** X19.  [LinkDebug] decides whether the plugin writes debug lines: after
    [LinkDebug] with a null sink, [CreateRenderManagerFromUnity] writes
    none; after [LinkDebug] with a sink, it writes exactly one line, as its
    last action, and that line is the success line exactly when the code
    it returns is [OSVR_RETURN_SUCCESS]. *)
Theorem CreateRenderManagerFromUnity_reports_to_the_linked_sink
    (w : World) (d : Handle) (context : OSVR_ClientContext) (st : State) :
  exists rc st',
    (LinkDebug d ;; CreateRenderManagerFromUnity w context) st
      = Returns (rc, st') /\
    debugLog st' = d /\
    if d =? NULL
    then List.filter is_debugLog (new_events st st') = []
    else exists evs line,
        new_events st st' = evs ++ [E_debugLog line] /\
        List.filter is_debugLog evs = [] /\
        (rc = OSVR_RETURN_SUCCESS <->
         line = "[OSVR Rendering Plugin] Success!").
Proof.
  destruct st as [dt rn cc rbs ris lib lp rp td fb dl tr].
  unfold LinkDebug. plugin_unfold. cbn.
  destruct (createRenderManager w (length tr) context "Direct3D11" lib)
    as [m|]; cbn; rewrite ?last_length;
    [destruct (doingOkay m (S (length tr))); cbn; rewrite ?last_length;
     [destruct (OpenDisplay m (S (S (length tr))))|]|];
    destruct (d =? NULL) eqn:Hd; crunch Hd.
  all: eexists; eexists; (split; [reflexivity|]); (split; [reflexivity|]).
  all: trace_simpl; try reflexivity.
  all: split_last; (split; [reflexivity|]).
  all: split; intros Heq; first [reflexivity | discriminate Heq].
Qed.
